(** * Temporal market window resolver of the Polymarket quotation logger

    A shallow embedding of the slug codec and window resolver of
    [cotationsLogger/polymarket_logger.js] ([parseSlug],
    [generateExpectedSlug], [isActiveMarket]) together with the decoders
    of the earlier generations of the script
    ([cotationsScrapper/polymarket_logger.js] and the two stand-alone
    scripts), the boundary function and the containment test of the
    first generation ([getActiveBougie], [isActiveMarket]), the encoder
    of the Scrapper generation, the chain of tests by which
    [refreshMarkets] attributes a slug to an asset and the rule by which
    it replaces an entry of [MARKETS], and the CSV writer [flushToCSV].

    Conventions
    - a JavaScript [Date] is its time value: [Some t] with [t] milliseconds
      since the Unix epoch, or [None] for an Invalid Date;
    - numbers are exact integers ([Z]); the source's doubles agree with them
      for every digit string below 2^53;
    - what the script takes from its runtime and not from its own text is
      gathered in the record [Runtime]: the time zone database entry for
      America/New_York (taken to switch between EST and EDT), the hour
      cycle chosen by [hour12: false], the local time zone of the host
      process, and the engine's fallback for date strings that are not in
      the ISO format; general statements hold for every such runtime,
      concrete evaluations use [nodeUTC], a Node.js process on a UTC host
      with the United States rule in force since 2007;
    - [toLocaleString('en-US', ...)] prints the hour on the 12-hour dial
      (12, 1, ..., 11) followed by AM or PM;
    - the files written by [flushToCSV] are kept per asset and writes are
      taken to succeed; a spot price is printed by an uninterpreted
      [toFixed];
    - console output ([DEBUG_MODE]) is left out. *)

From Stdlib Require Import ZArith Lia List Bool Ascii String DecimalString
                           DecimalPos.
Import ListNotations.
Open Scope Z_scope.

(** ** ECMAScript time values *)

Module ES.

Definition msPerSecond : Z := 1000.
Definition msPerMinute : Z := 60000.
Definition msPerHour : Z := 3600000.
Definition msPerDay : Z := 86400000.

(** [Date] objects: [None] is the Invalid Date. *)
Definition Date := option Z.

Definition maxTime : Z := 8640000000000000.

Definition TimeClip (t : Z) : Date :=
  if Z.abs t <=? maxTime then Some t else None.

Definition Day (t : Z) : Z := t / msPerDay.
Definition HourFromTime (t : Z) : Z := (t / msPerHour) mod 24.
Definition MinFromTime (t : Z) : Z := (t / msPerMinute) mod 60.
Definition SecFromTime (t : Z) : Z := (t / msPerSecond) mod 60.
Definition msFromTime (t : Z) : Z := t mod msPerSecond.
(** 0 is Sunday. *)
Definition WeekDay (t : Z) : Z := (Day t + 4) mod 7.

(** Day number of the first day of month [m] (1 to 12) of year [y] plus
    [d - 1], in the proleptic Gregorian calendar. *)
Definition daysFromCivil (y m d : Z) : Z :=
  let y' := if m <=? 2 then y - 1 else y in
  let era := y' / 400 in
  let yoe := y' - era * 400 in
  let mp := if m <=? 2 then m + 9 else m - 3 in
  let doy := (153 * mp + 2) / 5 + d - 1 in
  let doe := yoe * 365 + yoe / 4 - yoe / 100 + doy in
  era * 146097 + doe - 719468.

(** Calendar date (year, month 1 to 12, day of month) of a day number. *)
Definition civilFromDays (z : Z) : Z * Z * Z :=
  let z' := z + 719468 in
  let era := z' / 146097 in
  let doe := z' - era * 146097 in
  let yoe := (doe - doe / 1460 + doe / 36524 - doe / 146096) / 365 in
  let doy := doe - (365 * yoe + yoe / 4 - yoe / 100) in
  let mp := (5 * doy + 2) / 153 in
  let d := doy - (153 * mp + 2) / 5 + 1 in
  let m := if mp <? 10 then mp + 3 else mp - 9 in
  let y := yoe + era * 400 in
  ((if m <=? 2 then y + 1 else y), m, d).

Definition YearFromTime (t : Z) : Z := fst (fst (civilFromDays (Day t))).
(** [MonthFromTime] is zero based, as in the language. *)
Definition MonthFromTime (t : Z) : Z := snd (fst (civilFromDays (Day t))) - 1.
Definition DateFromTime (t : Z) : Z := snd (civilFromDays (Day t)).

(** [MakeDay year month date] with a zero-based [month] that may lie outside
    0..11 and a [date] that may lie outside the month. *)
Definition MakeDay (year month date : Z) : Z :=
  daysFromCivil (year + month / 12) (month mod 12 + 1) 1 + date - 1.

Definition MakeTime (h mi s ms : Z) : Z :=
  h * msPerHour + mi * msPerMinute + s * msPerSecond + ms.

Definition MakeDate (day time : Z) : Z := day * msPerDay + time.

(** Years 0..99 given to a [Date] constructor mean 1900..1999. *)
Definition fullYear (y : Z) : Z :=
  if (0 <=? y) && (y <=? 99) then 1900 + y else y.

(** [Date.UTC(y, m, d, h, mi, 0, 0)]. *)
Definition DateUTC (y m d h mi : Z) : Date :=
  TimeClip (MakeDate (MakeDay (fullYear y) m d) (MakeTime h mi 0 0)).

End ES.

(** ** Strings, numerals and the regular expressions of the slug grammars *)

Module Text.

Local Open Scope string_scope.

Definition isDigit (c : ascii) : bool :=
  let n := nat_of_ascii c in (48 <=? n)%nat && (n <=? 57)%nat.

Definition isLower (c : ascii) : bool :=
  let n := nat_of_ascii c in (97 <=? n)%nat && (n <=? 122)%nat.

Definition digitVal (c : ascii) : Z := Z.of_nat (nat_of_ascii c) - 48.

(** [parseInt] on a string of decimal digits (the only strings the capture
    groups [\d+] and [\d{n}] can hold). *)
Fixpoint parseDigits (acc : Z) (s : string) : Z :=
  match s with
  | EmptyString => acc
  | String c s' => parseDigits (acc * 10 + digitVal c) s'
  end.

Definition parseInt (s : string) : Z := parseDigits 0 s.

(** [String(n)] for an integer [n]. *)
Definition showZ (n : Z) : string :=
  DecimalString.NilZero.string_of_int (Z.to_int n).

(** [String(n).padStart(2, '0')]. *)
Definition pad2 (n : Z) : string :=
  let s := showZ n in
  if (String.length s <? 2)%nat then "0" ++ s else s.

(** The fragment of JavaScript regular expressions the script uses:
    literals, alternation, concatenation, greedy [c+], counted [c{n}] and
    capture groups (never nested), over the classes [\d] and [[a-z]]. *)
Inductive cclass := Digit | Lower.

Definition inClass (k : cclass) (c : ascii) : bool :=
  match k with Digit => isDigit c | Lower => isLower c end.

Inductive regex :=
| Lit (s : string)
| Alt (r1 r2 : regex)
| Cat (r1 r2 : regex)
| Plus (k : cclass)
| Rep (n : nat) (k : cclass)
| Group (r : regex).

Fixpoint stripPrefix (p s : string) : option string :=
  match p, s with
  | EmptyString, _ => Some s
  | String a p', String b s' =>
      if Ascii.eqb a b then stripPrefix p' s' else None
  | String _ _, EmptyString => None
  end.

Definition orElse {A} (x : option A) (y : option A) : option A :=
  match x with Some _ => x | None => y end.

(** Backtracking matcher in continuation-passing style: [k] receives the
    rest of the input and the captures made so far, in order. *)
Section Matcher.
Context {R : Type}.
Definition cont := string -> list string -> option R.

(** Greedy [c+]: consume as many characters of the class as possible,
    give some back when the continuation fails. *)
Fixpoint plusFrom (c : cclass) (s : string) (caps : list string) (k : cont)
  : option R :=
  match s with
  | String a s' =>
      if inClass c a
      then orElse (plusFrom c s' caps k) (k s' caps)
      else None
  | EmptyString => None
  end.

Fixpoint repFrom (n : nat) (c : cclass) (s : string) : option string :=
  match n with
  | O => Some s
  | S n' =>
      match s with
      | String a s' => if inClass c a then repFrom n' c s' else None
      | EmptyString => None
      end
  end.

Fixpoint rmatch (r : regex) (s : string) (caps : list string) (k : cont)
  : option R :=
  match r with
  | Lit p =>
      match stripPrefix p s with Some s' => k s' caps | None => None end
  | Alt r1 r2 => orElse (rmatch r1 s caps k) (rmatch r2 s caps k)
  | Cat r1 r2 => rmatch r1 s caps (fun s' caps' => rmatch r2 s' caps' k)
  | Plus c => plusFrom c s caps k
  | Rep n c =>
      match repFrom n c s with Some s' => k s' caps | None => None end
  | Group r' =>
      rmatch r' s caps (fun s' caps' =>
        k s' (caps' ++
              [substring 0 (String.length s - String.length s') s])%list)
  end.
End Matcher.

Definition matchHere (r : regex) (s : string) : option (list string) :=
  rmatch r s [] (fun _ caps => Some caps).

(** [slug.match(pattern)] without the [g] flag: the captures of the leftmost
    match, or [None] for [null]. *)
Fixpoint search (r : regex) (s : string) : option (list string) :=
  match matchHere r s with
  | Some caps => Some caps
  | None =>
      match s with
      | EmptyString => None
      | String _ s' => search r s'
      end
  end.

Fixpoint allClass (c : cclass) (w : string) : bool :=
  match w with
  | EmptyString => true
  | String a w' => inClass c a && allClass c w'
  end.

(** What a pattern can match, as a relation: [derives r w cs] when [r]
    matches exactly the text [w] and records the captures [cs]. *)
Inductive derives : regex -> string -> list string -> Prop :=
| D_Lit p : derives (Lit p) p []
| D_AltL r1 r2 w cs : derives r1 w cs -> derives (Alt r1 r2) w cs
| D_AltR r1 r2 w cs : derives r2 w cs -> derives (Alt r1 r2) w cs
| D_Cat r1 r2 w1 w2 cs1 cs2 :
    derives r1 w1 cs1 -> derives r2 w2 cs2 ->
    derives (Cat r1 r2) (w1 ++ w2) (cs1 ++ cs2)%list
| D_Plus c w : w <> "" -> allClass c w = true -> derives (Plus c) w []
| D_Rep n c w :
    String.length w = n -> allClass c w = true -> derives (Rep n c) w []
| D_Group r w cs : derives r w cs -> derives (Group r) w (cs ++ [w])%list.

(** Concatenation of a list of sub-patterns. *)
Fixpoint seq (rs : list regex) : regex :=
  match rs with
  | [] => Lit ""
  | [r] => r
  | r :: rs' => Cat r (seq rs')
  end.

End Text.

(** ** What the script takes from its runtime *)

(** The outcome of a call that may raise a [RangeError]
    ([formatToParts] of an Invalid Date). *)
Inductive outcome (A : Type) : Type :=
| Ret (a : A)
| Throw.
Arguments Ret {A} a.
Arguments Throw {A}.

Definition bind {A B} (x : outcome A) (f : A -> outcome B) : outcome B :=
  match x with Ret a => f a | Throw => Throw end.

Notation "x <- c1 ;; c2" := (bind c1 (fun x => c2))
  (at level 61, c1 at next level, right associativity).

(** - [nyEDT]: the zone database for America/New_York, whether EDT is in
      force at an instant;
    - [midnight24]: whether the [hour12: false] formatter prints the
      midnight hour as 24 (engines differ);
    - [hostLocal], [hostUTC]: [LocalTime] and [UTC] of the host process's
      own time zone;
    - [parseOther]: [Date.parse] on a string that is not in the ISO
      format. *)
Record Runtime := {
  nyEDT : Z -> bool;
  midnight24 : bool;
  hostLocal : Z -> Z;
  hostUTC : Z -> Z;
  parseOther : string -> ES.Date
}.

(** The United States rule in force since 2007: daylight time from the
    second Sunday of March, 07:00 UTC, to the first Sunday of November,
    06:00 UTC.  It is applied to every year, so it stands for the zone's
    data from March 2007 on (and in the winter months of any year); the
    general statements do not depend on it. *)
Definition firstSundayFrom (day : Z) : Z := day + (7 - (day + 4) mod 7) mod 7.

Definition usEasternEDT (t : Z) : bool :=
  let y := ES.YearFromTime t in
  let start := (firstSundayFrom (ES.MakeDay y 2 1) + 7) * ES.msPerDay
               + 7 * ES.msPerHour in
  let stop := firstSundayFrom (ES.MakeDay y 10 1) * ES.msPerDay
              + 6 * ES.msPerHour in
  (start <=? t) && (t <? stop).

(** A Node.js process on a host that keeps UTC. *)
Definition nodeUTC : Runtime := {|
  nyEDT := usEasternEDT;
  midnight24 := false;
  hostLocal := fun t => t;
  hostUTC := fun t => t;
  parseOther := fun _ => None
|}.

(** ** Civil time in the reference zone *)

(** Instants from the epoch to the end of year 9999 (UTC); their civil year
    in the reference zone has four digits. *)
Definition inFourDigitEra (t : Z) : Prop := 0 <= t < 253402300800000.

Section CivilTime.
Variable rt : Runtime.

(** Offset of America/New_York from UTC, in minutes. *)
Definition nyOffsetMin (t : Z) : Z := if nyEDT rt t then -240 else -300.

(** Local time value of the reference zone at instant [t]. *)
Definition nyLocal (t : Z) : Z := t + nyOffsetMin t * ES.msPerMinute.

Record Parts := {
  pYear : Z; pMonth : Z; pDay : Z; pHour : Z; pMinute : Z
}.

(** The formatter prints the year of the era. *)
Definition eraYear (y : Z) : Z := if y <=? 0 then 1 - y else y.

Definition cycleHour (h : Z) : Z :=
  if midnight24 rt && (h =? 0) then 24 else h.

(** The hour field is printed as it is, when the midnight hour is not at
    stake. *)
Definition plainHour (l : Z) : Prop :=
  midnight24 rt = false \/ ES.HourFromTime l <> 0.

(** Numeric fields of [etFmt.formatToParts(new Date(t))]. *)
Definition etParts (t : Z) : Parts :=
  let l := nyLocal t in
  {| pYear := eraYear (ES.YearFromTime l);
     pMonth := ES.MonthFromTime l + 1;
     pDay := ES.DateFromTime l;
     pHour := cycleHour (ES.HourFromTime l);
     pMinute := ES.MinFromTime l |}.

(** The civil date (year, month, day) shown at instant [t]. *)
Definition civilDate (t : Z) : Z * Z * Z :=
  let p := etParts t in (pYear p, pMonth p, pDay p).

(** The start-alignment invariant of a window descriptor: a civil minute
    of 0, 15, 30 or 45 for m15, a civil minute of 0 for h1, civil 00:00
    for daily. *)
Definition minuteAligned (quarter : bool) (t : Z) : bool :=
  let mi := ES.MinFromTime (nyLocal t) in
  if quarter then existsb (Z.eqb mi) [0; 15; 30; 45] else mi =? 0.

Definition midnightAligned (t : Z) : bool :=
  (ES.HourFromTime (nyLocal t) =? 0) && (ES.MinFromTime (nyLocal t) =? 0).

(** [formatToParts] raises a [RangeError] on an Invalid Date. *)
Definition formatToParts (d : ES.Date) : outcome Parts :=
  match d with Some t => Ret (etParts t) | None => Throw end.

(** The [timeZoneName: 'short'] probe followed by
    [tzName === 'EDT' ? '-04:00' : '-05:00'], as minutes. *)
Definition probeOffset (d : ES.Date) : outcome Z :=
  match d with Some t => Ret (nyOffsetMin t) | None => Throw end.

Definition offsetText (offMin : Z) : string :=
  if offMin =? -240 then "-04:00"%string else
  if offMin =? -300 then "-05:00"%string else "Z"%string.

(** The text given to [new Date(...)] by the templates
    [`${y}-${MM}-${DD}T${HH}:${MI}:${SS}${offset}`]. *)
Definition isoText (y mo d h mi s offMin : Z) : string :=
  (Text.showZ y ++ "-" ++ Text.pad2 mo ++ "-" ++ Text.pad2 d ++ "T"
   ++ Text.pad2 h ++ ":" ++ Text.pad2 mi ++ ":" ++ Text.pad2 s
   ++ offsetText offMin)%string.

(** [new Date(text)] for such a text, as V8 reads it: the date part must be
    a four-digit year, a month 01..12 and a day 01..31 (a day beyond the
    month's end carries over), otherwise the engine's fallback parser
    decides; the time part must be 00:00..23:59 or 24:00:00, otherwise the
    date is invalid. *)
Definition dateFromISO (y mo d h mi s offMin : Z) : ES.Date :=
  if (1000 <=? y) && (y <=? 9999) && (1 <=? mo) && (mo <=? 12)
     && (1 <=? d) && (d <=? 31)
  then
    if ((0 <=? h) && (h <=? 23) && (0 <=? mi) && (mi <=? 59)
        && (0 <=? s) && (s <=? 59))
       || ((h =? 24) && (mi =? 0) && (s =? 0))
    then ES.TimeClip (ES.MakeDate (ES.MakeDay y (mo - 1) d)
                                  (ES.MakeTime h mi s 0)
                      - offMin * ES.msPerMinute)
    else None
  else parseOther rt (isoText y mo d h mi s offMin).

(** [new Date(y, m, d, h, 0, 0, 0)]: components in the host's zone. *)
Definition dateLocal (y m d h : Z) : ES.Date :=
  ES.TimeClip (hostUTC rt (ES.MakeDate (ES.MakeDay (ES.fullYear y) m d)
                                       (ES.MakeTime h 0 0 0))).

(** [d.setMinutes(d.getMinutes() + k)] and [d.setHours(d.getHours() + k)],
    both through the host's local time. *)
Definition addMinutesLocal (k : Z) (d : ES.Date) : ES.Date :=
  match d with
  | None => None
  | Some t =>
      let l := hostLocal rt t in
      ES.TimeClip (hostUTC rt
        (ES.MakeDate (ES.Day l)
           (ES.MakeTime (ES.HourFromTime l) (ES.MinFromTime l + k)
                        (ES.SecFromTime l) (ES.msFromTime l))))
  end.

Definition addHoursLocal (k : Z) (d : ES.Date) : ES.Date :=
  match d with
  | None => None
  | Some t =>
      let l := hostLocal rt t in
      ES.TimeClip (hostUTC rt
        (ES.MakeDate (ES.Day l)
           (ES.MakeTime (ES.HourFromTime l + k) (ES.MinFromTime l)
                        (ES.SecFromTime l) (ES.msFromTime l))))
  end.

(** [new Date(y, m, 0).getDate()]: the length of month [m] (1 to 12) of
    year [y]; [None] stands for NaN. *)
Definition lastDayOfMonth (y m : Z) : option Z :=
  match dateLocal y m 0 0 with
  | Some t => Some (ES.DateFromTime (hostLocal rt t))
  | None => None
  end.

End CivilTime.

(** ** Assets, cadences and the slug grammars *)

Inductive asset := BTC | ETH | SOL | XRP.

(** [asset.toLowerCase()]. *)
Definition shortName (a : asset) : string :=
  match a with
  | BTC => "btc" | ETH => "eth" | SOL => "sol" | XRP => "xrp"
  end%string.

(** [fullNames[asset] || shortName]. *)
Definition fullName (a : asset) : string :=
  match a with
  | BTC => "bitcoin" | ETH => "ethereum" | SOL => "solana" | XRP => "xrp"
  end%string.

Inductive timeframe := m15 | h1 | daily.

(** The object [{ timeframe, timestamp }] returned by [parseSlug]. *)
Record parsed := {
  timeframe_of : timeframe;
  timestamp : ES.Date
}.

(** [m[i]] of a match array: capture group [i], counted from 1. *)
Definition cap (i : nat) (m : list string) : string :=
  nth (i - 1) m EmptyString.

Module Grammar.
Import Text.

Definition assetAlt (a : asset) : regex :=
  Group (Alt (Lit (shortName a)) (Lit (fullName a))).

(** [(short|full)-updown-(15m|1h|1d)-(\d+)] *)
Definition unixPattern (a : asset) : regex :=
  seq [assetAlt a; Lit "-updown-";
       Group (Alt (Lit "15m") (Alt (Lit "1h") (Lit "1d")));
       Lit "-"; Group (Plus Digit)].

(** [(short|full)-up-or-down-on-([a-z]+)-(\d+)] *)
Definition dailyPattern (a : asset) : regex :=
  seq [assetAlt a; Lit "-up-or-down-on-"; Group (Plus Lower);
       Lit "-"; Group (Plus Digit)].

(** [(short|full)-up-or-down-([a-z]+)-(\d+)-(\d+)(am|pm)-et] *)
Definition h1Pattern (a : asset) : regex :=
  seq [assetAlt a; Lit "-up-or-down-"; Group (Plus Lower);
       Lit "-"; Group (Plus Digit); Lit "-"; Group (Plus Digit);
       Group (Alt (Lit "am") (Lit "pm")); Lit "-et"].

(** The three patterns of the old format, keyed by cadence. *)
Definition legacyPattern (a : asset) (tf : timeframe) : regex :=
  match tf with
  | m15 =>
      seq [Lit (shortName a); Lit "-updown-15m-"; Group (Rep 4 Digit);
           Lit "-"; Group (Rep 2 Digit); Lit "-"; Group (Rep 2 Digit);
           Lit "-"; Group (Rep 2 Digit); Lit "-"; Group (Rep 2 Digit)]
  | h1 =>
      seq [Lit (shortName a); Lit "-updown-1h-"; Group (Rep 4 Digit);
           Lit "-"; Group (Rep 2 Digit); Lit "-"; Group (Rep 2 Digit);
           Lit "-"; Group (Rep 2 Digit)]
  | daily =>
      seq [Lit (shortName a); Lit "-updown-1d-"; Group (Rep 4 Digit);
           Lit "-"; Group (Rep 2 Digit); Lit "-"; Group (Rep 2 Digit)]
  end.

(** [MONTHS[name]] on the object literal of month numbers: an own entry,
    a property inherited from [Object.prototype] (the only one spelled in
    lower-case letters is [constructor]), or [undefined]. *)
Inductive monthEntry := MonthNum (n : Z) | MonthInherited | MonthMissing.

Definition monthNames : list string :=
  ["january"; "february"; "march"; "april"; "may"; "june"; "july";
   "august"; "september"; "october"; "november"; "december"]%string.

Fixpoint indexOf (s : string) (l : list string) (i : Z) : option Z :=
  match l with
  | [] => None
  | x :: l' => if String.eqb s x then Some i else indexOf s l' (i + 1)
  end.

Definition MONTHS (name : string) : monthEntry :=
  match indexOf name monthNames 1 with
  | Some n => MonthNum n
  | None => if String.eqb name "constructor" then MonthInherited
            else MonthMissing
  end.

(** [MONTHS[targetMo - 1]] of the encoder's array, spliced into a
    template. *)
Definition monthName (mo : Z) : string :=
  if (1 <=? mo) && (mo <=? 12)
  then nth (Z.to_nat (mo - 1)) monthNames "undefined"%string
  else "undefined"%string.

Definition isTag (tag : string) : Prop :=
  tag = "15m"%string \/ tag = "1h"%string \/ tag = "1d"%string.

Definition timeframeOfTag (tag : string) : option timeframe :=
  if String.eqb tag "15m" then Some m15
  else if String.eqb tag "1h" then Some h1
  else if String.eqb tag "1d" then Some daily
  else None.
End Grammar.

(** ** The current generation: [cotationsLogger/polymarket_logger.js] *)

Module Logger.
Import Grammar.

Section WithRuntime.
Variable rt : Runtime.

(** The year chosen for a slug that names only a month and a day, from
    the civil date [nowY]-[nowMo]-[nowD] read off the clock. *)
Definition inferYear (nowY nowMo nowD monthNum dayNum : Z) : Z :=
  if (monthNum <? nowMo) || ((monthNum =? nowMo) && (dayNum <? nowD))
  then nowY + 1
  else if (monthNum =? nowMo) && (dayNum =? nowD)
  then nowY
  else nowY.

(** First branch of [parseSlug]: [btc-updown-15m-1762104600]. *)
Definition decodeUnix (m : list string) : outcome (option parsed) :=
  let tfMatch := cap 2 m in
  let unixTimestamp := Text.parseInt (cap 3 m) in
  match timeframeOfTag tfMatch with
  | None => Ret None
  | Some tf =>
      let timestampUTC := ES.TimeClip (unixTimestamp * 1000) in
      et <- formatToParts rt timestampUTC ;;
      let testDate := ES.DateUTC (pYear et) (pMonth et - 1) (pDay et)
                                 (pHour et) (pMinute et) in
      offset <- probeOffset rt testDate ;;
      Ret (Some {| timeframe_of := tf;
                   timestamp := dateFromISO rt (pYear et) (pMonth et)
                                  (pDay et) (pHour et) (pMinute et) 0
                                  offset |})
  end.

(** Second branch: [bitcoin-up-or-down-on-november-3]; [clock] is the
    instant returned by [new Date()]. *)
Definition decodeDaily (clock : Z) (m : list string)
  : outcome (option parsed) :=
  let dayNum := Text.parseInt (cap 3 m) in
  match MONTHS (cap 2 m) with
  | MonthMissing => Ret None
  | MonthInherited => Throw
  | MonthNum monthNum =>
      let nowParts := etParts rt clock in
      let year := inferYear (pYear nowParts) (pMonth nowParts)
                            (pDay nowParts) monthNum dayNum in
      offset <- probeOffset rt (dateLocal rt year (monthNum - 1) dayNum 0) ;;
      Ret (Some {| timeframe_of := daily;
                   timestamp := dateFromISO rt year monthNum dayNum 0 0 0
                                  offset |})
  end.

(** 12-hour to 24-hour clock. *)
Definition hour24 (hourNum : Z) (ampm : string) : Z :=
  let h := if String.eqb ampm "pm" && (hourNum <? 12)
           then hourNum + 12 else hourNum in
  if String.eqb ampm "am" && (h =? 12) then 0 else h.

(** Third branch: [xrp-up-or-down-november-4-12pm-et]. *)
Definition decodeH1 (clock : Z) (m : list string)
  : outcome (option parsed) :=
  let dayNum := Text.parseInt (cap 3 m) in
  let hourNum := hour24 (Text.parseInt (cap 4 m)) (cap 5 m) in
  match MONTHS (cap 2 m) with
  | MonthMissing => Ret None
  | MonthInherited => Throw
  | MonthNum monthNum =>
      let nowParts := etParts rt clock in
      let year := inferYear (pYear nowParts) (pMonth nowParts)
                            (pDay nowParts) monthNum dayNum in
      offset <- probeOffset rt
                  (dateLocal rt year (monthNum - 1) dayNum hourNum) ;;
      Ret (Some {| timeframe_of := h1;
                   timestamp := dateFromISO rt year monthNum dayNum
                                  hourNum 0 0 offset |})
  end.

(** Last branch, the old format [btc-updown-15m-2025-11-02-13-30]; it is
    also the whole [parseSlug] of the first generation of the script. *)
Definition decodeLegacy (tf : timeframe) (m : list string)
  : outcome (option parsed) :=
  let year := Text.parseInt (cap 1 m) in
  let month := Text.parseInt (cap 2 m) in
  let day := Text.parseInt (cap 3 m) in
  let hour := Text.parseInt (cap 4 m) in
  let minute := Text.parseInt (cap 5 m) in
  let testDate := dateFromISO rt year month day 12 0 0 0 in
  offset <- probeOffset rt testDate ;;
  let timestamp :=
    match tf with
    | m15 => addMinutesLocal rt 15
               (dateFromISO rt year month day hour minute 0 offset)
    | h1 => addHoursLocal rt 1
              (dateFromISO rt year month day hour 0 0 offset)
    | daily => dateFromISO rt year month day 23 59 59 offset
    end in
  Ret (Some {| timeframe_of := tf; timestamp := timestamp |}).

(** [for (const [tf, pattern] of Object.entries(patterns))]. *)
Fixpoint legacyLoop (a : asset) (tfs : list timeframe) (slug : string)
  : outcome (option parsed) :=
  match tfs with
  | [] => Ret None
  | tf :: rest =>
      match Text.search (legacyPattern a tf) slug with
      | Some m => decodeLegacy tf m
      | None => legacyLoop a rest slug
      end
  end.

Definition parseSlug (clock : Z) (slug : string) (a : asset)
  : outcome (option parsed) :=
  match Text.search (unixPattern a) slug with
  | Some unixMatch => decodeUnix unixMatch
  | None =>
  match Text.search (dailyPattern a) slug with
  | Some dailyMatch => decodeDaily clock dailyMatch
  | None =>
  match Text.search (h1Pattern a) slug with
  | Some h1Match => decodeH1 clock h1Match
  | None => legacyLoop a [m15; h1; daily] slug
  end end end.

(** [Math.floor(dateET.getTime() / 1000)] spliced into a template. *)
Definition unixText (d : ES.Date) : string :=
  match d with
  | Some t => Text.showZ (t / 1000)
  | None => "NaN"%string
  end.

(** Civil start of the m15 window of [now], as the encoder computes it. *)
Definition m15Start (now : Z) : outcome ES.Date :=
  let p := etParts rt now in
  let targetMi := pMinute p / 15 * 15 in
  let testDate := ES.DateUTC (pYear p) (pMonth p - 1) (pDay p) (pHour p)
                             targetMi in
  offset <- probeOffset rt testDate ;;
  Ret (dateFromISO rt (pYear p) (pMonth p) (pDay p) (pHour p) targetMi 0
                   offset).

Definition generateExpectedSlug (a : asset) (tf : timeframe) (now : Z)
  : outcome string :=
  let p := etParts rt now in
  match tf with
  | m15 =>
      dateET <- m15Start now ;;
      Ret (shortName a ++ "-updown-15m-" ++ unixText dateET)%string
  | h1 =>
      let targetH := pHour p in
      let hour12 := if targetH =? 0 then 12
                    else if targetH >? 12 then targetH - 12 else targetH in
      let ampm : string := if targetH <? 12 then "am"%string
                           else "pm"%string in
      Ret (fullName a ++ "-up-or-down-" ++ monthName (pMonth p) ++ "-"
           ++ Text.showZ (pDay p) ++ "-" ++ Text.showZ hour12 ++ ampm
           ++ "-et")%string
  | daily =>
      let targetD := if pHour p >=? 12 then pDay p + 1 else pDay p in
      Ret (fullName a ++ "-up-or-down-on-" ++ monthName (pMonth p) ++ "-"
           ++ Text.showZ targetD)%string
  end.

(** The day of month the daily window of [now] must carry, as
    [isActiveMarket] computes it. *)
Definition expectedDay (nowParts : Parts) : Z :=
  if pHour nowParts >=? 12 then
    let expectedD := pDay nowParts + 1 in
    match lastDayOfMonth rt (pYear nowParts) (pMonth nowParts) with
    | Some daysInMonth => if expectedD >? daysInMonth then 1 else expectedD
    | None => expectedD
    end
  else pDay nowParts.

(** [isActiveMarket]: the pair [[matches, parsed.timestamp]], with [None]
    in second place for [null]. *)
Definition isActiveMarket (p : option parsed) (a : asset) (tf : timeframe)
           (now : Z) : outcome (bool * option ES.Date) :=
  match p with
  | None => Ret (false, None)
  | Some pr =>
      let n := etParts rt now in
      mk <- formatToParts rt (timestamp pr) ;;
      let matches :=
        match tf with
        | m15 =>
            (pYear n =? pYear mk) && (pMonth n =? pMonth mk)
            && (pDay n =? pDay mk) && (pHour n =? pHour mk)
            && (pMinute n >=? pMinute mk) && (pMinute n <? pMinute mk + 15)
        | h1 =>
            (pYear n =? pYear mk) && (pMonth n =? pMonth mk)
            && (pDay n =? pDay mk) && (pHour n =? pHour mk)
        | daily =>
            (pYear n =? pYear mk) && (pMonth n =? pMonth mk)
            && (expectedDay n =? pDay mk)
        end in
      Ret (matches, Some (timestamp pr))
  end.

(** One resolution pass with a single sample of the clock: encode, decode,
    test containment. *)
Definition resolve (a : asset) (tf : timeframe) (now : Z)
  : outcome (option parsed * bool) :=
  slug <- generateExpectedSlug a tf now ;;
  p <- parseSlug now slug a ;;
  r <- isActiveMarket p a tf now ;;
  Ret (p, fst r).

End WithRuntime.
End Logger.

(** ** Earlier generations of the decoder *)

(** [cotationsScrapper/polymarket_logger.js]: [parseSlug].  Its first
    branch is taken as soon as the epoch pattern matches. *)
Module Scrapper.
Import Grammar.

Definition decodeUnix (m : list string) : option parsed :=
  let tfMatch := cap 2 m in
  let unixTimestamp := Text.parseInt (cap 3 m) in
  match timeframeOfTag tfMatch with
  | None => None
  | Some tf =>
      Some {| timeframe_of := tf;
              timestamp := ES.TimeClip (unixTimestamp * 1000) |}
  end.

(** The text branches of that [parseSlug] read the clock from
    [now.toLocaleString('en-US', { timeZone: 'America/New_York' })], a text
    such as [11/2/2025, 6:47:00 PM], through the pattern
    [(\d+)\/(\d+)\/(\d+), (\d+):(\d+):(\d+)]: month, day, year, the
    hour as shown on the 12-hour dial, minute and second.  The AM/PM mark
    is not read. *)
Definition dial12 (h : Z) : Z := if h mod 12 =? 0 then 12 else h mod 12.

Record Reading := {
  rMonth : Z; rDay : Z; rYear : Z; rHour : Z; rMinute : Z; rSecond : Z
}.

Definition localeParts (rt : Runtime) (t : Z) : Reading :=
  let l := nyLocal rt t in
  {| rMonth := ES.MonthFromTime l + 1;
     rDay := ES.DateFromTime l;
     rYear := eraYear (ES.YearFromTime l);
     rHour := dial12 (ES.HourFromTime l);
     rMinute := ES.MinFromTime l;
     rSecond := ES.SecFromTime l |}.

(** [new Date(y, m, d, h, mi, s)]: components in the host's zone. *)
Definition dateLocalHMS (rt : Runtime) (y m d h mi s : Z) : ES.Date :=
  ES.TimeClip (hostUTC rt (ES.MakeDate (ES.MakeDay (ES.fullYear y) m d)
                                       (ES.MakeTime h mi s 0))).

(** [a < b] on two [Date] objects; false when either is invalid. *)
Definition dateLt (a b : ES.Date) : bool :=
  match a, b with
  | Some x, Some y => x <? y
  | _, _ => false
  end.

(** [let year = parseInt(nowParts[3]); ... if (candidateET < nowET)
    year += 1]. *)
Definition inferYear (rt : Runtime) (nowParts : Reading)
           (monthNum dayNum hourNum : Z) : Z :=
  let year := rYear nowParts in
  let candidateET := dateLocal rt year (monthNum - 1) dayNum hourNum in
  let nowET := dateLocalHMS rt (rYear nowParts) (rMonth nowParts - 1)
                 (rDay nowParts) (rHour nowParts) (rMinute nowParts)
                 (rSecond nowParts) in
  if dateLt candidateET nowET then year + 1 else year.

(** Second branch: [bitcoin-up-or-down-on-november-3]. *)
Definition decodeDaily (rt : Runtime) (clock : Z) (m : list string)
  : outcome (option parsed) :=
  let dayNum := Text.parseInt (cap 3 m) in
  match MONTHS (cap 2 m) with
  | MonthMissing => Ret None
  | MonthInherited => Throw
  | MonthNum monthNum =>
      let nowParts := localeParts rt clock in
      let year := inferYear rt nowParts monthNum dayNum 0 in
      offset <- probeOffset rt (dateLocal rt year (monthNum - 1) dayNum 0) ;;
      Ret (Some {| timeframe_of := daily;
                   timestamp := dateFromISO rt year monthNum dayNum 0 0 0
                                  offset |})
  end.

(** Third branch: [xrp-up-or-down-november-4-12pm-et]. *)
Definition decodeH1 (rt : Runtime) (clock : Z) (m : list string)
  : outcome (option parsed) :=
  let dayNum := Text.parseInt (cap 3 m) in
  let hourNum := Logger.hour24 (Text.parseInt (cap 4 m)) (cap 5 m) in
  match MONTHS (cap 2 m) with
  | MonthMissing => Ret None
  | MonthInherited => Throw
  | MonthNum monthNum =>
      let nowParts := localeParts rt clock in
      let year := inferYear rt nowParts monthNum dayNum hourNum in
      offset <- probeOffset rt
                  (dateLocal rt year (monthNum - 1) dayNum hourNum) ;;
      Ret (Some {| timeframe_of := h1;
                   timestamp := dateFromISO rt year monthNum dayNum
                                  hourNum 0 0 offset |})
  end.

(** The whole [parseSlug] of that generation; its last branch is the
    old-format decoder. *)
Definition parseSlug (rt : Runtime) (clock : Z) (slug : string) (a : asset)
  : outcome (option parsed) :=
  match Text.search (unixPattern a) slug with
  | Some unixMatch => Ret (decodeUnix unixMatch)
  | None =>
  match Text.search (dailyPattern a) slug with
  | Some dailyMatch => decodeDaily rt clock dailyMatch
  | None =>
  match Text.search (h1Pattern a) slug with
  | Some h1Match => decodeH1 rt clock h1Match
  | None => Logger.legacyLoop rt a [m15; h1; daily] slug
  end end end.

End Scrapper.

(** The start-alignment invariant, by cadence. *)
Definition startAligned (rt : Runtime) (tf : timeframe) (t : Z) : bool :=
  match tf with
  | m15 => minuteAligned rt true t
  | h1 => minuteAligned rt false t
  | daily => midnightAligned rt t
  end.

(** The stand-alone BTC m15 script: its [parseSlug] knows the epoch grammar
    only, with the short asset name, and returns [{ timestamp }]. *)
Module Probe.
Import Text.

Definition unixPattern (a : asset) : regex :=
  seq [Group (Lit (shortName a)); Lit "-updown-";
       Group (Alt (Lit "15m") (Alt (Lit "1h") (Lit "1d")));
       Lit "-"; Group (Plus Digit)].

Definition parseSlug (slug : string) (a : asset) : option ES.Date :=
  match search (unixPattern a) slug with
  | Some unixMatch =>
      let unixTimestamp := parseInt (cap 3 unixMatch) in
      Some (ES.TimeClip (unixTimestamp * 1000))
  | None => None
  end.

End Probe.

(** The first generation of the script: [parseSlug] is the old-format
    decoder alone. *)
Module FirstGen.

Definition parseSlug (rt : Runtime) (slug : string) (a : asset)
  : outcome (option parsed) :=
  Logger.legacyLoop rt a [m15; h1; daily] slug.

End FirstGen.

(** ** Scanning the catalogue: which asset a slug belongs to *)

Module Catalogue.

(** [s.startsWith(p)] and [s.includes(p)]. *)
Definition startsWith (p s : string) : bool :=
  match Text.stripPrefix p s with Some _ => true | None => false end.

Fixpoint includes (p s : string) : bool :=
  match s with
  | EmptyString => startsWith p EmptyString
  | String _ s' => startsWith p s || includes p s'
  end.

(** The [if / else if] chain at the head of the loop over the events of
    [refreshMarkets] (the same text in both multi-asset generations);
    [None] stands for [continue]. *)
Definition slugAsset (slug : string) : option asset :=
  if startsWith "btc-" slug || includes "bitcoin-" slug then Some BTC
  else if startsWith "eth-" slug || includes "ethereum-" slug then Some ETH
  else if startsWith "sol-" slug || includes "solana-" slug then Some SOL
  else if startsWith "xrp-" slug then Some XRP
  else None.

(** [allChars f s]: every character of [s] satisfies [f]. *)
Fixpoint allChars (f : ascii -> bool) (s : string) : bool :=
  match s with
  | EmptyString => true
  | String c s' => f c && allChars f s'
  end.

(** Characters of a printed number: digits, a sign, or the letters of
    [NaN]. *)
Definition numeric (c : ascii) : bool :=
  Text.isDigit c || Ascii.eqb c "-" || Ascii.eqb c "N" || Ascii.eqb c "a".

End Catalogue.

(** ** The boundary of the running candle in the earlier generations *)

(** [Math.ceil(n / 15) * 15] for an integer [n]. *)
Definition ceil15 (n : Z) : Z := - (- n / 15) * 15.

(** First generation: [getActiveBougie] builds, with [Date.UTC], the date
    whose UTC fields are the civil fields of the end of the running
    candle. *)
Module Bougie.

Definition getActiveBougie (rt : Runtime) (tf : timeframe) (now : Z)
  : ES.Date :=
  let p := etParts rt now in
  let year := pYear p in
  let month := pMonth p - 1 in
  let day := pDay p in
  let hour := pHour p in
  let minute := pMinute p in
  match tf with
  | m15 =>
      let next15 := ceil15 minute in
      if next15 =? 60 then ES.DateUTC year month day (hour + 1) 0
      else ES.DateUTC year month day hour next15
  | h1 => ES.DateUTC year month day (hour + 1) 0
  | daily => ES.DateUTC year month day 23 59
  end.

End Bougie.

(** [cotationsScrapper/polymarket_logger.js]: [generateExpectedSlug], whose
    m15 branch rounds the minute up and reads the civil fields as UTC. *)
Module ScrapperCodec.
Import Grammar.

Definition generateExpectedSlug (rt : Runtime) (a : asset) (tf : timeframe)
           (now : Z) : string :=
  let p := etParts rt now in
  let nowH := pHour p in
  let nowMi := pMinute p in
  match tf with
  | m15 =>
      let rolled := ceil15 nowMi =? 60 in
      let targetMi := if rolled then 0 else ceil15 nowMi in
      let targetH := if rolled then (nowH + 1) mod 24 else nowH in
      let targetD := if rolled && (targetH =? 0) then pDay p + 1
                     else pDay p in
      let unixTs := ES.DateUTC (pYear p) (pMonth p - 1) targetD targetH
                               targetMi in
      (shortName a ++ "-updown-15m-" ++ Logger.unixText unixTs)%string
  | h1 =>
      let targetH := nowH in
      let hour12 := if targetH =? 0 then 12
                    else if targetH >? 12 then targetH - 12 else targetH in
      let ampm : string := if targetH <? 12 then "am"%string
                           else "pm"%string in
      (fullName a ++ "-up-or-down-" ++ monthName (pMonth p) ++ "-"
       ++ Text.showZ (pDay p) ++ "-" ++ Text.showZ hour12 ++ ampm
       ++ "-et")%string
  | daily =>
      let targetD := if nowH >=? 12 then pDay p + 1 else pDay p in
      (fullName a ++ "-up-or-down-on-" ++ monthName (pMonth p) ++ "-"
       ++ Text.showZ targetD)%string
  end.

End ScrapperCodec.

(** The instant whose UTC fields are the civil day and hour of [l] with
    the minute rounded up to the quarter hour. *)
Definition quarterCeiling (l : Z) : Z :=
  ES.MakeDate (ES.Day l)
    (ES.MakeTime (ES.HourFromTime l) (ceil15 (ES.MinFromTime l)) 0 0).





(** Bounded enumeration, for exhaustive checks over calendar fields. *)
Fixpoint zrange (lo : Z) (n : nat) : list Z :=
  match n with
  | O => []
  | S n' => lo :: zrange (lo + 1) n'
  end.

(** The text side of a resolution pass for the two text grammars: the
    identifier written for given civil fields and what the decoder's
    patterns read back from it. *)
Module TextPass.
Import Grammar.

(** The h1 template of [generateExpectedSlug] on a civil month, day and
    hour. *)
Definition h1Text (a : asset) (mo d targetH : Z) : string :=
  let hour12 := if targetH =? 0 then 12
                else if targetH >? 12 then targetH - 12 else targetH in
  let ampm : string := if targetH <? 12 then "am"%string
                       else "pm"%string in
  (fullName a ++ "-up-or-down-" ++ monthName mo ++ "-"
   ++ Text.showZ d ++ "-" ++ Text.showZ hour12 ++ ampm ++ "-et")%string.

(** The daily template on a civil month and target day. *)
Definition dailyText (a : asset) (mo targetD : Z) : string :=
  (fullName a ++ "-up-or-down-on-" ++ monthName mo ++ "-"
   ++ Text.showZ targetD)%string.

(** The epoch and daily patterns miss the h1 identifier and the h1 pattern
    reads the month, day and hour back. *)
Definition h1TextOk (a : asset) (mo d h : Z) : bool :=
  let slug := h1Text a mo d h in
  match Text.search (unixPattern a) slug with
  | Some _ => false
  | None =>
  match Text.search (dailyPattern a) slug with
  | Some _ => false
  | None =>
  match Text.search (h1Pattern a) slug with
  | None => false
  | Some m =>
      match MONTHS (cap 2 m) with
      | MonthNum n => n =? mo
      | _ => false
      end
      && (Text.parseInt (cap 3 m) =? d)
      && (Logger.hour24 (Text.parseInt (cap 4 m)) (cap 5 m) =? h)
  end end end.

(** The epoch pattern misses the daily identifier and the daily pattern
    reads the month and day back. *)
Definition dailyTextOk (a : asset) (mo d : Z) : bool :=
  let slug := dailyText a mo d in
  match Text.search (unixPattern a) slug with
  | Some _ => false
  | None =>
  match Text.search (dailyPattern a) slug with
  | None => false
  | Some m =>
      match MONTHS (cap 2 m) with
      | MonthNum n => n =? mo
      | _ => false
      end
      && (Text.parseInt (cap 3 m) =? d)
  end end.

Definition assets : list asset := [BTC; ETH; SOL; XRP].

End TextPass.





(** ** The CSV writer and the market table *)

(** [flushToCSV] and the buffers it empties.  The files [<asset>.csv] are
    kept per asset ([None]: the file does not exist yet); writes are taken
    to succeed. *)
Module Csv.

Definition assetEqb (a b : asset) : bool :=
  match a, b with
  | BTC, BTC | ETH, ETH | SOL, SOL | XRP, XRP => true
  | _, _ => false
  end.

(** A field of a row: a string, or [None] for [undefined] and [null]. *)
Definition value := option string.

(** [(val && val !== 'NaN' && val !== null) ? val : ''] *)
Definition cleanValue (val : value) : string :=
  match val with
  | Some s =>
      if negb (String.eqb s EmptyString) && negb (String.eqb s "NaN")
      then s else EmptyString
  | None => EmptyString
  end.

(** [Array.prototype.join] on an array of strings. *)
Fixpoint join (sep : string) (l : list string) : string :=
  match l with
  | [] => EmptyString
  | x :: rest =>
      match rest with
      | [] => x
      | _ => (x ++ sep ++ join sep rest)%string
      end
  end.

Definition nl : string := String (ascii_of_nat 10) EmptyString.

Definition header : string :=
  "timestamp,spot_price,m15_buy,m15_sell,m15_spread_up,m15_spread_down,h1_buy,h1_sell,h1_spread_up,h1_spread_down,daily_buy,daily_sell,daily_spread_up,daily_spread_down"%string.

Definition upd {A : Type} (f : asset -> A) (a : asset) (v : A)
  : asset -> A :=
  fun x => if assetEqb x a then v else f x.

Section Writer.
(** The spot price is a number; [toFixed] is its
    [Number.prototype.toFixed]. *)
Variable Spot : Type.
Variable toFixed : Spot -> Z -> string.

Record row := {
  row_timestamp : string;
  spot_price : Spot;
  m15_buy : value; m15_sell : value;
  m15_spread_up : value; m15_spread_down : value;
  h1_buy : value; h1_sell : value;
  h1_spread_up : value; h1_spread_down : value;
  daily_buy : value; daily_sell : value;
  daily_spread_up : value; daily_spread_down : value
}.

Record state := {
  buffers : asset -> list row;
  files : asset -> option string
}.

Definition fields (a : asset) (r : row) : list string :=
  let spotDecimals := match a with XRP => 4 | _ => 2 end in
  [row_timestamp r; toFixed (spot_price r) spotDecimals;
   cleanValue (m15_buy r); cleanValue (m15_sell r);
   cleanValue (m15_spread_up r); cleanValue (m15_spread_down r);
   cleanValue (h1_buy r); cleanValue (h1_sell r);
   cleanValue (h1_spread_up r); cleanValue (h1_spread_down r);
   cleanValue (daily_buy r); cleanValue (daily_sell r);
   cleanValue (daily_spread_up r); cleanValue (daily_spread_down r)].

Definition line (a : asset) (r : row) : string := join "," (fields a r).

(** One turn of the loop [for (const asset of ASSETS)]. *)
Definition flushAsset (st : state) (a : asset) : state :=
  match buffers st a with
  | [] => st
  | buffer =>
      let lines :=
        (match files st a with
         | None => [header]
         | Some _ => []
         end ++ map (line a) buffer)%list in
      let data := (join nl lines ++ nl)%string in
      {| buffers := upd (buffers st) a [];
         files := upd (files st) a
                    (Some (match files st a with
                           | Some old => (old ++ data)%string
                           | None => data
                           end)) |}
  end.

Definition flushToCSV (ASSETS : list asset) (st : state) : state :=
  fold_left flushAsset ASSETS st.

(** [BUFFERS[asset].push(row)], as [collectData] does. *)
Definition push (a : asset) (st : state) (r : row) : state :=
  {| buffers := upd (buffers st) a (buffers st a ++ [r])%list;
     files := files st |}.

Definition pushAll (a : asset) (rows : list row) (st : state) : state :=
  fold_left (push a) rows st.

(** The text of rows written one per line. *)
Fixpoint rowsText (a : asset) (rows : list row) : string :=
  match rows with
  | [] => EmptyString
  | r :: rest => (line a r ++ nl ++ rowsText a rest)%string
  end.

End Writer.

Arguments row_timestamp {Spot}.
Arguments spot_price {Spot}.
Arguments m15_buy {Spot}.
Arguments m15_sell {Spot}.
Arguments m15_spread_up {Spot}.
Arguments m15_spread_down {Spot}.
Arguments h1_buy {Spot}.
Arguments h1_sell {Spot}.
Arguments h1_spread_up {Spot}.
Arguments h1_spread_down {Spot}.
Arguments daily_buy {Spot}.
Arguments daily_sell {Spot}.
Arguments daily_spread_up {Spot}.
Arguments daily_spread_down {Spot}.
Arguments buffers {Spot}.
Arguments files {Spot}.
Arguments fields {Spot}.
Arguments line {Spot}.
Arguments flushAsset {Spot}.
Arguments flushToCSV {Spot}.
Arguments push {Spot}.
Arguments pushAll {Spot}.
Arguments rowsText {Spot}.

(** Number of occurrences of a character. *)
Fixpoint count (c : ascii) (s : string) : nat :=
  match s with
  | EmptyString => O
  | String x s' => ((if Ascii.eqb x c then 1 else 0) + count c s')%nat
  end.

End Csv.

(** The table [MARKETS] and the rule by which [refreshMarkets] replaces
    one of its entries; [Info] stands for the title, the CLOB token ids
    and the start of the window. *)
Module Markets.

Section Table.
Variable Info : Type.

Record market := {
  slug : string;
  info : Info
}.

(** [(!oldMarket && newMarket) || (oldMarket && newMarket &&
    oldMarket.slug !== newMarket.slug)] guards the assignment
    [MARKETS[asset][tf] = newMarket]. *)
Definition update (oldMarket newMarket : option market) : option market :=
  match oldMarket, newMarket with
  | None, Some n => Some n
  | Some o, Some n =>
      if negb (String.eqb (slug o) (slug n)) then Some n else Some o
  | _, None => oldMarket
  end.

(** The entry after a series of refreshes. *)
Definition refreshes (old : option market) (news : list (option market))
  : option market :=
  fold_left update news old.

End Table.

Arguments slug {Info}.
Arguments info {Info}.
Arguments update {Info}.
Arguments refreshes {Info}.

End Markets.



(** [isActiveMarket] of the first generation: the civil fields of the
    boundary returned by [getActiveBougie] against those of the decoded
    timestamp. *)
Module FirstGenWindow.

Definition isActiveMarket (rt : Runtime) (p : option parsed)
           (tf : timeframe) (now : Z) : outcome bool :=
  match p with
  | None => Ret false
  | Some pr =>
      let activeBougie := Bougie.getActiveBougie rt tf now in
      active <- formatToParts rt activeBougie ;;
      market <- formatToParts rt (timestamp pr) ;;
      Ret (match tf with
           | m15 =>
               (pYear active =? pYear market)
               && (pMonth active =? pMonth market)
               && (pDay active =? pDay market)
               && (pHour active =? pHour market)
               && (pMinute active =? pMinute market)
           | h1 =>
               (pYear active =? pYear market)
               && (pMonth active =? pMonth market)
               && (pDay active =? pDay market)
               && (pHour active =? pHour market)
           | daily =>
               (pYear active =? pYear market)
               && (pMonth active =? pMonth market)
               && (pDay active =? pDay market)
           end)
  end.

End FirstGenWindow.



(** ** The embedding on concrete inputs *)

Example ES_day_2025_11_02 : ES.MakeDay 2025 10 2 = 20394.
Proof. reflexivity. Qed.

Example ES_civil_2025_11_02 : ES.civilFromDays 20394 = (2025, 11, 2).
Proof. reflexivity. Qed.

Example ES_civil_epoch : ES.civilFromDays 0 = (1970, 1, 1).
Proof. reflexivity. Qed.

Example ES_weekday_2025_11_02 : ES.WeekDay 1762041600000 = 0.
Proof. reflexivity. Qed.

Example showZ_ex : Text.showZ 1762104600 = "1762104600"%string.
Proof. reflexivity. Qed.

Example pad2_ex : (Text.pad2 7, Text.pad2 12, Text.pad2 100)
                  = ("07", "12", "100")%string.
Proof. reflexivity. Qed.

Example parseInt_ex : Text.parseInt "0042" = 42.
Proof. reflexivity. Qed.

Example search_ex :
  Text.search
    (Text.seq [Text.Group (Text.Alt (Text.Lit "btc") (Text.Lit "bitcoin"));
               Text.Lit "-updown-";
               Text.Group (Text.Plus Text.Digit)])
    "xx-bitcoin-updown-123-4"
  = Some ["bitcoin"; "123"]%string.
Proof. reflexivity. Qed.

Example edt_before_fallback_2025 : usEasternEDT 1762063199000 = true.
Proof. reflexivity. Qed.

Example est_after_fallback_2025 : usEasternEDT 1762063200000 = false.
Proof. reflexivity. Qed.

Example est_before_spring_2025 : usEasternEDT 1741503599000 = false.
Proof. reflexivity. Qed.

Example edt_after_spring_2025 : usEasternEDT 1741503600000 = true.
Proof. reflexivity. Qed.

Example parts_2025_11_02 :
  etParts nodeUTC 1762073220000
  = {| pYear := 2025; pMonth := 11; pDay := 2; pHour := 3; pMinute := 47 |}.
Proof. reflexivity. Qed.

Example lastDay_feb_2024 : lastDayOfMonth nodeUTC 2024 2 = Some 29.
Proof. reflexivity. Qed.

Example unix_match_ex :
  Text.search (Grammar.unixPattern BTC) "btc-updown-15m-1762104600"
  = Some ["btc"; "15m"; "1762104600"]%string.
Proof. reflexivity. Qed.

Example h1_match_ex :
  Text.search (Grammar.h1Pattern XRP) "xrp-up-or-down-november-4-12pm-et"
  = Some ["xrp"; "november"; "4"; "12"; "pm"]%string.
Proof. reflexivity. Qed.

Example daily_no_match_on_h1 :
  Text.search (Grammar.dailyPattern XRP) "xrp-up-or-down-november-4-12pm-et"
  = None.
Proof. reflexivity. Qed.

Example legacy_match_ex :
  Text.search (Grammar.legacyPattern BTC m15) "btc-updown-15m-2025-11-02-13-30"
  = Some ["2025"; "11"; "02"; "13"; "30"]%string.
Proof. reflexivity. Qed.

Example encode_m15_ex :
  Logger.generateExpectedSlug nodeUTC BTC m15 1762127220000
  = Ret "btc-updown-15m-1762127100"%string.
Proof. vm_compute. reflexivity. Qed.

Example encode_h1_ex :
  Logger.generateExpectedSlug nodeUTC BTC h1 1762127220000
  = Ret "bitcoin-up-or-down-november-2-6pm-et"%string.
Proof. vm_compute. reflexivity. Qed.

Example encode_daily_ex :
  Logger.generateExpectedSlug nodeUTC SOL daily 1762127220000
  = Ret "solana-up-or-down-on-november-3"%string.
Proof. vm_compute. reflexivity. Qed.

Example resolve_m15_ex :
  Logger.resolve nodeUTC BTC m15 1762127220000
  = Ret (Some {| timeframe_of := m15; timestamp := Some 1762127100000 |},
         true).
Proof. vm_compute. reflexivity. Qed.

Example resolve_h1_ex :
  Logger.resolve nodeUTC ETH h1 1762127220000
  = Ret (Some {| timeframe_of := h1; timestamp := Some 1762124400000 |},
         true).
Proof. vm_compute. reflexivity. Qed.

Example resolve_daily_ex :
  Logger.resolve nodeUTC SOL daily 1762127220000
  = Ret (Some {| timeframe_of := daily; timestamp := Some 1762146000000 |},
         true).
Proof. vm_compute. reflexivity. Qed.

Example probe_ex :
  Probe.parseSlug "btc-updown-15m-1762104600" BTC = Some (Some 1762104600000).
Proof. reflexivity. Qed.

Example firstgen_ex :
  FirstGen.parseSlug nodeUTC "btc-updown-1h-2025-07-04-09" BTC
  = Ret (Some {| timeframe_of := h1; timestamp := Some 1751637600000 |}).
Proof. vm_compute. reflexivity. Qed.

(** ** Calendar and clock arithmetic *)

Section CalendarFacts.

Lemma civil_fields_range (z : Z) :
  let '(_, m, d) := ES.civilFromDays z in 1 <= m <= 12 /\ 1 <= d <= 31.
Proof.
  unfold ES.civilFromDays.
  set (z' := z + 719468).
  set (era := z' / 146097).
  set (doe := z' - era * 146097).
  assert (Hdoe : 0 <= doe <= 146096)
    by (subst doe era; Z.div_mod_to_equations; lia).
  clearbody doe. clear z z' era.
  set (yoe := (doe - doe / 1460 + doe / 36524 - doe / 146096) / 365).
  set (doy := doe - (365 * yoe + yoe / 4 - yoe / 100)).
  assert (Hdoy : 0 <= doy <= 365)
    by (subst doy yoe; Z.div_mod_to_equations; lia).
  clearbody doy. clear yoe doe Hdoe.
  set (mp := (5 * doy + 2) / 153).
  assert (Hmp : 0 <= mp <= 11) by (subst mp; Z.div_mod_to_equations; lia).
  assert (Hd : 1 <= doy - (153 * mp + 2) / 5 + 1 <= 31)
    by (subst mp; Z.div_mod_to_equations; lia).
  destruct (mp <? 10) eqn:E; [apply Z.ltb_lt in E | apply Z.ltb_ge in E];
    split; lia.
Qed.

(** Turning a day number into a calendar date and back is the identity. *)
Lemma MakeDay_civilFromDays (z : Z) :
  let '(y, m, d) := ES.civilFromDays z in ES.MakeDay y (m - 1) d = z.
Proof.
  pose proof (civil_fields_range z) as Hr.
  unfold ES.civilFromDays in *.
  set (z' := z + 719468) in *.
  set (era := z' / 146097) in *.
  set (doe := z' - era * 146097) in *.
  assert (Hdoe : 0 <= doe <= 146096)
    by (subst doe era; Z.div_mod_to_equations; lia).
  assert (Hz : z = era * 146097 + doe - 719468) by (subst doe z'; lia).
  set (yoe := (doe - doe / 1460 + doe / 36524 - doe / 146096) / 365) in *.
  assert (Hyoe : 0 <= yoe <= 399)
    by (subst yoe; Z.div_mod_to_equations; lia).
  set (doy := doe - (365 * yoe + yoe / 4 - yoe / 100)) in *.
  set (mp := (5 * doy + 2) / 153) in *.
  assert (Hdoy : 0 <= doy <= 365)
    by (subst doy yoe; Z.div_mod_to_equations; lia).
  assert (Hmp : 0 <= mp <= 11) by (subst mp; Z.div_mod_to_equations; lia).
  set (d := doy - (153 * mp + 2) / 5 + 1) in *.
  set (m := if mp <? 10 then mp + 3 else mp - 9) in *.
  destruct Hr as [Hm Hd].
  unfold ES.MakeDay, ES.daysFromCivil.
  replace ((m - 1) / 12) with 0 by (Z.div_mod_to_equations; lia).
  replace ((m - 1) mod 12 + 1) with m by (Z.div_mod_to_equations; lia).
  rewrite Z.add_0_r.
  assert (Hmadj : (if m <=? 2 then m + 9 else m - 3) = mp).
  { subst m. destruct (mp <? 10) eqn:E;
      [apply Z.ltb_lt in E | apply Z.ltb_ge in E].
    - destruct (mp + 3 <=? 2) eqn:E2;
        [apply Z.leb_le in E2 | apply Z.leb_gt in E2]; lia.
    - destruct (mp - 9 <=? 2) eqn:E2;
        [apply Z.leb_le in E2 | apply Z.leb_gt in E2]; lia. }
  rewrite Hmadj.
  assert (Hy : (if m <=? 2
                then (if m <=? 2 then yoe + era * 400 + 1
                      else yoe + era * 400) - 1
                else (if m <=? 2 then yoe + era * 400 + 1
                      else yoe + era * 400)) = yoe + era * 400)
    by (destruct (m <=? 2); lia).
  rewrite Hy.
  replace ((yoe + era * 400) / 400) with era
    by (Z.div_mod_to_equations; lia).
  replace (yoe + era * 400 - era * 400) with yoe by lia.
  subst d doy. lia.
Qed.

(** A time value is its day plus its clock fields. *)
Lemma time_fields (t : Z) :
  ES.MakeDate (ES.Day t)
    (ES.MakeTime (ES.HourFromTime t) (ES.MinFromTime t) (ES.SecFromTime t)
                 (ES.msFromTime t)) = t.
Proof.
  unfold ES.MakeDate, ES.MakeTime, ES.Day, ES.HourFromTime, ES.MinFromTime,
    ES.SecFromTime, ES.msFromTime, ES.msPerDay, ES.msPerHour,
    ES.msPerMinute, ES.msPerSecond.
  Z.div_mod_to_equations. lia.
Qed.

(** Day, hour and minute alone give the time value rounded down to the
    minute. *)
Lemma time_fields_minute (t : Z) :
  ES.MakeDate (ES.Day t)
    (ES.MakeTime (ES.HourFromTime t) (ES.MinFromTime t) 0 0)
  = t - t mod ES.msPerMinute.
Proof.
  unfold ES.MakeDate, ES.MakeTime, ES.Day, ES.HourFromTime, ES.MinFromTime,
    ES.msPerDay, ES.msPerHour, ES.msPerMinute, ES.msPerSecond.
  Z.div_mod_to_equations. lia.
Qed.

Lemma hour_range (t : Z) : 0 <= ES.HourFromTime t <= 23.
Proof. unfold ES.HourFromTime. Z.div_mod_to_equations. lia. Qed.

Lemma minute_range (t : Z) : 0 <= ES.MinFromTime t <= 59.
Proof. unfold ES.MinFromTime. Z.div_mod_to_equations. lia. Qed.

(** The minute field ignores whole days and whole hours. *)
Lemma minute_of_fields (day h mi k : Z) :
  0 <= mi <= 59 ->
  ES.MinFromTime (ES.MakeDate day (ES.MakeTime h mi 0 0)
                  + k * ES.msPerHour) = mi.
Proof.
  intros Hmi.
  unfold ES.MinFromTime, ES.MakeDate, ES.MakeTime, ES.msPerDay,
    ES.msPerHour, ES.msPerMinute, ES.msPerSecond.
  Z.div_mod_to_equations. lia.
Qed.

End CalendarFacts.

(** ** The matcher against the relational reading of patterns *)

Module TextFacts.
Import Text.
Local Open Scope string_scope.

Lemma append_assoc (a b c : string) : (a ++ b) ++ c = a ++ (b ++ c).
Proof. induction a as [|x a IH]; simpl; [reflexivity | now rewrite IH]. Qed.

Lemma append_empty_r (a : string) : a ++ "" = a.
Proof. induction a as [|x a IH]; simpl; [reflexivity | now rewrite IH]. Qed.

Lemma length_append (a b : string) :
  String.length (a ++ b) = (String.length a + String.length b)%nat.
Proof. induction a as [|x a IH]; simpl; [reflexivity | now rewrite IH]. Qed.

Lemma substring_prefix (w s : string) :
  substring 0 (String.length w) (w ++ s) = w.
Proof.
  induction w as [|x w IH]; simpl.
  - destruct s; reflexivity.
  - now rewrite IH.
Qed.

(** What a capture group records is the text its body consumed. *)
Lemma capture_text (w s : string) :
  substring 0 (String.length (w ++ s) - String.length s) (w ++ s) = w.
Proof.
  rewrite length_append.
  replace (String.length w + String.length s - String.length s)%nat
    with (String.length w) by lia.
  apply substring_prefix.
Qed.

Lemma stripPrefix_sound (p s s' : string) :
  stripPrefix p s = Some s' -> s = p ++ s'.
Proof.
  revert s; induction p as [|a p IH]; intros s H; simpl in *.
  - now inversion H.
  - destruct s as [|b s]; [discriminate|].
    destruct (Ascii.eqb a b) eqn:E; [|discriminate].
    apply Ascii.eqb_eq in E. subst b. f_equal. now apply IH.
Qed.

Lemma stripPrefix_complete (p s : string) : stripPrefix p (p ++ s) = Some s.
Proof.
  induction p as [|a p IH]; simpl; [reflexivity|].
  now rewrite Ascii.eqb_refl.
Qed.

Lemma repFrom_sound n c s s' :
  repFrom n c s = Some s' ->
  exists w, s = w ++ s' /\ String.length w = n /\ allClass c w = true.
Proof.
  revert s; induction n as [|n IH]; intros s H; simpl in H.
  - inversion H; subst. now exists "".
  - destruct s as [|a s]; [discriminate|].
    destruct (inClass c a) eqn:E; [|discriminate].
    destruct (IH _ H) as (w & -> & Hl & Hc).
    exists (String a w); simpl. rewrite E, Hc, Hl. auto.
Qed.

Lemma repFrom_complete c w s :
  allClass c w = true -> repFrom (String.length w) c (w ++ s) = Some s.
Proof.
  induction w as [|a w IH]; simpl; [reflexivity|].
  intros H. apply andb_true_iff in H as [Ha Hw]. rewrite Ha. now apply IH.
Qed.

Section Engine.
Context {R : Type}.
Implicit Types (k : @cont R).

Lemma plusFrom_sound c s caps k x :
  plusFrom c s caps k = Some x ->
  exists w s', s = w ++ s' /\ w <> "" /\ allClass c w = true
               /\ k s' caps = Some x.
Proof.
  revert x; induction s as [|a s IH]; intros x H; simpl in H;
    [discriminate|].
  destruct (inClass c a) eqn:E; [|discriminate].
  destruct (plusFrom c s caps k) as [y|] eqn:P; simpl in H.
  - inversion H; subst y.
    destruct (IH _ eq_refl) as (w & s' & -> & _ & Hc & Hk).
    exists (String a w), s'; simpl. rewrite E, Hc.
    repeat split; auto; discriminate.
  - exists (String a ""), s; simpl. rewrite E.
    repeat split; auto; discriminate.
Qed.

Lemma plusFrom_complete c w s caps k :
  w <> "" -> allClass c w = true -> k s caps <> None ->
  plusFrom c (w ++ s) caps k <> None.
Proof.
  induction w as [|a w IH]; intros Hne Hc Hk; [congruence|].
  simpl in *. apply andb_true_iff in Hc as [Ha Hw]. rewrite Ha.
  destruct w as [|b w].
  - simpl. destruct (plusFrom c s caps k); simpl; [discriminate | exact Hk].
  - assert (P : plusFrom c (String b w ++ s) caps k <> None)
      by (apply IH; auto; discriminate).
    destruct (plusFrom c (String b w ++ s) caps k); simpl;
      [discriminate | congruence].
Qed.

(** Every answer of the matcher comes from a derivation. *)
Lemma rmatch_sound r : forall s caps k x,
  rmatch r s caps k = Some x ->
  exists w s' cs, s = w ++ s' /\ derives r w cs
                  /\ k s' (caps ++ cs)%list = Some x.
Proof.
  induction r as [p|r1 IH1 r2 IH2|r1 IH1 r2 IH2|c|n c|r IH];
    intros s caps k x H; simpl in H.
  - destruct (stripPrefix p s) as [s'|] eqn:E; [|discriminate].
    apply stripPrefix_sound in E. exists p, s', []%list.
    rewrite app_nil_r. repeat split; auto. constructor.
  - destruct (rmatch r1 s caps k) as [y|] eqn:E; simpl in H.
    + inversion H; subst y.
      destruct (IH1 _ _ _ _ E) as (w & s' & cs & ? & ? & ?).
      exists w, s', cs. repeat split; auto. now apply D_AltL.
    + destruct (IH2 _ _ _ _ H) as (w & s' & cs & ? & ? & ?).
      exists w, s', cs. repeat split; auto. now apply D_AltR.
  - destruct (IH1 _ _ _ _ H) as (w1 & s1 & cs1 & -> & D1 & H1).
    destruct (IH2 _ _ _ _ H1) as (w2 & s2 & cs2 & -> & D2 & H2).
    exists (w1 ++ w2), s2, (cs1 ++ cs2)%list.
    rewrite append_assoc, app_assoc. repeat split; auto.
    now constructor.
  - destruct (plusFrom_sound _ _ _ _ _ H) as (w & s' & ? & ? & ? & ?).
    exists w, s', []%list. rewrite app_nil_r. repeat split; auto.
    now constructor.
  - destruct (repFrom n c s) as [s'|] eqn:E; [|discriminate].
    destruct (repFrom_sound _ _ _ _ E) as (w & ? & ? & ?).
    exists w, s', []%list. rewrite app_nil_r. repeat split; auto.
    now constructor.
  - destruct (IH _ _ _ _ H) as (w & s' & cs & -> & D & Hk).
    rewrite capture_text in Hk.
    exists w, s', (cs ++ [w])%list. rewrite app_assoc.
    repeat split; auto. now constructor.
Qed.

(** Backtracking finds a match whenever a derivation allows one. *)
Lemma rmatch_complete r : forall w cs s caps k,
  derives r w cs -> k s (caps ++ cs)%list <> None ->
  rmatch r (w ++ s) caps k <> None.
Proof.
  intros w cs s caps k D. revert s caps k.
  induction D as [p|r1 r2 w cs D IH|r1 r2 w cs D IH
                  |r1 r2 w1 w2 cs1 cs2 D1 IH1 D2 IH2|c w Hne Hc
                  |n c w Hl Hc|r w cs D IH];
    intros s caps k Hk; simpl.
  - rewrite stripPrefix_complete. now rewrite app_nil_r in Hk.
  - specialize (IH s caps k Hk).
    destruct (rmatch r1 (w ++ s) caps k); simpl; congruence.
  - specialize (IH s caps k Hk).
    destruct (rmatch r1 (w ++ s) caps k); simpl; [discriminate | exact IH].
  - rewrite append_assoc. apply IH1. apply IH2.
    now rewrite <- app_assoc.
  - rewrite app_nil_r in Hk. now apply plusFrom_complete.
  - subst n. rewrite repFrom_complete by assumption.
    now rewrite app_nil_r in Hk.
  - apply IH. rewrite capture_text. now rewrite <- app_assoc.
Qed.
End Engine.

Lemma matchHere_sound r s m :
  matchHere r s = Some m -> exists w s', s = w ++ s' /\ derives r w m.
Proof.
  unfold matchHere. intros H.
  destruct (rmatch_sound _ _ _ _ _ H) as (w & s' & cs & ? & D & E).
  simpl in E. inversion E; subst. eauto.
Qed.

Lemma matchHere_complete r w cs s :
  derives r w cs -> matchHere r (w ++ s) <> None.
Proof.
  intros D. unfold matchHere. eapply rmatch_complete; eauto. discriminate.
Qed.

(** [search] returns the captures of a match at some position. *)
Lemma search_sound r s m :
  search r s = Some m ->
  exists pre w post, s = pre ++ w ++ post /\ derives r w m.
Proof.
  induction s as [|a s IH]; simpl; intros H.
  - destruct (matchHere r "") eqn:E; [|discriminate].
    inversion H; subst.
    destruct (matchHere_sound _ _ _ E) as (w & s' & ? & D).
    exists "", w, s'. auto.
  - destruct (matchHere r (String a s)) eqn:E.
    + inversion H; subst.
      destruct (matchHere_sound _ _ _ E) as (w & s' & ? & D).
      exists "", w, s'. auto.
    + destruct (IH H) as (pre & w & post & -> & D).
      exists (String a pre), w, post. auto.
Qed.

(** [search] succeeds as soon as the pattern can match somewhere. *)
Lemma search_complete r pre w post cs :
  derives r w cs -> search r (pre ++ w ++ post) <> None.
Proof.
  intros D. induction pre as [|a pre IH]; simpl.
  - pose proof (matchHere_complete r w cs post D) as M.
    destruct (w ++ post) eqn:E; simpl;
      destruct (matchHere r _); congruence.
  - destruct (matchHere r (String a (pre ++ w ++ post))); [discriminate|].
    exact IH.
Qed.

End TextFacts.

(** ** Facts about the slug grammars *)

Module GrammarFacts.
Import Text TextFacts Grammar.
Local Open Scope string_scope.

Ltac inv_derives :=
  repeat match goal with
  | H : derives (Cat _ _) _ _ |- _ => inversion H; subst; clear H
  | H : derives (Group _) _ _ |- _ => inversion H; subst; clear H
  | H : derives (Alt _ _) _ _ |- _ => inversion H; subst; clear H
  | H : derives (Lit _) _ _ |- _ => inversion H; subst; clear H
  | H : derives (Plus _) _ _ |- _ => inversion H; subst; clear H
  | H : derives (Rep _ _) _ _ |- _ => inversion H; subst; clear H
  end.

Lemma timeframeOfTag_tag tag :
  isTag tag -> exists tf, timeframeOfTag tag = Some tf.
Proof. intros [-> | [-> | ->]]; eexists; reflexivity. Qed.

(** Shape of the captures of the epoch pattern. *)
Lemma unix_captures a w cs :
  derives (unixPattern a) w cs ->
  exists nm tag ds,
    cs = [nm; tag; ds] /\ isTag tag /\ ds <> "" /\ allClass Digit ds = true.
Proof.
  unfold unixPattern, assetAlt, seq. intros D. inv_derives;
    (eexists _, _, _; split; [reflexivity|]; unfold isTag; auto).
Qed.

Lemma search_unix_captures a slug m :
  search (unixPattern a) slug = Some m ->
  exists nm tag ds,
    m = [nm; tag; ds] /\ isTag tag /\ ds <> "" /\ allClass Digit ds = true.
Proof.
  intros H. destruct (search_sound _ _ _ H) as (pre & w & post & _ & D).
  eapply unix_captures; eauto.
Qed.

Lemma probe_unix_captures a slug m :
  search (Probe.unixPattern a) slug = Some m ->
  exists nm tag ds, m = [nm; tag; ds] /\ isTag tag.
Proof.
  intros H. destruct (search_sound _ _ _ H) as (pre & w & post & _ & D).
  unfold Probe.unixPattern, seq in D. inv_derives;
    (eexists _, _, _; split; [reflexivity|]; unfold isTag; auto).
Qed.

Lemma length_nonempty (n : nat) (w : string) :
  String.length w = S n -> w <> "".
Proof. destruct w; [discriminate | discriminate]. Qed.

(** Whatever the old-format pattern matches begins with a match of the
    epoch pattern: its four-digit year is read as the epoch integer. *)
Lemma legacy_within_unix a tf w cs :
  derives (legacyPattern a tf) w cs ->
  exists wu rest csu, w = wu ++ rest /\ derives (unixPattern a) wu csu.
Proof.
  intros D.
  assert (forall tag d4,
    isTag tag -> String.length d4 = 4%nat -> allClass Digit d4 = true ->
    derives (unixPattern a)
      (shortName a ++ "-updown-" ++ tag ++ "-" ++ d4)
      ([shortName a] ++ [] ++ [tag] ++ [] ++ [d4])%list) as Build.
  { intros tag d4 Ht Hl Hc. unfold unixPattern, assetAlt, seq.
    apply D_Cat.
    - apply (D_Group _ _ []%list). apply D_AltL. constructor.
    - apply D_Cat; [constructor|].
      apply D_Cat.
      + apply (D_Group _ _ []%list).
        destruct Ht as [-> | [-> | ->]];
          [apply D_AltL | apply D_AltR, D_AltL | apply D_AltR, D_AltR];
          constructor.
      + apply (D_Cat _ _ "-" d4 []%list [d4]); [constructor|].
        apply (D_Group _ _ []%list). constructor; auto.
        eapply length_nonempty; eauto. }
  destruct tf; unfold legacyPattern, seq in D; inv_derives;
    match goal with
    | Hl : String.length ?d4 = 4%nat, Hc : allClass Digit ?d4 = true
      |- exists _ _ _, ?s ++ ?lit ++ ?d4 ++ ?rest = _ /\ _ =>
        idtac
    end.
  - eexists _, _, _; split;
      [| apply (Build "15m"); unfold isTag; eauto].
    simpl. repeat rewrite append_assoc. simpl. reflexivity.
  - eexists _, _, _; split;
      [| apply (Build "1h"); unfold isTag; eauto].
    simpl. repeat rewrite append_assoc. simpl. reflexivity.
  - eexists _, _, _; split;
      [| apply (Build "1d"); unfold isTag; eauto].
    simpl. repeat rewrite append_assoc. simpl. reflexivity.
Qed.

Lemma search_legacy_unix a tf slug ml :
  search (legacyPattern a tf) slug = Some ml ->
  search (unixPattern a) slug <> None.
Proof.
  intros H. destruct (search_sound _ _ _ H) as (pre & w & post & -> & D).
  destruct (legacy_within_unix _ _ _ _ D) as (wu & rest & csu & -> & Du).
  rewrite append_assoc. eapply search_complete; eauto.
Qed.

End GrammarFacts.

(** ** Rebuilding an instant from its civil fields *)

Section CivilFacts.
Variable rt : Runtime.

Lemma nyOffsetMin_cases (t : Z) :
  nyOffsetMin rt t = -240 \/ nyOffsetMin rt t = -300.
Proof. unfold nyOffsetMin. destruct (nyEDT rt t); auto. Qed.

Lemma civil_rebuild (l : Z) :
  ES.MakeDay (ES.YearFromTime l) (ES.MonthFromTime l + 1 - 1)
             (ES.DateFromTime l) = ES.Day l.
Proof.
  unfold ES.YearFromTime, ES.MonthFromTime, ES.DateFromTime.
  pose proof (MakeDay_civilFromDays (ES.Day l)) as H.
  destruct (ES.civilFromDays (ES.Day l)) as [[y m] d]. simpl.
  replace (m - 1 + 1 - 1) with (m - 1) by lia. exact H.
Qed.

Lemma civil_month_day_range (l : Z) :
  1 <= ES.MonthFromTime l + 1 <= 12 /\ 1 <= ES.DateFromTime l <= 31.
Proof.
  unfold ES.MonthFromTime, ES.DateFromTime.
  pose proof (civil_fields_range (ES.Day l)) as H.
  destruct (ES.civilFromDays (ES.Day l)) as [[y m] d]. simpl. lia.
Qed.

(** Days between 1969-12-31 and 9999-12-31 lie in four-digit years. *)
Lemma year_of_day_range (z : Z) :
  -1 <= z <= 2932896 -> 1969 <= fst (fst (ES.civilFromDays z)) <= 9999.
Proof.
  intros Hz. unfold ES.civilFromDays.
  set (z' := z + 719468).
  set (era := z' / 146097).
  set (doe := z' - era * 146097).
  assert (Hera : 4 <= era <= 24)
    by (subst era z'; Z.div_mod_to_equations; lia).
  assert (Hdoe : 0 <= doe <= 146096)
    by (subst doe era; Z.div_mod_to_equations; lia).
  assert (Hlo : era = 4 -> 135079 <= doe)
    by (subst doe era z'; Z.div_mod_to_equations; lia).
  assert (Hhi : era = 24 -> doe <= 146036)
    by (subst doe era z'; Z.div_mod_to_equations; lia).
  clearbody doe era. clear z z' Hz.
  set (yoe := (doe - doe / 1460 + doe / 36524 - doe / 146096) / 365).
  set (doy := doe - (365 * yoe + yoe / 4 - yoe / 100)).
  set (mp := (5 * doy + 2) / 153).
  simpl fst.
  destruct (mp <? 10) eqn:E; [apply Z.ltb_lt in E | apply Z.ltb_ge in E].
  - destruct (mp + 3 <=? 2) eqn:E2;
      [apply Z.leb_le in E2 | apply Z.leb_gt in E2];
      subst mp doy yoe; Z.div_mod_to_equations; lia.
  - destruct (mp - 9 <=? 2) eqn:E2;
      [apply Z.leb_le in E2 | apply Z.leb_gt in E2];
      subst mp doy yoe; Z.div_mod_to_equations; lia.
Qed.

Lemma local_year_range (t : Z) :
  inFourDigitEra t -> 1969 <= ES.YearFromTime (nyLocal rt t) <= 9999.
Proof.
  intros [H0 H1]. unfold ES.YearFromTime. apply year_of_day_range.
  unfold nyLocal, ES.Day, ES.msPerDay, ES.msPerMinute.
  destruct (nyOffsetMin_cases t) as [-> | ->];
    Z.div_mod_to_equations; lia.
Qed.

Lemma eraYear_id (y : Z) : 1 <= y -> eraYear y = y.
Proof.
  intros H. unfold eraYear.
  destruct (y <=? 0) eqn:E; [apply Z.leb_le in E; lia | reflexivity].
Qed.

Lemma fullYear_id (y : Z) : 100 <= y -> ES.fullYear y = y.
Proof.
  intros H. unfold ES.fullYear.
  destruct (0 <=? y) eqn:E1; destruct (y <=? 99) eqn:E2; simpl; auto.
  apply Z.leb_le in E2. lia.
Qed.

Lemma cycleHour_plain (l : Z) :
  plainHour rt l -> cycleHour rt (ES.HourFromTime l) = ES.HourFromTime l.
Proof.
  unfold cycleHour. intros [-> | H]; [reflexivity|].
  destruct (ES.HourFromTime l =? 0) eqn:E;
    [apply Z.eqb_eq in E; contradiction | now rewrite andb_false_r].
Qed.

(** [new Date(iso)] on the civil fields of a local time value [l], with
    minute [mi] and offset [off]. *)
Lemma dateFromISO_fields (l mi off : Z) :
  1000 <= ES.YearFromTime l <= 9999 -> plainHour rt l -> 0 <= mi <= 59 ->
  dateFromISO rt (eraYear (ES.YearFromTime l)) (ES.MonthFromTime l + 1)
    (ES.DateFromTime l) (cycleHour rt (ES.HourFromTime l)) mi 0 off
  = ES.TimeClip (ES.MakeDate (ES.Day l)
                   (ES.MakeTime (ES.HourFromTime l) mi 0 0)
                 - off * ES.msPerMinute).
Proof.
  intros Hy Hh Hmi.
  rewrite eraYear_id by lia. rewrite cycleHour_plain by assumption.
  unfold dateFromISO.
  pose proof (civil_month_day_range l) as [Hm Hd].
  pose proof (hour_range l) as Hr.
  replace ((1000 <=? ES.YearFromTime l) && (ES.YearFromTime l <=? 9999)
           && (1 <=? ES.MonthFromTime l + 1)
           && (ES.MonthFromTime l + 1 <=? 12)
           && (1 <=? ES.DateFromTime l) && (ES.DateFromTime l <=? 31))
    with true
    by (symmetry; repeat (apply andb_true_iff; split); apply Z.leb_le; lia).
  replace ((0 <=? ES.HourFromTime l) && (ES.HourFromTime l <=? 23)
           && (0 <=? mi) && (mi <=? 59) && (0 <=? 0) && (0 <=? 59))
    with true
    by (symmetry; repeat (apply andb_true_iff; split); apply Z.leb_le; lia).
  unfold orb. cbv iota. now rewrite civil_rebuild.
Qed.

Lemma DateUTC_fields (l mi : Z) :
  1000 <= ES.YearFromTime l <= 9999 -> plainHour rt l ->
  ES.DateUTC (eraYear (ES.YearFromTime l)) (ES.MonthFromTime l + 1 - 1)
    (ES.DateFromTime l) (cycleHour rt (ES.HourFromTime l)) mi
  = ES.TimeClip (ES.MakeDate (ES.Day l)
                   (ES.MakeTime (ES.HourFromTime l) mi 0 0)).
Proof.
  intros Hy Hh.
  rewrite eraYear_id by lia. rewrite cycleHour_plain by assumption.
  unfold ES.DateUTC. rewrite fullYear_id by lia.
  now rewrite civil_rebuild.
Qed.

Lemma TimeClip_valid (t : Z) :
  Z.abs t <= ES.maxTime -> ES.TimeClip t = Some t.
Proof.
  intros H. unfold ES.TimeClip.
  destruct (Z.abs t <=? ES.maxTime) eqn:E; [reflexivity|].
  apply Z.leb_gt in E. lia.
Qed.

End CivilFacts.

(** ** Properties of the decoder's dispatch *)

Section Dispatch.
Variables (rt : Runtime) (clock : Z) (slug : string) (a : asset).

Lemma parseSlug_unix (m : list string) :
  Text.search (Grammar.unixPattern a) slug = Some m ->
  Logger.parseSlug rt clock slug a = Logger.decodeUnix rt m.
Proof. intros H. unfold Logger.parseSlug. now rewrite H. Qed.

Lemma parseSlug_daily (m : list string) :
  Text.search (Grammar.unixPattern a) slug = None ->
  Text.search (Grammar.dailyPattern a) slug = Some m ->
  Logger.parseSlug rt clock slug a = Logger.decodeDaily rt clock m.
Proof. intros H1 H2. unfold Logger.parseSlug. now rewrite H1, H2. Qed.

Lemma parseSlug_h1 (m : list string) :
  Text.search (Grammar.unixPattern a) slug = None ->
  Text.search (Grammar.dailyPattern a) slug = None ->
  Text.search (Grammar.h1Pattern a) slug = Some m ->
  Logger.parseSlug rt clock slug a = Logger.decodeH1 rt clock m.
Proof.
  intros H1 H2 H3. unfold Logger.parseSlug. now rewrite H1, H2, H3.
Qed.

Lemma parseSlug_legacy :
  Text.search (Grammar.unixPattern a) slug = None ->
  Text.search (Grammar.dailyPattern a) slug = None ->
  Text.search (Grammar.h1Pattern a) slug = None ->
  Logger.parseSlug rt clock slug a
  = Logger.legacyLoop rt a [m15; h1; daily] slug.
Proof.
  intros H1 H2 H3. unfold Logger.parseSlug. now rewrite H1, H2, H3.
Qed.
End Dispatch.

(** C10: for every asset, cadence and instant, the containment check given
    an absent ([null]) descriptor returns the pair [[false, null]] and does
    not throw. *)
Theorem C10_absent_descriptor_not_active
        (rt : Runtime) (a : asset) (tf : timeframe) (now : Z) :
  Logger.isActiveMarket rt None a tf now = Ret (false, None).
Proof. reflexivity. Qed.

(** C8: decode tries the epoch, daily-text, hourly-text and old numeric
    grammars in that order and the first that matches decides; whatever the
    old numeric grammar matches is matched by the epoch grammar too, and is
    decoded by the epoch branch. *)
Theorem C8_grammar_priority
        (rt : Runtime) (clock : Z) (slug : string) (a : asset) :
  (forall m, Text.search (Grammar.unixPattern a) slug = Some m ->
             Logger.parseSlug rt clock slug a = Logger.decodeUnix rt m)
  /\ (forall m, Text.search (Grammar.unixPattern a) slug = None ->
                Text.search (Grammar.dailyPattern a) slug = Some m ->
                Logger.parseSlug rt clock slug a
                = Logger.decodeDaily rt clock m)
  /\ (forall m, Text.search (Grammar.unixPattern a) slug = None ->
                Text.search (Grammar.dailyPattern a) slug = None ->
                Text.search (Grammar.h1Pattern a) slug = Some m ->
                Logger.parseSlug rt clock slug a = Logger.decodeH1 rt clock m)
  /\ (Text.search (Grammar.unixPattern a) slug = None ->
      Text.search (Grammar.dailyPattern a) slug = None ->
      Text.search (Grammar.h1Pattern a) slug = None ->
      Logger.parseSlug rt clock slug a
      = Logger.legacyLoop rt a [m15; h1; daily] slug)
  /\ (forall tf ml,
        Text.search (Grammar.legacyPattern a tf) slug = Some ml ->
        exists mu, Text.search (Grammar.unixPattern a) slug = Some mu
                   /\ Logger.parseSlug rt clock slug a
                      = Logger.decodeUnix rt mu).
Proof.
  repeat split.
  - apply parseSlug_unix.
  - apply parseSlug_daily.
  - apply parseSlug_h1.
  - apply parseSlug_legacy.
  - intros tf ml H.
    apply GrammarFacts.search_legacy_unix in H.
    destruct (Text.search (Grammar.unixPattern a) slug) as [mu|] eqn:E;
      [|congruence].
    exists mu. split; [reflexivity | now apply parseSlug_unix].
Qed.

Lemma C8_grammar_priority_witness :
  Text.search (Grammar.legacyPattern BTC m15)
              "btc-updown-15m-2025-11-02-13-30"
  = Some ["2025"; "11"; "02"; "13"; "30"]%string
  /\ exists mu,
       Text.search (Grammar.unixPattern BTC) "btc-updown-15m-2025-11-02-13-30"
       = Some mu
       /\ Logger.parseSlug nodeUTC 0 "btc-updown-15m-2025-11-02-13-30" BTC
          = Logger.decodeUnix nodeUTC mu.
Proof.
  split; [reflexivity|].
  exact (proj2 (proj2 (proj2 (proj2
           (C8_grammar_priority nodeUTC 0
              "btc-updown-15m-2025-11-02-13-30" BTC))))
           m15 _ eq_refl).
Defined.

(** ** Dependence of decode on the clock *)

Lemma C7_counterexample :
  ~ (forall (rt : Runtime) (clock1 clock2 : Z) (slug : string) (a : asset),
        Logger.parseSlug rt clock1 slug a = Logger.parseSlug rt clock2 slug a).
Proof.
  intros H.
  specialize (H nodeUTC 1762073220000 1762300000000
                "bitcoin-up-or-down-on-november-3"%string BTC).
  vm_compute in H. discriminate H.
Qed.

(** ** Decoding the epoch grammar *)

Section EpochDecode.
Variable rt : Runtime.

Lemma digitVal_range (c : ascii) :
  Text.isDigit c = true -> 0 <= Text.digitVal c <= 9.
Proof.
  unfold Text.isDigit, Text.digitVal. intros H.
  apply andb_true_iff in H as [H1 H2].
  apply Nat.leb_le in H1. apply Nat.leb_le in H2. lia.
Qed.

Lemma parseDigits_nonneg (ds : string) : forall acc,
  Text.allClass Text.Digit ds = true -> 0 <= acc ->
  0 <= Text.parseDigits acc ds.
Proof.
  induction ds as [|c ds IH]; intros acc H Hacc; simpl in *; [assumption|].
  apply andb_true_iff in H as [Hc Hds].
  apply IH; [assumption|]. pose proof (digitVal_range c Hc). lia.
Qed.

(** The epoch branch of the current decoder: the instant rebuilt from the
    civil fields of [t] is [t] rounded down to the minute, when the zone
    probe agrees with the offset in force. *)
Lemma rebuild_minute (t : Z) :
  inFourDigitEra t ->
  plainHour rt (nyLocal rt t) ->
  nyEDT rt (nyLocal rt t - nyLocal rt t mod ES.msPerMinute) = nyEDT rt t ->
  (et <- formatToParts rt (ES.TimeClip t) ;;
   offset <- probeOffset rt
               (ES.DateUTC (pYear et) (pMonth et - 1) (pDay et) (pHour et)
                           (pMinute et)) ;;
   Ret (dateFromISO rt (pYear et) (pMonth et) (pDay et) (pHour et)
                    (pMinute et) 0 offset))
  = Ret (Some (t - t mod ES.msPerMinute)).
Proof.
  intros Ht Hh Hp.
  pose proof (local_year_range rt t Ht) as Hy.
  assert (Hl : -18000000 <= nyLocal rt t < 253402300800000)
    by (unfold nyLocal, ES.msPerMinute, inFourDigitEra in *;
        destruct (nyOffsetMin_cases rt t) as [-> | ->]; lia).
  rewrite TimeClip_valid
    by (unfold inFourDigitEra, ES.maxTime in *; lia).
  simpl formatToParts. unfold bind at 1.
  unfold etParts. cbv zeta.
  unfold pYear, pMonth, pDay, pHour, pMinute.
  rewrite DateUTC_fields by (assumption || lia).
  rewrite time_fields_minute.
  rewrite TimeClip_valid
    by (unfold ES.maxTime, ES.msPerMinute in *;
        Z.div_mod_to_equations; lia).
  simpl probeOffset. unfold bind.
  pose proof (minute_range (nyLocal rt t)) as Hmi.
  rewrite dateFromISO_fields by (assumption || lia).
  rewrite time_fields_minute.
  assert (Hoff : nyOffsetMin rt
                   (nyLocal rt t - nyLocal rt t mod ES.msPerMinute)
                 = nyOffsetMin rt t)
    by (unfold nyOffsetMin; now rewrite Hp).
  rewrite Hoff.
  assert (Hmod : nyLocal rt t mod ES.msPerMinute = t mod ES.msPerMinute)
    by (unfold nyLocal; apply Z.mod_add; unfold ES.msPerMinute; lia).
  rewrite Hmod.
  replace (nyLocal rt t - t mod ES.msPerMinute
           - nyOffsetMin rt t * ES.msPerMinute)
    with (t - t mod ES.msPerMinute) by (unfold nyLocal; lia).
  rewrite TimeClip_valid
    by (unfold inFourDigitEra, ES.maxTime, ES.msPerMinute in *;
        Z.div_mod_to_equations; lia).
  reflexivity.
Qed.

End EpochDecode.

Lemma C4_counterexample :
  ~ (forall (rt : Runtime) (clock : Z) (slug : string) (a : asset)
            (m : list string),
        Text.search (Grammar.unixPattern a) slug = Some m ->
        exists tf,
          Logger.parseSlug rt clock slug a
          = Ret (Some {| timeframe_of := tf;
                         timestamp :=
                           Some (Text.parseInt (cap 3 m) * 1000) |})).
Proof.
  intros H.
  destruct (H nodeUTC 0 "btc-updown-15m-1762104601"%string BTC
              ["btc"; "15m"; "1762104601"]%string eq_refl) as [tf E].
  vm_compute in E. discriminate E.
Qed.

(** C4 (amended): for an identifier the epoch grammar matches, the decoders
    of the two earlier generations return exactly the instant
    [unixSeconds * 1000] (an Invalid Date beyond the range of [Date]),
    without consulting any time zone.  The decoder of the current generation
    rebuilds the instant from its civil fields in the reference zone, to the
    minute: it returns [unixSeconds * 1000] rounded down to the whole minute
    whenever its EST/EDT probe agrees with the offset in force at that
    instant. *)
Theorem C4_epoch_decode
        (rt : Runtime) (clock : Z) (slug : string) (a : asset)
        (m : list string) :
  let unixSeconds := Text.parseInt (cap 3 m) in
  let t := unixSeconds * 1000 in
  (Text.search (Probe.unixPattern a) slug = Some m ->
   Probe.parseSlug slug a = Some (ES.TimeClip t))
  /\ (Text.search (Grammar.unixPattern a) slug = Some m ->
      exists tf, Scrapper.decodeUnix m
                 = Some {| timeframe_of := tf; timestamp := ES.TimeClip t |})
  /\ (Text.search (Grammar.unixPattern a) slug = Some m ->
      t < 253402300800000 ->
      plainHour rt (nyLocal rt t) ->
      nyEDT rt (nyLocal rt t - nyLocal rt t mod ES.msPerMinute)
      = nyEDT rt t ->
      exists tf, Logger.parseSlug rt clock slug a
                 = Ret (Some {| timeframe_of := tf;
                                timestamp :=
                                  Some (t - t mod ES.msPerMinute) |})).
Proof.
  intros unixSeconds t. repeat split.
  - intros H. unfold Probe.parseSlug. now rewrite H.
  - intros H.
    destruct (GrammarFacts.search_unix_captures _ _ _ H)
      as (nm & tag & ds & -> & Htag & _ & _).
    destruct (GrammarFacts.timeframeOfTag_tag _ Htag) as [tf Etf].
    exists tf. unfold Scrapper.decodeUnix.
    change (cap 2 [nm; tag; ds]) with tag. now rewrite Etf.
  - intros H Hlt Hh Hp.
    destruct (GrammarFacts.search_unix_captures _ _ _ H)
      as (nm & tag & ds & E & Htag & _ & Hds).
    destruct (GrammarFacts.timeframeOfTag_tag _ Htag) as [tf Etf].
    exists tf. unfold Logger.parseSlug. rewrite H.
    unfold Logger.decodeUnix. fold unixSeconds. fold t.
    assert (Ht : inFourDigitEra t).
    { split; [|assumption]. unfold t, unixSeconds. subst m.
      change (cap 3 [nm; tag; ds]) with ds.
      pose proof (parseDigits_nonneg ds 0 Hds (Z.le_refl 0)).
      unfold Text.parseInt. lia. }
    subst m. change (cap 2 [nm; tag; ds]) with tag. rewrite Etf.
    pose proof (rebuild_minute rt t Ht Hh Hp) as R.
    destruct (formatToParts rt (ES.TimeClip t)) as [et|]; simpl in R |- *;
      [|discriminate].
    destruct (probeOffset rt _) as [offset|]; simpl in R |- *;
      [|discriminate].
    now inversion R.
Qed.

Lemma C4_epoch_decode_witness :
  Logger.parseSlug nodeUTC 0 "btc-updown-15m-1762104601" BTC
  = Ret (Some {| timeframe_of := m15; timestamp := Some 1762104600000 |}).
Proof.
  destruct (proj2 (proj2 (C4_epoch_decode nodeUTC 0
                            "btc-updown-15m-1762104601" BTC
                            ["btc"; "15m"; "1762104601"]%string))
              eq_refl eq_refl (or_introl eq_refl) eq_refl) as [tf E].
  rewrite E. vm_compute in E.
  now inversion E.
Defined.

(** ** Alignment of window starts *)

Section Alignment.
Variable rt : Runtime.

Lemma TimeClip_some (x t : Z) : ES.TimeClip x = Some t -> t = x.
Proof.
  unfold ES.TimeClip. destruct (Z.abs x <=? ES.maxTime); congruence.
Qed.

(** A valid date read from an ISO text with a well-formed date part is
    the instant of its fields. *)
Lemma dateFromISO_some (y mo d h mi s off t : Z) :
  1000 <= y <= 9999 -> 1 <= mo <= 12 -> 1 <= d <= 31 ->
  dateFromISO rt y mo d h mi s off = Some t ->
  t = ES.MakeDate (ES.MakeDay y (mo - 1) d) (ES.MakeTime h mi s 0)
      - off * ES.msPerMinute.
Proof.
  intros Hy Hmo Hd. unfold dateFromISO.
  replace ((1000 <=? y) && (y <=? 9999) && (1 <=? mo) && (mo <=? 12)
           && (1 <=? d) && (d <=? 31)) with true
    by (symmetry; repeat (apply andb_true_iff; split); apply Z.leb_le; lia).
  destruct (_ || _); [apply TimeClip_some | discriminate].
Qed.

Lemma indexOf_range (name : string) (l : list string) : forall i n,
  Grammar.indexOf name l i = Some n -> i <= n < i + Z.of_nat (List.length l).
Proof.
  induction l as [|x l IH]; intros i n H; simpl in H; [discriminate|].
  destruct (String.eqb name x).
  - inversion H; subst. simpl List.length. lia.
  - apply IH in H. simpl List.length. lia.
Qed.

Lemma MONTHS_range (name : string) (n : Z) :
  Grammar.MONTHS name = Grammar.MonthNum n -> 1 <= n <= 12.
Proof.
  unfold Grammar.MONTHS.
  destruct (Grammar.indexOf name Grammar.monthNames 1) as [k|] eqn:E.
  - intros H. inversion H; subst. apply indexOf_range in E.
    simpl in E. lia.
  - destruct (String.eqb name "constructor"); discriminate.
Qed.

Lemma inferYear_cases (nowY nowMo nowD mo d : Z) :
  Logger.inferYear nowY nowMo nowD mo d = nowY
  \/ Logger.inferYear nowY nowMo nowD mo d = nowY + 1.
Proof.
  unfold Logger.inferYear.
  destruct (_ || _); [now right|]. destruct (_ && _); now left.
Qed.

Lemma probeOffset_cases (d : ES.Date) (off : Z) :
  probeOffset rt d = Ret off -> off = -240 \/ off = -300.
Proof.
  destruct d as [t|]; simpl; [|discriminate].
  intros H. inversion H. apply nyOffsetMin_cases.
Qed.

(** The civil minute of an instant built from fields with minute [mi],
    whatever EST/EDT offset was used to build it. *)
Lemma local_minute_of_fields (day h mi off : Z) :
  0 <= mi <= 59 -> off = -240 \/ off = -300 ->
  ES.MinFromTime
    (nyLocal rt (ES.MakeDate day (ES.MakeTime h mi 0 0)
                 - off * ES.msPerMinute)) = mi.
Proof.
  intros Hmi Hoff. unfold nyLocal.
  set (t := ES.MakeDate day (ES.MakeTime h mi 0 0) - off * ES.msPerMinute).
  destruct (nyOffsetMin_cases rt t) as [E | E]; rewrite E; subst t;
    destruct Hoff as [-> | ->];
    unfold ES.MinFromTime, ES.MakeDate, ES.MakeTime, ES.msPerDay,
      ES.msPerHour, ES.msPerMinute, ES.msPerSecond;
    Z.div_mod_to_equations; lia.
Qed.

Lemma quarter_floor (mi : Z) :
  0 <= mi <= 59 ->
  existsb (Z.eqb (mi / 15 * 15)) [0; 15; 30; 45] = true.
Proof.
  intros H.
  assert (Hq : mi / 15 = 0 \/ mi / 15 = 1 \/ mi / 15 = 2 \/ mi / 15 = 3)
    by (Z.div_mod_to_equations; lia).
  destruct Hq as [-> | [-> | [-> | ->]]]; reflexivity.
Qed.

Lemma m15Start_fields (now : Z) :
  let l := nyLocal rt now in
  let mi := ES.MinFromTime l / 15 * 15 in
  Logger.m15Start rt now
  = (offset <- probeOffset rt
                 (ES.DateUTC (eraYear (ES.YearFromTime l))
                    (ES.MonthFromTime l + 1 - 1) (ES.DateFromTime l)
                    (cycleHour rt (ES.HourFromTime l)) mi) ;;
     Ret (dateFromISO rt (eraYear (ES.YearFromTime l))
            (ES.MonthFromTime l + 1) (ES.DateFromTime l)
            (cycleHour rt (ES.HourFromTime l)) mi 0 offset)).
Proof. reflexivity. Qed.

(** The instant the m15 encoder embeds lies on a civil quarter hour. *)
Lemma m15Start_aligned (now t : Z) :
  inFourDigitEra now ->
  Logger.m15Start rt now = Ret (Some t) ->
  startAligned rt m15 t = true.
Proof.
  intros Hera H. rewrite m15Start_fields in H. cbv zeta in H.
  destruct (probeOffset rt _) as [off|] eqn:P; [|discriminate H].
  apply probeOffset_cases in P.
  unfold bind in H. injection H as D.
  pose proof (local_year_range rt now Hera) as Hy.
  pose proof (civil_month_day_range (nyLocal rt now)) as [Hm Hd].
  pose proof (minute_range (nyLocal rt now)) as Hmi.
  assert (Hq : 0 <= ES.MinFromTime (nyLocal rt now) / 15 * 15 <= 59)
    by (Z.div_mod_to_equations; lia).
  rewrite eraYear_id in D by lia.
  apply dateFromISO_some in D; try lia.
  subst t. unfold startAligned, minuteAligned.
  rewrite local_minute_of_fields by assumption.
  now apply quarter_floor.
Qed.

End Alignment.

Section TextAlignment.
Variable rt : Runtime.

(** The year inferred for a text slug has four digits when the clock's
    civil year lies in 1000..9998. *)
Lemma inferYear_range (nowY nowMo nowD mo d : Z) :
  1000 <= nowY < 9999 ->
  1000 <= Logger.inferYear nowY nowMo nowD mo d <= 9999.
Proof.
  intros H. destruct (inferYear_cases nowY nowMo nowD mo d) as [-> | ->];
    lia.
Qed.

Lemma decodeH1_aligned (clock : Z) (m : list string) (p : parsed) (t : Z) :
  1000 <= pYear (etParts rt clock) < 9999 ->
  1 <= Text.parseInt (cap 3 m) <= 31 ->
  Logger.decodeH1 rt clock m = Ret (Some p) ->
  timestamp p = Some t ->
  timeframe_of p = h1 /\ startAligned rt h1 t = true.
Proof.
  intros Hy Hd H Ht. unfold Logger.decodeH1 in H. cbv zeta in H.
  destruct (Grammar.MONTHS (cap 2 m)) as [mo| |] eqn:M; try discriminate H.
  apply MONTHS_range in M.
  destruct (probeOffset rt _) as [off|] eqn:P; [|discriminate H].
  apply probeOffset_cases in P.
  unfold bind in H. injection H as E. subst p.
  simpl in Ht |- *. split; [reflexivity|].
  apply dateFromISO_some in Ht;
    [| now apply inferYear_range | assumption | assumption].
  subst t. unfold minuteAligned.
  rewrite local_minute_of_fields by (assumption || lia).
  reflexivity.
Qed.

Lemma decodeDaily_aligned (clock : Z) (m : list string) (p : parsed)
      (t : Z) :
  1000 <= pYear (etParts rt clock) < 9999 ->
  1 <= Text.parseInt (cap 3 m) <= 31 ->
  Logger.decodeDaily rt clock m = Ret (Some p) ->
  timestamp p = Some t ->
  (forall mo,
      Grammar.MONTHS (cap 2 m) = Grammar.MonthNum mo ->
      probeOffset rt
        (dateLocal rt
           (Logger.inferYear (pYear (etParts rt clock))
              (pMonth (etParts rt clock)) (pDay (etParts rt clock)) mo
              (Text.parseInt (cap 3 m)))
           (mo - 1) (Text.parseInt (cap 3 m)) 0)
      = Ret (nyOffsetMin rt t)) ->
  timeframe_of p = daily /\ startAligned rt daily t = true.
Proof.
  intros Hy Hd H Ht Hp. unfold Logger.decodeDaily in H. cbv zeta in H.
  destruct (Grammar.MONTHS (cap 2 m)) as [mo| |] eqn:M; try discriminate H.
  specialize (Hp mo eq_refl). rewrite Hp in H.
  apply MONTHS_range in M.
  unfold bind in H. injection H as E. subst p.
  simpl in Ht |- *. split; [reflexivity|].
  apply dateFromISO_some in Ht;
    [| now apply inferYear_range | assumption | assumption].
  unfold midnightAligned, nyLocal.
  set (day := ES.MakeDay _ _ _) in Ht.
  assert (El : t + nyOffsetMin rt t * ES.msPerMinute = day * ES.msPerDay)
    by (rewrite Ht at 1; unfold ES.MakeDate, ES.MakeTime; lia).
  rewrite El. clear.
  assert (ES.HourFromTime (day * ES.msPerDay) = 0 /\
          ES.MinFromTime (day * ES.msPerDay) = 0) as [-> ->]
    by (unfold ES.HourFromTime, ES.MinFromTime, ES.msPerDay, ES.msPerHour,
          ES.msPerMinute; split; Z.div_mod_to_equations; lia).
  reflexivity.
Qed.

End TextAlignment.

Lemma C9_counterexample :
  ~ (forall (rt : Runtime) (clock : Z) (slug : string) (a : asset)
            (p : parsed) (t : Z),
        Logger.parseSlug rt clock slug a = Ret (Some p) ->
        timestamp p = Some t ->
        startAligned rt (timeframe_of p) t = true).
Proof.
  intros H.
  specialize (H nodeUTC 0 "btc-updown-15m-1762104660"%string BTC
                {| timeframe_of := m15; timestamp := Some 1762104660000 |}
                1762104660000 eq_refl eq_refl).
  vm_compute in H. discriminate H.
Qed.

(** C9 (amended): the instant embedded by the m15 encoder has a civil minute
    of 0, 15, 30 or 45; a descriptor decoded from the hourly-text grammar
    has a civil minute of 0; a descriptor decoded from the daily-text
    grammar starts at civil 00:00 when the EST/EDT probe returns the offset
    in force at that start.  (Decoding the epoch grammar returns the
    embedded instant without checking its alignment.) *)
Theorem C9_start_alignment (rt : Runtime) :
  (forall now t,
      inFourDigitEra now ->
      Logger.m15Start rt now = Ret (Some t) ->
      startAligned rt m15 t = true)
  /\ (forall clock slug a m p t,
         Text.search (Grammar.unixPattern a) slug = None ->
         Text.search (Grammar.dailyPattern a) slug = None ->
         Text.search (Grammar.h1Pattern a) slug = Some m ->
         1000 <= pYear (etParts rt clock) < 9999 ->
         1 <= Text.parseInt (cap 3 m) <= 31 ->
         Logger.parseSlug rt clock slug a = Ret (Some p) ->
         timestamp p = Some t ->
         timeframe_of p = h1 /\ startAligned rt h1 t = true)
  /\ (forall clock slug a m p t,
         Text.search (Grammar.unixPattern a) slug = None ->
         Text.search (Grammar.dailyPattern a) slug = Some m ->
         1000 <= pYear (etParts rt clock) < 9999 ->
         1 <= Text.parseInt (cap 3 m) <= 31 ->
         Logger.parseSlug rt clock slug a = Ret (Some p) ->
         timestamp p = Some t ->
         (forall mo,
             Grammar.MONTHS (cap 2 m) = Grammar.MonthNum mo ->
             probeOffset rt
               (dateLocal rt
                  (Logger.inferYear (pYear (etParts rt clock))
                     (pMonth (etParts rt clock)) (pDay (etParts rt clock))
                     mo (Text.parseInt (cap 3 m)))
                  (mo - 1) (Text.parseInt (cap 3 m)) 0)
             = Ret (nyOffsetMin rt t)) ->
         timeframe_of p = daily /\ startAligned rt daily t = true).
Proof.
  split; [|split].
  - intros now t. apply m15Start_aligned.
  - intros clock slug a m p t Hu Hd Hh Hy Hday H Ht.
    rewrite (parseSlug_h1 rt clock slug a m Hu Hd Hh) in H.
    eapply decodeH1_aligned; eauto.
  - intros clock slug a m p t Hu Hd Hy Hday H Ht Hp.
    rewrite (parseSlug_daily rt clock slug a m Hu Hd) in H.
    eapply decodeDaily_aligned; eauto.
Qed.

Lemma C9_start_alignment_witness :
  startAligned nodeUTC m15 1762127100000 = true
  /\ startAligned nodeUTC daily 1762146000000 = true.
Proof.
  split.
  - apply (proj1 (C9_start_alignment nodeUTC) 1762127220000 1762127100000).
    + unfold inFourDigitEra. lia.
    + vm_compute. reflexivity.
  - apply (proj2 (proj2 (C9_start_alignment nodeUTC)) 1762127220000
             "solana-up-or-down-on-november-3"%string SOL
             ["solana"; "november"; "3"]%string
             {| timeframe_of := daily; timestamp := Some 1762146000000 |}
             1762146000000).
    + reflexivity.
    + reflexivity.
    + vm_compute. split; [discriminate | reflexivity].
    + vm_compute. split; discriminate.
    + vm_compute. reflexivity.
    + reflexivity.
    + intros mo E. vm_compute in E. injection E as <-.
      vm_compute. reflexivity.
Defined.

(** ** Decoding the old numeric format *)

Section LegacyDecode.
Variable rt : Runtime.
Variable k : Z.
(** The host keeps a fixed offset [k] from UTC. *)
Hypothesis host_local : forall x, hostLocal rt x = x + k.
Hypothesis host_utc : forall x, hostUTC rt x = x - k.

Lemma addMinutesLocal_fixed (n t : Z) :
  addMinutesLocal rt n (Some t) = ES.TimeClip (t + n * ES.msPerMinute).
Proof.
  unfold addMinutesLocal. rewrite host_local, host_utc. f_equal.
  pose proof (time_fields (t + k)) as F.
  unfold ES.MakeDate, ES.MakeTime in *. lia.
Qed.

Lemma addHoursLocal_fixed (n t : Z) :
  addHoursLocal rt n (Some t) = ES.TimeClip (t + n * ES.msPerHour).
Proof.
  unfold addHoursLocal. rewrite host_local, host_utc. f_equal.
  pose proof (time_fields (t + k)) as F.
  unfold ES.MakeDate, ES.MakeTime in *. lia.
Qed.

Lemma legacyLoop_cons (a : asset) (tf : timeframe) (rest : list timeframe)
      (slug : string) :
  Logger.legacyLoop rt a (tf :: rest) slug
  = match Text.search (Grammar.legacyPattern a tf) slug with
    | Some m => Logger.decodeLegacy rt tf m
    | None => Logger.legacyLoop rt a rest slug
    end.
Proof. reflexivity. Qed.

End LegacyDecode.

Lemma C6_counterexample :
  ~ (forall (rt : Runtime) (slug : string) (a : asset) (m : list string)
            (offset t0 : Z),
        Text.search (Grammar.legacyPattern a m15) slug = Some m ->
        probeOffset rt
          (dateFromISO rt (Text.parseInt (cap 1 m)) (Text.parseInt (cap 2 m))
                       (Text.parseInt (cap 3 m)) 12 0 0 0) = Ret offset ->
        dateFromISO rt (Text.parseInt (cap 1 m)) (Text.parseInt (cap 2 m))
                    (Text.parseInt (cap 3 m)) (Text.parseInt (cap 4 m))
                    (Text.parseInt (cap 5 m)) 0 offset = Some t0 ->
        FirstGen.parseSlug rt slug a
        = Ret (Some {| timeframe_of := m15;
                       timestamp := Some (t0 - 15 * ES.msPerMinute) |})).
Proof.
  intros H.
  specialize (H nodeUTC "btc-updown-15m-2025-11-02-13-30"%string BTC
                ["2025"; "11"; "02"; "13"; "30"]%string (-300)
                1762108200000 eq_refl eq_refl eq_refl).
  vm_compute in H. discriminate H.
Qed.

(** C6 (amended): for an identifier of the old numeric format the decoder of
    the first generation (kept as the last branch of the later ones, where
    the epoch branch is taken instead for every such identifier) reads the
    civil fields at the EST/EDT offset probed at noon UTC of that date.
    For daily it returns 23:59:59 civil of that date.  For m15 and h1 it
    then steps the host's local clock with [setMinutes] and [setHours]: on
    a host that keeps a fixed offset from UTC it returns that instant plus
    15 minutes, respectively plus one hour.  The duration is added, nothing
    is subtracted. *)
Theorem C6_legacy_decode_adds_duration
        (rt : Runtime) (k : Z) (slug : string) (a : asset) (m : list string)
        (offset : Z) :
  let year := Text.parseInt (cap 1 m) in
  let month := Text.parseInt (cap 2 m) in
  let day := Text.parseInt (cap 3 m) in
  let hour := Text.parseInt (cap 4 m) in
  let minute := Text.parseInt (cap 5 m) in
  probeOffset rt (dateFromISO rt year month day 12 0 0 0) = Ret offset ->
  ((forall x, hostLocal rt x = x + k) ->
   (forall x, hostUTC rt x = x - k) ->
   (forall t0,
       Text.search (Grammar.legacyPattern a m15) slug = Some m ->
       dateFromISO rt year month day hour minute 0 offset = Some t0 ->
       FirstGen.parseSlug rt slug a
       = Ret (Some {| timeframe_of := m15;
                      timestamp :=
                        ES.TimeClip (t0 + 15 * ES.msPerMinute) |}))
   /\ (forall t0,
          Text.search (Grammar.legacyPattern a m15) slug = None ->
          Text.search (Grammar.legacyPattern a h1) slug = Some m ->
          dateFromISO rt year month day hour 0 0 offset = Some t0 ->
          FirstGen.parseSlug rt slug a
          = Ret (Some {| timeframe_of := h1;
                         timestamp :=
                           ES.TimeClip (t0 + 1 * ES.msPerHour) |})))
  /\ (Text.search (Grammar.legacyPattern a m15) slug = None ->
      Text.search (Grammar.legacyPattern a h1) slug = None ->
      Text.search (Grammar.legacyPattern a daily) slug = Some m ->
      FirstGen.parseSlug rt slug a
      = Ret (Some {| timeframe_of := daily;
                     timestamp := dateFromISO rt year month day 23 59 59
                                              offset |}))
  /\ (forall (clock : Z) (tf : timeframe) (ml : list string),
         Text.search (Grammar.legacyPattern a tf) slug = Some ml ->
         exists mu,
           Text.search (Grammar.unixPattern a) slug = Some mu
           /\ Logger.parseSlug rt clock slug a = Logger.decodeUnix rt mu
           /\ Scrapper.parseSlug rt clock slug a
              = Ret (Scrapper.decodeUnix mu)).
Proof.
  intros year month day hour minute Hp.
  split; [|split].
  - intros Hl Hu. unfold FirstGen.parseSlug. rewrite !legacyLoop_cons.
    split.
    + intros t0 Hs Ht. rewrite Hs. unfold Logger.decodeLegacy.
      fold year month day hour minute. rewrite Hp. unfold bind. rewrite Ht.
      now rewrite (addMinutesLocal_fixed rt k Hl Hu).
    + intros t0 Hs1 Hs2 Ht. rewrite Hs1, Hs2. unfold Logger.decodeLegacy.
      fold year month day hour. rewrite Hp. unfold bind. rewrite Ht.
      now rewrite (addHoursLocal_fixed rt k Hl Hu).
  - unfold FirstGen.parseSlug. rewrite !legacyLoop_cons.
    intros Hs1 Hs2 Hs3. rewrite Hs1, Hs2, Hs3. unfold Logger.decodeLegacy.
    fold year month day. rewrite Hp. reflexivity.
  - intros clock tf ml Hs.
    pose proof (GrammarFacts.search_legacy_unix _ _ _ _ Hs) as Hn.
    destruct (Text.search (Grammar.unixPattern a) slug) as [mu|] eqn:E;
      [|contradiction].
    exists mu. repeat split.
    + unfold Logger.parseSlug. now rewrite E.
    + unfold Scrapper.parseSlug. now rewrite E.
Qed.

Lemma C6_legacy_decode_adds_duration_witness :
  FirstGen.parseSlug nodeUTC "btc-updown-15m-2025-11-02-13-30" BTC
  = Ret (Some {| timeframe_of := m15;
                 timestamp := ES.TimeClip (1762108200000
                                           + 15 * ES.msPerMinute) |}).
Proof.
  apply (proj1 (proj1 (C6_legacy_decode_adds_duration nodeUTC 0
                         "btc-updown-15m-2025-11-02-13-30" BTC
                         ["2025"; "11"; "02"; "13"; "30"]%string (-300)
                         eq_refl)
                      (fun x => eq_sym (Z.add_0_r x))
                      (fun x => eq_sym (Z.sub_0_r x)))
               1762108200000 eq_refl eq_refl).
Defined.

(** ** The encoder and the round trip *)

Section EncoderFacts.
Variable rt : Runtime.

Lemma time_fields_quarter (l : Z) :
  ES.MakeDate (ES.Day l)
    (ES.MakeTime (ES.HourFromTime l) (ES.MinFromTime l / 15 * 15) 0 0)
  = l - l mod (15 * ES.msPerMinute).
Proof.
  unfold ES.MakeDate, ES.MakeTime, ES.Day, ES.HourFromTime, ES.MinFromTime,
    ES.msPerDay, ES.msPerHour, ES.msPerMinute, ES.msPerSecond.
  Z.div_mod_to_equations. lia.
Qed.

(** Away from the hours that follow a change of offset, the m15 encoder
    embeds [now] rounded down to the quarter hour. *)
Lemma m15Start_floor (now : Z) :
  inFourDigitEra now ->
  plainHour rt (nyLocal rt now) ->
  nyEDT rt (nyLocal rt now - nyLocal rt now mod (15 * ES.msPerMinute))
  = nyEDT rt now ->
  Logger.m15Start rt now
  = Ret (Some (now - now mod (15 * ES.msPerMinute))).
Proof.
  intros Ht Hh Hp. rewrite m15Start_fields. cbv zeta.
  pose proof (local_year_range rt now Ht) as Hy.
  assert (Hl : -18000000 <= nyLocal rt now < 253402300800000)
    by (unfold nyLocal, ES.msPerMinute, inFourDigitEra in *;
        destruct (nyOffsetMin_cases rt now) as [-> | ->]; lia).
  pose proof (minute_range (nyLocal rt now)) as Hmi.
  assert (Hq : 0 <= ES.MinFromTime (nyLocal rt now) / 15 * 15 <= 59)
    by (Z.div_mod_to_equations; lia).
  rewrite DateUTC_fields by (assumption || lia).
  rewrite time_fields_quarter.
  rewrite TimeClip_valid
    by (unfold ES.maxTime, ES.msPerMinute in *;
        Z.div_mod_to_equations; lia).
  unfold probeOffset, bind.
  rewrite dateFromISO_fields by (assumption || lia).
  rewrite time_fields_quarter.
  assert (Hoff : nyOffsetMin rt
                   (nyLocal rt now
                    - nyLocal rt now mod (15 * ES.msPerMinute))
                 = nyOffsetMin rt now)
    by (unfold nyOffsetMin; now rewrite Hp).
  rewrite Hoff.
  assert (Hmod : nyLocal rt now mod (15 * ES.msPerMinute)
                 = now mod (15 * ES.msPerMinute)).
  { unfold nyLocal.
    destruct (nyOffsetMin_cases rt now) as [-> | ->];
      unfold ES.msPerMinute; Z.div_mod_to_equations; lia. }
  rewrite Hmod.
  replace (nyLocal rt now - now mod (15 * ES.msPerMinute)
           - nyOffsetMin rt now * ES.msPerMinute)
    with (now - now mod (15 * ES.msPerMinute)) by (unfold nyLocal; lia).
  rewrite TimeClip_valid
    by (unfold inFourDigitEra, ES.maxTime, ES.msPerMinute in *;
        Z.div_mod_to_equations; lia).
  reflexivity.
Qed.

End EncoderFacts.

(** C1: the round trip encode, decode, containment four hours after the end
    of daylight time.  At 2025-11-02T08:47:00Z (civil 03:47 EST) the m15
    encoder emits an identifier whose instant is civil 02:45, decode turns
    it into civil 01:45, and the containment check of that descriptor at
    the same instant answers false. *)
Theorem C1_round_trip_after_fall_back :
  etParts nodeUTC 1762073220000
  = {| pYear := 2025; pMonth := 11; pDay := 2; pHour := 3; pMinute := 47 |}
  /\ Logger.generateExpectedSlug nodeUTC BTC m15 1762073220000
     = Ret "btc-updown-15m-1762069500"%string
  /\ Logger.resolve nodeUTC BTC m15 1762073220000
     = Ret (Some {| timeframe_of := m15; timestamp := Some 1762065900000 |},
            false)
  /\ etParts nodeUTC 1762065900000
     = {| pYear := 2025; pMonth := 11; pDay := 2; pHour := 1;
          pMinute := 45 |}.
Proof. vm_compute. repeat split. Qed.

(** C2: the daily encoder at 12:00 civil time on the last day of a month.
    At 2025-11-30T17:00:00Z (civil 12:00 EST) it labels the identifier
    "november-31", and the containment check at that instant rejects the
    window of 1 December; at 2025-12-31T17:00:00Z it labels the identifier
    "december-32". *)
Theorem C2_daily_label_at_month_end :
  etParts nodeUTC 1764522000000
  = {| pYear := 2025; pMonth := 11; pDay := 30; pHour := 12; pMinute := 0 |}
  /\ Logger.generateExpectedSlug nodeUTC BTC daily 1764522000000
     = Ret "bitcoin-up-or-down-on-november-31"%string
  /\ civilDate nodeUTC 1764565200000 = (2025, 12, 1)
  /\ Logger.isActiveMarket nodeUTC
       (Some {| timeframe_of := daily; timestamp := Some 1764565200000 |})
       BTC daily 1764522000000
     = Ret (false, Some (Some 1764565200000))
  /\ Logger.generateExpectedSlug nodeUTC BTC daily 1767200400000
     = Ret "bitcoin-up-or-down-on-december-32"%string.
Proof. vm_compute. repeat split. Qed.

(** C3: the m15 encoder four hours after the end of daylight time.  At
    2025-11-02T08:47:00Z (civil 03:47 EST) the minute is floored to 45, but
    the identifier embeds 1762069500, which is civil 02:45 EST, while civil
    03:45 EST is the instant 1762073100. *)
Theorem C3_m15_encoder_after_fall_back :
  etParts nodeUTC 1762073220000
  = {| pYear := 2025; pMonth := 11; pDay := 2; pHour := 3; pMinute := 47 |}
  /\ Logger.generateExpectedSlug nodeUTC BTC m15 1762073220000
     = Ret "btc-updown-15m-1762069500"%string
  /\ etParts nodeUTC (1762069500 * 1000)
     = {| pYear := 2025; pMonth := 11; pDay := 2; pHour := 2;
          pMinute := 45 |}
  /\ etParts nodeUTC (1762073100 * 1000)
     = {| pYear := 2025; pMonth := 11; pDay := 2; pHour := 3;
          pMinute := 45 |}.
Proof. vm_compute. repeat split. Qed.

(** ** Decimal numerals *)

Section Numerals.

Lemma parseDigits_of_uint_acc (d : Decimal.uint) : forall acc : positive,
  Text.parseDigits (Zpos acc) (NilEmpty.string_of_uint d)
  = Zpos (Pos.of_uint_acc d acc).
Proof.
  induction d; intros acc;
    cbn [NilEmpty.string_of_uint Text.parseDigits Pos.of_uint_acc];
    try reflexivity; rewrite <- IHd; f_equal;
    match goal with
    | |- context [Text.digitVal ?c] =>
        let v := eval vm_compute in (Text.digitVal c) in
        change (Text.digitVal c) with v
    end; lia.
Qed.

Lemma parseDigits_of_uint (d : Decimal.uint) :
  Text.parseDigits 0 (NilEmpty.string_of_uint d) = Z.of_N (Pos.of_uint d).
Proof.
  induction d; cbn [NilEmpty.string_of_uint Text.parseDigits Pos.of_uint];
    try reflexivity; try exact IHd;
    match goal with
    | |- context [Text.digitVal ?c] =>
        let v := eval vm_compute in (0 * 10 + Text.digitVal c) in
        change (0 * 10 + Text.digitVal c) with v
    end; apply (parseDigits_of_uint_acc d).
Qed.

Lemma digits_of_uint (d : Decimal.uint) :
  Text.allClass Text.Digit (NilEmpty.string_of_uint d) = true.
Proof. induction d; simpl; auto. Qed.

(** [String(n)] of a natural number is a non-empty run of digits that
    [parseInt] reads back as [n]. *)
Lemma showZ_spec (n : Z) :
  0 <= n ->
  Text.parseInt (Text.showZ n) = n
  /\ Text.allClass Text.Digit (Text.showZ n) = true
  /\ Text.showZ n <> EmptyString.
Proof.
  intros Hn. destruct n as [|p|p]; [repeat split; discriminate | | lia].
  unfold Text.showZ, Text.parseInt. simpl Z.to_int.
  unfold NilZero.string_of_int, NilZero.string_of_uint.
  pose proof (DecimalPos.Unsigned.of_to p) as E.
  destruct (Pos.to_uint p) eqn:U; try discriminate E;
    rewrite <- U in *; (split; [|split]);
    try (rewrite parseDigits_of_uint, E; reflexivity);
    try apply digits_of_uint;
    rewrite U; discriminate.
Qed.

End Numerals.

(** ** The m15 round trip away from a change of offset *)

Section MatchEncoded.
Import Text TextFacts.
Context {R : Type}.
Implicit Types (k : @cont R).

Lemma rmatch_cat r1 r2 s caps k :
  rmatch (Cat r1 r2) s caps k
  = rmatch r1 s caps (fun s' caps' => rmatch r2 s' caps' k).
Proof. reflexivity. Qed.

Lemma rmatch_lit_app p s caps k : rmatch (Lit p) (p ++ s) caps k = k s caps.
Proof. simpl. now rewrite stripPrefix_complete. Qed.

Lemma rmatch_group_lit p s caps k :
  rmatch (Group (Lit p)) (p ++ s) caps k = k s (caps ++ [p])%list.
Proof. simpl. rewrite stripPrefix_complete. now rewrite capture_text. Qed.

Lemma rmatch_group_alt_l r1 r2 s caps k x :
  rmatch (Group r1) s caps k = Some x ->
  rmatch (Group (Alt r1 r2)) s caps k = Some x.
Proof. simpl. intros ->. reflexivity. Qed.

Lemma plusFrom_greedy c ds caps k x :
  allClass c ds = true -> ds <> EmptyString -> k EmptyString caps = Some x ->
  plusFrom c ds caps k = Some x.
Proof.
  induction ds as [|a ds IH]; intros Hc Hne Hk; [congruence|].
  simpl in *. apply andb_true_iff in Hc as [Ha Hds]. rewrite Ha.
  destruct ds as [|b ds].
  - simpl. exact Hk.
  - rewrite IH; auto. discriminate.
Qed.

Lemma substring_all (s : string) : substring 0 (String.length s) s = s.
Proof.
  pose proof (substring_prefix s EmptyString) as H.
  now rewrite append_empty_r in H.
Qed.

Lemma rmatch_group_plus_all c ds caps k x :
  allClass c ds = true -> ds <> EmptyString ->
  k EmptyString (caps ++ [ds])%list = Some x ->
  rmatch (Group (Plus c)) ds caps k = Some x.
Proof.
  intros Hc Hne Hk. simpl. apply plusFrom_greedy; auto.
  simpl String.length. rewrite Nat.sub_0_r, substring_all. exact Hk.
Qed.

End MatchEncoded.

Lemma search_here (r : Text.regex) (s : string) (m : list string) :
  Text.matchHere r s = Some m -> Text.search r s = Some m.
Proof. intros H. destruct s; simpl; now rewrite H. Qed.

(** The epoch pattern reads back the identifier the m15 encoder writes. *)
Lemma search_unix_encoded (a : asset) (ds : string) :
  ds <> EmptyString -> Text.allClass Text.Digit ds = true ->
  Text.search (Grammar.unixPattern a)
              (shortName a ++ "-updown-15m-" ++ ds)
  = Some [shortName a; "15m"%string; ds].
Proof.
  intros Hne Hds. apply search_here.
  change (shortName a ++ "-updown-15m-" ++ ds)%string
    with (shortName a ++ ("-updown-" ++ ("15m" ++ ("-" ++ ds))))%string.
  unfold Text.matchHere, Grammar.unixPattern, Grammar.assetAlt, Text.seq.
  rewrite rmatch_cat. apply rmatch_group_alt_l. rewrite rmatch_group_lit.
  rewrite rmatch_cat, rmatch_lit_app.
  rewrite rmatch_cat. apply rmatch_group_alt_l. rewrite rmatch_group_lit.
  rewrite rmatch_cat, rmatch_lit_app.
  apply rmatch_group_plus_all; auto.
Qed.

Section RoundTrip.
Variable rt : Runtime.

(** The epoch branch on captures whose instant [t] satisfies the conditions
    of [rebuild_minute]. *)
Lemma decodeUnix_minute (nm tag ds : string) (tf : timeframe) :
  Grammar.timeframeOfTag tag = Some tf ->
  let t := Text.parseInt ds * 1000 in
  inFourDigitEra t ->
  plainHour rt (nyLocal rt t) ->
  nyEDT rt (nyLocal rt t - nyLocal rt t mod ES.msPerMinute) = nyEDT rt t ->
  Logger.decodeUnix rt [nm; tag; ds]
  = Ret (Some {| timeframe_of := tf;
                 timestamp := Some (t - t mod ES.msPerMinute) |}).
Proof.
  intros Etf t Ht Hh Hp. unfold Logger.decodeUnix.
  change (cap 2 [nm; tag; ds]) with tag.
  change (cap 3 [nm; tag; ds]) with ds. fold t. rewrite Etf.
  pose proof (rebuild_minute rt t Ht Hh Hp) as Rb.
  destruct (formatToParts rt (ES.TimeClip t)) as [et|]; simpl in Rb |- *;
    [|discriminate].
  destruct (probeOffset rt _) as [offset|]; simpl in Rb |- *;
    [|discriminate].
  now inversion Rb.
Qed.

(** Civil fields of a local time value rounded down to the quarter hour. *)
Lemma fields_of_quarter (l : Z) :
  let q := l - l mod (15 * ES.msPerMinute) in
  ES.Day q = ES.Day l /\ ES.HourFromTime q = ES.HourFromTime l
  /\ ES.MinFromTime q = ES.MinFromTime l / 15 * 15
  /\ q mod ES.msPerMinute = 0.
Proof.
  unfold ES.Day, ES.HourFromTime, ES.MinFromTime, ES.msPerDay, ES.msPerHour,
    ES.msPerMinute.
  cbv zeta. repeat split; Z.div_mod_to_equations; lia.
Qed.

End RoundTrip.

Section RoundTripM15.
Variable rt : Runtime.

Lemma etParts_quarter (now t : Z) :
  nyLocal rt t = nyLocal rt now - nyLocal rt now mod (15 * ES.msPerMinute) ->
  etParts rt t
  = {| pYear := pYear (etParts rt now); pMonth := pMonth (etParts rt now);
       pDay := pDay (etParts rt now); pHour := pHour (etParts rt now);
       pMinute := pMinute (etParts rt now) / 15 * 15 |}.
Proof.
  intros Hl. unfold etParts. cbv zeta. rewrite Hl.
  destruct (fields_of_quarter (nyLocal rt now)) as (Hd & Hh & Hm & _).
  cbv zeta in Hd, Hh, Hm.
  unfold ES.YearFromTime, ES.MonthFromTime, ES.DateFromTime.
  rewrite Hd, Hh, Hm. reflexivity.
Qed.

Lemma m15_contains (n : Parts) :
  0 <= pMinute n <= 59 ->
  (pYear n =? pYear n) && (pMonth n =? pMonth n) && (pDay n =? pDay n)
  && (pHour n =? pHour n) && (pMinute n >=? pMinute n / 15 * 15)
  && (pMinute n <? pMinute n / 15 * 15 + 15) = true.
Proof.
  intros H. rewrite !Z.eqb_refl. simpl.
  apply andb_true_iff. split.
  - apply Z.geb_le. Z.div_mod_to_equations. lia.
  - apply Z.ltb_lt. Z.div_mod_to_equations. lia.
Qed.

Lemma quarter_facts (now : Z) :
  inFourDigitEra now ->
  let t := now - now mod (15 * ES.msPerMinute) in
  inFourDigitEra t /\ t mod ES.msPerMinute = 0 /\ 0 <= t / 1000
  /\ t / 1000 * 1000 = t.
Proof.
  unfold inFourDigitEra, ES.msPerMinute. intros H. cbv zeta.
  repeat split; Z.div_mod_to_equations; lia.
Qed.

Lemma nyLocal_mod_quarter (now : Z) :
  nyLocal rt now mod (15 * ES.msPerMinute) = now mod (15 * ES.msPerMinute).
Proof.
  unfold nyLocal.
  destruct (nyOffsetMin_cases rt now) as [-> | ->];
    unfold ES.msPerMinute; Z.div_mod_to_equations; lia.
Qed.

(** X1: encode, decode and containment for m15 at an instant [now] around
    which the offset of the reference zone does not change: the decoded
    start is [now] rounded down to the quarter hour and [now] lies in that
    window. *)
Theorem m15_round_trip (a : asset) (now : Z) :
  inFourDigitEra now ->
  plainHour rt (nyLocal rt now) ->
  nyEDT rt (now - now mod (15 * ES.msPerMinute)) = nyEDT rt now ->
  nyEDT rt (nyLocal rt now - nyLocal rt now mod (15 * ES.msPerMinute))
  = nyEDT rt now ->
  Logger.resolve rt a m15 now
  = Ret (Some {| timeframe_of := m15;
                 timestamp := Some (now - now mod (15 * ES.msPerMinute)) |},
         true).
Proof.
  intros Hera Hh Ht Hp.
  destruct (quarter_facts now Hera) as (Hera_t & Hmin & Hpos & Hms).
  cbv zeta in Hera_t, Hmin, Hpos, Hms.
  set (t := now - now mod (15 * ES.msPerMinute)) in *.
  assert (Hoff : nyOffsetMin rt t = nyOffsetMin rt now)
    by (unfold nyOffsetMin; now rewrite Ht).
  assert (Hlt : nyLocal rt t
                = nyLocal rt now - nyLocal rt now mod (15 * ES.msPerMinute)).
  { rewrite nyLocal_mod_quarter. unfold nyLocal at 1. rewrite Hoff.
    unfold nyLocal, t. ring. }
  destruct (fields_of_quarter (nyLocal rt now)) as (_ & Hq & _ & Hq0).
  cbv zeta in Hq, Hq0. rewrite <- Hlt in Hq, Hq0.
  destruct (showZ_spec (t / 1000) Hpos) as (Hparse & Hdig & Hne).
  assert (Hh_t : plainHour rt (nyLocal rt t))
    by (unfold plainHour in *; rewrite Hq; exact Hh).
  assert (Hp_t : nyEDT rt (nyLocal rt t - nyLocal rt t mod ES.msPerMinute)
                 = nyEDT rt t)
    by (rewrite Hq0, Z.sub_0_r, Hlt, Hp; now symmetry).
  pose proof (decodeUnix_minute rt (shortName a) "15m"
                (Text.showZ (t / 1000)) m15 eq_refl) as D.
  cbv zeta in D. rewrite Hparse, Hms in D.
  specialize (D Hera_t Hh_t Hp_t). rewrite Hmin, Z.sub_0_r in D.
  unfold Logger.resolve, Logger.generateExpectedSlug.
  rewrite (m15Start_floor rt now Hera Hh Hp). fold t.
  unfold bind at 1 2. unfold Logger.unixText.
  rewrite (parseSlug_unix rt now
             (shortName a ++ "-updown-15m-" ++ Text.showZ (t / 1000)) a
             [shortName a; "15m"%string; Text.showZ (t / 1000)]
             (search_unix_encoded a (Text.showZ (t / 1000)) Hne Hdig)).
  rewrite D. unfold bind at 1.
  unfold Logger.isActiveMarket, timestamp, formatToParts, bind.
  rewrite (etParts_quarter now t Hlt).
  unfold pYear at 2, pMonth at 2, pDay at 2, pHour at 2, pMinute at 2 4.
  unfold fst.
  rewrite m15_contains; [reflexivity|].
  unfold etParts, pMinute. apply minute_range.
Qed.

End RoundTripM15.

Lemma m15_round_trip_example :
  Logger.resolve nodeUTC BTC m15 1762127220000
  = Ret (Some {| timeframe_of := m15;
                 timestamp := Some (1762127220000
                                    - 1762127220000
                                      mod (15 * ES.msPerMinute)) |},
         true).
Proof.
  apply (m15_round_trip nodeUTC BTC 1762127220000).
  - unfold inFourDigitEra. lia.
  - left. reflexivity.
  - reflexivity.
  - reflexivity.
Defined.

(** ** The catalogue scan recognises the encoder's identifiers *)

Section CatalogueFacts.
Import Catalogue.

Lemma allChars_app (f : ascii -> bool) (x y : string) :
  allChars f (x ++ y) = allChars f x && allChars f y.
Proof.
  induction x as [|c x IH]; simpl; [reflexivity|].
  now rewrite IH, andb_assoc.
Qed.

Lemma allChars_impl (f g : ascii -> bool) (s : string) :
  (forall c, f c = true -> g c = true) ->
  allChars f s = true -> allChars g s = true.
Proof.
  intros Hfg. induction s as [|c s IH]; simpl; [reflexivity|].
  intros H. apply andb_true_iff in H as [Hc Hs].
  now rewrite (Hfg c Hc), IH.
Qed.

Lemma numeric_of_uint (d : Decimal.uint) :
  allChars numeric (NilEmpty.string_of_uint d) = true.
Proof. induction d; simpl; auto. Qed.

Lemma numeric_showZ (n : Z) : allChars numeric (Text.showZ n) = true.
Proof.
  unfold Text.showZ, NilZero.string_of_int.
  destruct (Z.to_int n) as [d|d]; unfold NilZero.string_of_uint;
    destruct d; try reflexivity;
    try (apply (numeric_of_uint (Decimal.D0 _)));
    simpl; auto using numeric_of_uint.
Qed.

Lemma numeric_unixText (d : ES.Date) :
  allChars numeric (Logger.unixText d) = true.
Proof. destruct d; [apply numeric_showZ | reflexivity]. Qed.

(** A pattern cannot begin inside a run of characters that differ from its
    first character. *)
Lemma includes_skip (c0 : ascii) (p x rest : string) :
  allChars (fun c => negb (Ascii.eqb c0 c)) x = true ->
  includes (String c0 p) (x ++ rest) = includes (String c0 p) rest.
Proof.
  induction x as [|c x IH]; simpl; [reflexivity|].
  intros H. apply andb_true_iff in H as [Hc Hx].
  unfold startsWith at 1. simpl.
  apply negb_true_iff in Hc. rewrite Hc. simpl. now apply IH.
Qed.

Lemma includes_skip_numeric (c0 : ascii) (p x rest : string) :
  numeric c0 = false ->
  allChars numeric x = true ->
  includes (String c0 p) (x ++ rest) = includes (String c0 p) rest.
Proof.
  intros Hc0 Hx. apply includes_skip.
  apply (allChars_impl numeric); [|assumption].
  intros c Hc. apply negb_true_iff.
  destruct (Ascii.eqb c0 c) eqn:E; [|reflexivity].
  apply Ascii.eqb_eq in E. subst c. congruence.
Qed.

Lemma includes_numeric_end (c0 : ascii) (p x : string) :
  numeric c0 = false ->
  allChars numeric x = true ->
  includes (String c0 p) x = false.
Proof.
  intros Hc0 Hx.
  rewrite <- (TextFacts.append_empty_r x).
  rewrite includes_skip_numeric by assumption. reflexivity.
Qed.

Lemma monthName_cases (mo : Z) :
  In (Grammar.monthName mo) (Grammar.monthNames ++ ["undefined"%string]).
Proof.
  unfold Grammar.monthName.
  destruct ((1 <=? mo) && (mo <=? 12)) eqn:E;
    [|apply in_or_app; right; now left].
  apply andb_true_iff in E as [E1 E2].
  apply Z.leb_le in E1. apply Z.leb_le in E2.
  assert (H : mo = 1 \/ mo = 2 \/ mo = 3 \/ mo = 4 \/ mo = 5 \/ mo = 6
              \/ mo = 7 \/ mo = 8 \/ mo = 9 \/ mo = 10 \/ mo = 11
              \/ mo = 12) by lia.
  repeat (destruct H as [-> | H]; [simpl; tauto|]). subst. simpl. tauto.
Qed.

End CatalogueFacts.

Section EncoderAsset.
Import Catalogue.


Ltac scan :=
  unfold slugAsset, startsWith;
  repeat (progress simpl;
          try rewrite !includes_skip_numeric by (reflexivity || assumption);
          try rewrite !includes_numeric_end by (reflexivity || assumption);
          unfold startsWith).

Lemma slugAsset_m15 (a : asset) (x : string) :
  allChars numeric x = true ->
  slugAsset (shortName a ++ "-updown-15m-" ++ x) = Some a.
Proof. intros Hx. destruct a; scan; reflexivity. Qed.

Lemma slugAsset_daily (a : asset) (mo : Z) (x : string) :
  allChars numeric x = true ->
  slugAsset (fullName a ++ "-up-or-down-on-" ++ Grammar.monthName mo ++ "-"
             ++ x) = Some a.
Proof.
  intros Hx. pose proof (monthName_cases mo) as Hm.
  simpl in Hm.
  repeat (destruct Hm as [<- | Hm]; [destruct a; scan; reflexivity|]).
  contradiction.
Qed.

Lemma slugAsset_h1 (a : asset) (mo : Z) (x y ampm : string) :
  allChars numeric x = true -> allChars numeric y = true ->
  ampm = "am"%string \/ ampm = "pm"%string ->
  slugAsset (fullName a ++ "-up-or-down-" ++ Grammar.monthName mo ++ "-"
             ++ x ++ "-" ++ y ++ ampm ++ "-et") = Some a.
Proof.
  intros Hx Hy Hap. pose proof (monthName_cases mo) as Hm.
  simpl in Hm.
  destruct Hap as [-> | ->];
    repeat (destruct Hm as [<- | Hm]; [destruct a; scan; reflexivity|]);
    contradiction.
Qed.

End EncoderAsset.
Section EncoderAssetTheorem.
Import Catalogue.

(** X2: every identifier the encoder writes for an asset is attributed to
    that asset by the chain of [startsWith]/[includes] tests with which
    the catalogue scan classifies slugs, whatever the cadence and the
    instant. *)
Theorem encoder_slug_asset
        (rt : Runtime) (a : asset) (tf : timeframe) (now : Z)
        (slug : string) :
  Logger.generateExpectedSlug rt a tf now = Ret slug ->
  slugAsset slug = Some a.
Proof.
  unfold Logger.generateExpectedSlug. destruct tf.
  - destruct (Logger.m15Start rt now) as [d|]; [|discriminate].
    unfold bind. intros H. injection H as <-.
    apply slugAsset_m15, numeric_unixText.
  - cbv zeta. intros H. injection H as <-.
    apply slugAsset_h1; try apply numeric_showZ.
    destruct (_ <? 12); auto.
  - cbv zeta. intros H. injection H as <-.
    apply slugAsset_daily, numeric_showZ.
Qed.

End EncoderAssetTheorem.

Lemma encoder_slug_asset_example :
  Catalogue.slugAsset "solana-up-or-down-november-2-6pm-et" = Some SOL.
Proof.
  apply (encoder_slug_asset nodeUTC SOL h1 1762127220000).
  vm_compute. reflexivity.
Defined.

(** ** The candle boundary of the earlier generations *)

Section BoundaryFacts.
Variable rt : Runtime.

Lemma ceil15_range (mi : Z) :
  0 <= mi <= 59 ->
  mi <= ceil15 mi < mi + 15 /\ ceil15 mi mod 15 = 0.
Proof. unfold ceil15. intros H. split; Z.div_mod_to_equations; lia. Qed.

Lemma DateUTC_civil (l d h mi : Z) :
  1000 <= ES.YearFromTime l <= 9999 ->
  ES.DateUTC (eraYear (ES.YearFromTime l)) (ES.MonthFromTime l + 1 - 1)
             (ES.DateFromTime l + d) h mi
  = ES.TimeClip (ES.MakeDate (ES.Day l + d) (ES.MakeTime h mi 0 0)).
Proof.
  intros Hy. rewrite eraYear_id by lia.
  unfold ES.DateUTC. rewrite fullYear_id by lia.
  replace (ES.MakeDay (ES.YearFromTime l) (ES.MonthFromTime l + 1 - 1)
                      (ES.DateFromTime l + d))
    with (ES.MakeDay (ES.YearFromTime l) (ES.MonthFromTime l + 1 - 1)
                     (ES.DateFromTime l) + d)
    by (unfold ES.MakeDay; lia).
  now rewrite civil_rebuild.
Qed.

Lemma quarterCeiling_spec (l : Z) :
  quarterCeiling l mod (15 * ES.msPerMinute) = 0
  /\ l - l mod ES.msPerMinute <= quarterCeiling l
     < l - l mod ES.msPerMinute + 15 * ES.msPerMinute.
Proof.
  pose proof (ceil15_range (ES.MinFromTime l) (minute_range l)) as [Hc Hm].
  pose proof (time_fields_minute l) as Hl.
  unfold quarterCeiling.
  set (c := ceil15 (ES.MinFromTime l)) in *. clearbody c.
  rewrite <- Hl. clear Hl.
  set (mi := ES.MinFromTime l) in *. clearbody mi.
  set (h := ES.HourFromTime l). clearbody h.
  set (d := ES.Day l). clearbody d.
  unfold ES.MakeDate, ES.MakeTime, ES.msPerDay, ES.msPerHour, ES.msPerMinute,
    ES.msPerSecond.
  split; [Z.div_mod_to_equations; lia | lia].
Qed.

Lemma getActiveBougie_fields (tf : timeframe) (now : Z) :
  let l := nyLocal rt now in
  let y := eraYear (ES.YearFromTime l) in
  let m := ES.MonthFromTime l + 1 - 1 in
  let d := ES.DateFromTime l in
  let h := cycleHour rt (ES.HourFromTime l) in
  Bougie.getActiveBougie rt tf now
  = match tf with
    | m15 =>
        if ceil15 (ES.MinFromTime l) =? 60
        then ES.DateUTC y m d (h + 1) 0
        else ES.DateUTC y m d h (ceil15 (ES.MinFromTime l))
    | h1 => ES.DateUTC y m d (h + 1) 0
    | daily => ES.DateUTC y m d 23 59
    end.
Proof. reflexivity. Qed.

Lemma in_range_clip (l x : Z) :
  -18000000 <= l < 253402300800000 ->
  l - ES.msPerDay <= x <= l + ES.msPerDay ->
  ES.TimeClip x = Some x.
Proof.
  intros Hl Hx. apply TimeClip_valid.
  unfold ES.maxTime, ES.msPerDay in *. lia.
Qed.

Lemma nyLocal_range (now : Z) :
  inFourDigitEra now -> -18000000 <= nyLocal rt now < 253402300800000.
Proof.
  unfold nyLocal, ES.msPerMinute, inFourDigitEra. intros H.
  destruct (nyOffsetMin_cases rt now) as [-> | ->]; lia.
Qed.

End BoundaryFacts.

Section BoundaryTheorems.
Variable rt : Runtime.

Lemma quarterCeiling_rolled (l : Z) :
  ceil15 (ES.MinFromTime l) = 60 ->
  ES.MakeDate (ES.Day l) (ES.MakeTime (ES.HourFromTime l + 1) 0 0 0)
  = quarterCeiling l.
Proof.
  intros E. unfold quarterCeiling. rewrite E.
  unfold ES.MakeDate, ES.MakeTime, ES.msPerHour, ES.msPerMinute. lia.
Qed.

Lemma quarterCeiling_clip (now : Z) :
  inFourDigitEra now ->
  ES.TimeClip (quarterCeiling (nyLocal rt now))
  = Some (quarterCeiling (nyLocal rt now)).
Proof.
  intros Hera. apply (in_range_clip (nyLocal rt now));
    [now apply nyLocal_range|].
  pose proof (quarterCeiling_spec (nyLocal rt now)) as [_ H].
  unfold ES.msPerDay, ES.msPerMinute in *.
  Z.div_mod_to_equations. lia.
Qed.

Lemma getActiveBougie_m15 (now : Z) :
  inFourDigitEra now ->
  plainHour rt (nyLocal rt now) ->
  Bougie.getActiveBougie rt m15 now
  = Some (quarterCeiling (nyLocal rt now)).
Proof.
  intros Hera Hh.
  pose proof (local_year_range rt now Hera) as Hy.
  assert (Hy' : 1000 <= ES.YearFromTime (nyLocal rt now) <= 9999) by lia.
  rewrite getActiveBougie_fields. cbv zeta.
  rewrite cycleHour_plain by assumption.
  pose proof (DateUTC_civil (nyLocal rt now) 0) as U.
  rewrite !Z.add_0_r in U.
  rewrite !U by assumption.
  destruct (ceil15 (ES.MinFromTime (nyLocal rt now)) =? 60) eqn:E.
  - apply Z.eqb_eq in E. rewrite (quarterCeiling_rolled _ E).
    now apply quarterCeiling_clip.
  - now apply quarterCeiling_clip.
Qed.

(** X3: the first generation's [getActiveBougie] returns, as a UTC clock
    reading, the end of the running candle in civil time: for m15 the
    quarter hour at or after the civil minute of [now], for h1 the next
    full hour, for daily 23:59 of the civil day; the carry into the next
    hour, day, month or year is exact. *)
Theorem getActiveBougie_boundary (now : Z) :
  inFourDigitEra now ->
  plainHour rt (nyLocal rt now) ->
  let l := nyLocal rt now in
  (exists b, Bougie.getActiveBougie rt m15 now = Some b
             /\ b mod (15 * ES.msPerMinute) = 0
             /\ l - l mod ES.msPerMinute <= b
                < l - l mod ES.msPerMinute + 15 * ES.msPerMinute)
  /\ Bougie.getActiveBougie rt h1 now
     = Some (l - l mod ES.msPerHour + ES.msPerHour)
  /\ Bougie.getActiveBougie rt daily now
     = Some (l - l mod ES.msPerDay + 23 * ES.msPerHour
             + 59 * ES.msPerMinute).
Proof.
  intros Hera Hh l.
  pose proof (local_year_range rt now Hera) as Hy.
  assert (Hy' : 1000 <= ES.YearFromTime l <= 9999) by (subst l; lia).
  pose proof (nyLocal_range rt now Hera) as Hl. fold l in Hl.
  pose proof (DateUTC_civil l 0) as U.
  rewrite !Z.add_0_r in U.
  split; [|split].
  - exists (quarterCeiling l). split; [now apply getActiveBougie_m15|].
    apply quarterCeiling_spec.
  - rewrite getActiveBougie_fields. cbv zeta. fold l.
    rewrite cycleHour_plain by assumption. rewrite U by assumption.
    replace (ES.MakeDate (ES.Day l) (ES.MakeTime (ES.HourFromTime l + 1) 0 0 0))
      with (l - l mod ES.msPerHour + ES.msPerHour).
    + apply (in_range_clip l); [assumption|].
      unfold ES.msPerDay, ES.msPerHour. Z.div_mod_to_equations. lia.
    + unfold ES.MakeDate, ES.MakeTime, ES.Day, ES.HourFromTime, ES.msPerDay,
        ES.msPerHour, ES.msPerMinute, ES.msPerSecond.
      Z.div_mod_to_equations. lia.
  - rewrite getActiveBougie_fields. cbv zeta. fold l.
    rewrite U by assumption.
    replace (ES.MakeDate (ES.Day l) (ES.MakeTime 23 59 0 0))
      with (l - l mod ES.msPerDay + 23 * ES.msPerHour + 59 * ES.msPerMinute).
    + apply (in_range_clip l); [assumption|].
      unfold ES.msPerDay, ES.msPerHour, ES.msPerMinute.
      Z.div_mod_to_equations. lia.
    + unfold ES.MakeDate, ES.MakeTime, ES.Day, ES.msPerDay,
        ES.msPerHour, ES.msPerMinute, ES.msPerSecond.
      Z.div_mod_to_equations. lia.
Qed.

Lemma scrapper_m15_fields (a : asset) (now : Z) :
  let l := nyLocal rt now in
  let h := cycleHour rt (ES.HourFromTime l) in
  let rolled := ceil15 (ES.MinFromTime l) =? 60 in
  let targetH := if rolled then (h + 1) mod 24 else h in
  ScrapperCodec.generateExpectedSlug rt a m15 now
  = (shortName a ++ "-updown-15m-"
     ++ Logger.unixText
          (ES.DateUTC (eraYear (ES.YearFromTime l))
             (ES.MonthFromTime l + 1 - 1)%Z
             (if rolled && (targetH =? 0)%Z then (ES.DateFromTime l + 1)%Z
              else ES.DateFromTime l)
             targetH
             (if rolled then 0 else ceil15 (ES.MinFromTime l))))%string.
Proof. reflexivity. Qed.

(** The m15 identifier of the Scrapper generation. *)
Lemma scrapper_m15_slug (a : asset) (now : Z) :
  inFourDigitEra now ->
  plainHour rt (nyLocal rt now) ->
  ScrapperCodec.generateExpectedSlug rt a m15 now
  = (shortName a ++ "-updown-15m-"
     ++ Text.showZ (quarterCeiling (nyLocal rt now) / 1000))%string.
Proof.
  intros Hera Hh. set (l := nyLocal rt now).
  pose proof (local_year_range rt now Hera) as Hy.
  assert (Hy' : 1000 <= ES.YearFromTime l <= 9999) by (subst l; lia).
  pose proof (hour_range l) as Hr.
  rewrite scrapper_m15_fields. cbv zeta. fold l.
  rewrite cycleHour_plain by assumption.
  assert (E : ES.DateUTC (eraYear (ES.YearFromTime l))
                (ES.MonthFromTime l + 1 - 1)
                (if (ceil15 (ES.MinFromTime l) =? 60)
                    && ((if ceil15 (ES.MinFromTime l) =? 60
                         then (ES.HourFromTime l + 1) mod 24
                         else ES.HourFromTime l) =? 0)
                 then ES.DateFromTime l + 1 else ES.DateFromTime l)
                (if ceil15 (ES.MinFromTime l) =? 60
                 then (ES.HourFromTime l + 1) mod 24
                 else ES.HourFromTime l)
                (if ceil15 (ES.MinFromTime l) =? 60 then 0
                 else ceil15 (ES.MinFromTime l))
              = Some (quarterCeiling l)).
  { pose proof (quarterCeiling_clip now Hera) as QC. fold l in QC.
    pose proof (DateUTC_civil l 0) as U0.
    rewrite !Z.add_0_r in U0.
    destruct (ceil15 (ES.MinFromTime l) =? 60) eqn:C.
    - apply Z.eqb_eq in C. rewrite <- QC.
      rewrite <- (quarterCeiling_rolled l C).
      destruct (Z.eq_dec (ES.HourFromTime l) 23) as [H23 | H23].
      + rewrite H23. simpl andb. cbv iota.
        change ((23 + 1) mod 24) with 0. simpl (0 =? 0). cbv iota.
        rewrite (DateUTC_civil l 1) by assumption. f_equal.
        unfold ES.MakeDate, ES.MakeTime, ES.msPerDay, ES.msPerHour. lia.
      + replace ((ES.HourFromTime l + 1) mod 24)
          with (ES.HourFromTime l + 1)
          by (Z.div_mod_to_equations; lia).
        replace (ES.HourFromTime l + 1 =? 0) with false
          by (symmetry; apply Z.eqb_neq; lia).
        simpl andb. cbv iota. now rewrite U0.
    - simpl andb. cbv iota. rewrite U0 by assumption. exact QC. }
  rewrite E. reflexivity.
Qed.


(** X4: in the Scrapper generation, for [now] between 1970 and 9999 whose
    civil hour is printed as 00-23, the m15 identifier embeds, in seconds,
    the civil quarter hour at or after the civil minute of [now] (rounded
    up, not down) read as a UTC clock time, the same value as the first
    generation's [getActiveBougie]. *)
Theorem scrapper_m15_embeds_ceiling (a : asset) (now : Z) :
  inFourDigitEra now ->
  plainHour rt (nyLocal rt now) ->
  let l := nyLocal rt now in
  exists b,
    ScrapperCodec.generateExpectedSlug rt a m15 now
    = (shortName a ++ "-updown-15m-" ++ Text.showZ (b / 1000))%string
    /\ Bougie.getActiveBougie rt m15 now = Some b
    /\ b mod (15 * ES.msPerMinute) = 0
    /\ l - l mod ES.msPerMinute <= b
       < l - l mod ES.msPerMinute + 15 * ES.msPerMinute.
Proof.
  intros Hera Hh l. exists (quarterCeiling l).
  split; [now apply scrapper_m15_slug|].
  split; [now apply getActiveBougie_m15 | apply quarterCeiling_spec].
Qed.

End BoundaryTheorems.

Lemma getActiveBougie_boundary_example :
  Bougie.getActiveBougie nodeUTC h1 1767221220000
  = Some (nyLocal nodeUTC 1767221220000
          - nyLocal nodeUTC 1767221220000 mod ES.msPerHour + ES.msPerHour).
Proof.
  apply (getActiveBougie_boundary nodeUTC 1767221220000).
  - unfold inFourDigitEra. lia.
  - left. reflexivity.
Defined.

Lemma scrapper_m15_embeds_ceiling_example :
  exists b,
    ScrapperCodec.generateExpectedSlug nodeUTC BTC m15 1762127220000
    = ("btc-updown-15m-" ++ Text.showZ (b / 1000))%string
    /\ Bougie.getActiveBougie nodeUTC m15 1762127220000 = Some b
    /\ b mod (15 * ES.msPerMinute) = 0
    /\ nyLocal nodeUTC 1762127220000
       - nyLocal nodeUTC 1762127220000 mod ES.msPerMinute <= b
       < nyLocal nodeUTC 1762127220000
         - nyLocal nodeUTC 1762127220000 mod ES.msPerMinute
         + 15 * ES.msPerMinute.
Proof.
  apply (scrapper_m15_embeds_ceiling nodeUTC BTC 1762127220000).
  - unfold inFourDigitEra. lia.
  - left. reflexivity.
Defined.

Section WindowFacts.
Variable rt : Runtime.

Lemma cycleHour_eqb (h1 h2 : Z) :
  0 <= h1 <= 23 -> 0 <= h2 <= 23 ->
  (cycleHour rt h1 =? cycleHour rt h2) = (h1 =? h2).
Proof.
  intros H1 H2. unfold cycleHour.
  destruct (midnight24 rt); simpl; [|reflexivity].
  destruct (Z.eqb_spec h1 0); destruct (Z.eqb_spec h2 0);
    match goal with
    | |- (?x =? ?y) = (?u =? ?v) =>
        destruct (Z.eqb_spec x y); destruct (Z.eqb_spec u v)
    end; reflexivity || lia.
Qed.

(** Two local time values in years 1 and later show the same civil date
    exactly when they lie on the same day. *)
Lemma civil_eqb_day (l1 l2 : Z) :
  1 <= ES.YearFromTime l1 -> 1 <= ES.YearFromTime l2 ->
  (eraYear (ES.YearFromTime l1) =? eraYear (ES.YearFromTime l2))
  && (ES.MonthFromTime l1 + 1 =? ES.MonthFromTime l2 + 1)
  && (ES.DateFromTime l1 =? ES.DateFromTime l2)
  = (ES.Day l1 =? ES.Day l2).
Proof.
  intros H1 H2. rewrite !eraYear_id by assumption.
  destruct (ES.Day l1 =? ES.Day l2) eqn:E.
  - apply Z.eqb_eq in E.
    unfold ES.YearFromTime, ES.MonthFromTime, ES.DateFromTime.
    rewrite E, !Z.eqb_refl. reflexivity.
  - apply Z.eqb_neq in E.
    destruct (_ && _) eqn:B; [|reflexivity]. exfalso. apply E.
    apply andb_true_iff in B as [B Bd]. apply andb_true_iff in B as [By Bm].
    apply Z.eqb_eq in By, Bm, Bd.
    rewrite <- (civil_rebuild l1), <- (civil_rebuild l2).
    now rewrite By, Bm, Bd.
Qed.

Lemma hour_window_arith (ln lt : Z) :
  (ES.Day ln =? ES.Day lt) && (ES.HourFromTime ln =? ES.HourFromTime lt)
  = (lt - lt mod ES.msPerHour <=? ln)
    && (ln <? lt - lt mod ES.msPerHour + ES.msPerHour).
Proof.
  apply eq_true_iff_eq.
  rewrite !andb_true_iff, !Z.eqb_eq, Z.leb_le, Z.ltb_lt.
  unfold ES.Day, ES.HourFromTime, ES.msPerDay, ES.msPerHour.
  split; intros H; Z.div_mod_to_equations; lia.
Qed.

Lemma minute_window_arith (ln lt : Z) :
  lt - lt mod ES.msPerHour <= ln < lt - lt mod ES.msPerHour + ES.msPerHour ->
  (ES.MinFromTime ln >=? ES.MinFromTime lt)
  && (ES.MinFromTime ln <? ES.MinFromTime lt + 15)
  = (lt - lt mod ES.msPerMinute <=? ln)
    && (ln <? lt - lt mod ES.msPerMinute + 15 * ES.msPerMinute).
Proof.
  intros Hh. apply eq_true_iff_eq.
  rewrite !andb_true_iff, Z.geb_le, Z.leb_le, !Z.ltb_lt.
  unfold ES.MinFromTime, ES.msPerHour, ES.msPerMinute in *.
  split; intros H; Z.div_mod_to_equations; lia.
Qed.

Lemma isActiveMarket_fields (pr : parsed) (a : asset) (tf : timeframe)
      (now ts : Z) :
  timestamp pr = Some ts ->
  let ln := nyLocal rt now in
  let lt := nyLocal rt ts in
  let civil :=
    (eraYear (ES.YearFromTime ln) =? eraYear (ES.YearFromTime lt))
    && (ES.MonthFromTime ln + 1 =? ES.MonthFromTime lt + 1)
    && (ES.DateFromTime ln =? ES.DateFromTime lt) in
  let hour :=
    cycleHour rt (ES.HourFromTime ln) =? cycleHour rt (ES.HourFromTime lt) in
  Logger.isActiveMarket rt (Some pr) a tf now
  = Ret (match tf with
         | m15 =>
             civil && hour
             && (ES.MinFromTime ln >=? ES.MinFromTime lt)
             && (ES.MinFromTime ln <? ES.MinFromTime lt + 15)
         | h1 => civil && hour
         | daily =>
             (eraYear (ES.YearFromTime ln) =? eraYear (ES.YearFromTime lt))
             && (ES.MonthFromTime ln + 1 =? ES.MonthFromTime lt + 1)
             && (Logger.expectedDay rt (etParts rt now)
                 =? ES.DateFromTime lt)
         end, Some (Some ts)).
Proof.
  intros Ht. unfold Logger.isActiveMarket. rewrite Ht.
  destruct tf; reflexivity.
Qed.

Lemma same_offset_shift (now ts : Z) :
  nyEDT rt ts = nyEDT rt now ->
  exists k, nyLocal rt now = now + k * ES.msPerHour
            /\ nyLocal rt ts = ts + k * ES.msPerHour.
Proof.
  intros E. unfold nyLocal, nyOffsetMin. rewrite E.
  destruct (nyEDT rt now); [exists (-4) | exists (-5)];
    unfold ES.msPerMinute, ES.msPerHour; lia.
Qed.

Lemma shift_mod_hour (t k : Z) :
  (t + k * ES.msPerHour) mod ES.msPerHour = t mod ES.msPerHour
  /\ (t + k * ES.msPerHour) mod ES.msPerMinute = t mod ES.msPerMinute.
Proof.
  unfold ES.msPerHour, ES.msPerMinute. split; Z.div_mod_to_equations; lia.
Qed.

(** The civil date and hour of [now] are those of [ts] exactly during the
    clock hour of [ts], when the zone's offset is the same at both. *)
Lemma hour_fields_window (now ts : Z) :
  inFourDigitEra ts -> inFourDigitEra now ->
  nyEDT rt ts = nyEDT rt now ->
  (eraYear (ES.YearFromTime (nyLocal rt now))
   =? eraYear (ES.YearFromTime (nyLocal rt ts)))
  && (ES.MonthFromTime (nyLocal rt now) + 1
      =? ES.MonthFromTime (nyLocal rt ts) + 1)
  && (ES.DateFromTime (nyLocal rt now) =? ES.DateFromTime (nyLocal rt ts))
  && (cycleHour rt (ES.HourFromTime (nyLocal rt now))
      =? cycleHour rt (ES.HourFromTime (nyLocal rt ts)))
  = (ts - ts mod ES.msPerHour <=? now)
    && (now <? ts - ts mod ES.msPerHour + ES.msPerHour).
Proof.
  intros Hts Hnow Hoff.
  pose proof (local_year_range rt ts Hts) as Yt.
  pose proof (local_year_range rt now Hnow) as Yn.
  pose proof (hour_range (nyLocal rt ts)) as Rt.
  pose proof (hour_range (nyLocal rt now)) as Rn.
  rewrite civil_eqb_day by lia. rewrite cycleHour_eqb by assumption.
  rewrite hour_window_arith.
  destruct (same_offset_shift now ts Hoff) as (k & -> & ->).
  destruct (shift_mod_hour ts k) as [-> _].
  apply eq_true_iff_eq.
  rewrite !andb_true_iff, !Z.leb_le, !Z.ltb_lt. lia.
Qed.

(** X5: for a descriptor starting at [ts] and an instant [now] at which
    the reference zone has the same offset, m15 containment holds exactly
    from the minute of [ts] for fifteen minutes, but never past the end of
    the civil hour of [ts]; h1 containment holds exactly during the civil
    hour of [ts].  Neither the asset nor the descriptor's own cadence
    enters. *)
Theorem containment_window (pr : parsed) (a : asset) (now ts : Z) :
  timestamp pr = Some ts ->
  inFourDigitEra ts -> inFourDigitEra now ->
  nyEDT rt ts = nyEDT rt now ->
  let s := ts - ts mod ES.msPerMinute in
  let hs := ts - ts mod ES.msPerHour in
  Logger.isActiveMarket rt (Some pr) a m15 now
  = Ret ((s <=? now) && (now <? s + 15 * ES.msPerMinute)
         && (now <? hs + ES.msPerHour), Some (Some ts))
  /\ Logger.isActiveMarket rt (Some pr) a h1 now
     = Ret ((hs <=? now) && (now <? hs + ES.msPerHour), Some (Some ts)).
Proof.
  intros Ht Hts Hnow Hoff s hs.
  pose proof (hour_fields_window now ts Hts Hnow Hoff) as Hh. fold hs in Hh.
  split.
  - rewrite (isActiveMarket_fields pr a m15 now ts Ht). cbv zeta.
    rewrite Hh. f_equal. f_equal.
    destruct ((hs <=? now) && (now <? hs + ES.msPerHour)) eqn:E.
    + apply andb_true_iff in E as [E1 E2].
      apply Z.leb_le in E1. apply Z.ltb_lt in E2.
      rewrite <- andb_assoc. rewrite andb_true_l.
      destruct (same_offset_shift now ts Hoff) as (k & En & Et).
      destruct (shift_mod_hour ts k) as [Mh Mm].
      rewrite minute_window_arith
        by (rewrite En, Et, Mh; subst hs; lia).
      rewrite En, Et, Mm. subst s.
      apply eq_true_iff_eq.
      rewrite !andb_true_iff, !Z.leb_le, !Z.ltb_lt. lia.
    + simpl. symmetry. apply andb_false_iff in E as [E | E].
      * apply Z.leb_gt in E.
        assert (Hs : hs <= s)
          by (subst s hs; unfold ES.msPerHour, ES.msPerMinute;
              Z.div_mod_to_equations; lia).
        replace (s <=? now) with false
          by (symmetry; apply Z.leb_gt; lia). reflexivity.
      * rewrite E. now rewrite andb_false_r.
  - rewrite (isActiveMarket_fields pr a h1 now ts Ht). cbv zeta.
    now rewrite Hh.
Qed.

End WindowFacts.

Lemma containment_window_example :
  Logger.isActiveMarket nodeUTC
    (Some {| timeframe_of := m15; timestamp := Some 1762105800000 |})
    BTC m15 1762106399000
  = Ret (true, Some (Some 1762105800000))
  /\ Logger.isActiveMarket nodeUTC
       (Some {| timeframe_of := m15; timestamp := Some 1762105800000 |})
       BTC h1 1762106399000
     = Ret (true, Some (Some 1762105800000)).
Proof.
  apply (containment_window nodeUTC
           {| timeframe_of := m15; timestamp := Some 1762105800000 |}
           BTC 1762106399000 1762105800000).
  - reflexivity.
  - unfold inFourDigitEra. lia.
  - unfold inFourDigitEra. lia.
  - reflexivity.
Defined.

Section TextPassFacts.

Lemma zrange_In (x lo : Z) (n : nat) :
  lo <= x < lo + Z.of_nat n -> In x (zrange lo n).
Proof.
  revert lo. induction n as [|n IH]; intros lo H; [lia|].
  simpl. destruct (Z.eq_dec lo x) as [E | E]; [now left|].
  right. apply IH. lia.
Qed.

Lemma forallb_zrange (f : Z -> bool) (lo : Z) (n : nat) (x : Z) :
  forallb f (zrange lo n) = true -> lo <= x < lo + Z.of_nat n ->
  f x = true.
Proof.
  intros H Hx. rewrite forallb_forall in H. apply H. now apply zrange_In.
Qed.

Lemma forallb_assets (f : asset -> bool) (a : asset) :
  forallb f TextPass.assets = true -> f a = true.
Proof.
  intros H. rewrite forallb_forall in H. apply H.
  destruct a; simpl; tauto.
Qed.

Lemma h1TextAll_true :
  forallb (fun a =>
    forallb (fun mo =>
      forallb (fun d =>
        forallb (fun h => TextPass.h1TextOk a mo d h) (zrange 0 24))
        (zrange 1 31))
      (zrange 1 12))
    TextPass.assets = true.
Proof. vm_compute. reflexivity. Qed.

Lemma dailyTextAll_true :
  forallb (fun a =>
    forallb (fun mo =>
      forallb (fun d => TextPass.dailyTextOk a mo d) (zrange 1 32))
      (zrange 1 12))
    TextPass.assets = true.
Proof. vm_compute. reflexivity. Qed.

End TextPassFacts.

Section TextRoundTrip.
Variable rt : Runtime.

Lemma generateExpectedSlug_h1 (a : asset) (now : Z) :
  Logger.generateExpectedSlug rt a h1 now
  = Ret (TextPass.h1Text a (pMonth (etParts rt now)) (pDay (etParts rt now))
           (pHour (etParts rt now))).
Proof. reflexivity. Qed.

Lemma generateExpectedSlug_daily (a : asset) (now : Z) :
  Logger.generateExpectedSlug rt a daily now
  = Ret (TextPass.dailyText a (pMonth (etParts rt now))
           (if pHour (etParts rt now) >=? 12 then pDay (etParts rt now) + 1
            else pDay (etParts rt now))).
Proof. reflexivity. Qed.

Lemma h1TextOk_all (a : asset) (mo d h : Z) :
  1 <= mo <= 12 -> 1 <= d <= 31 -> 0 <= h <= 23 ->
  TextPass.h1TextOk a mo d h = true.
Proof.
  intros Hmo Hd Hh.
  apply (forallb_zrange (fun h => TextPass.h1TextOk a mo d h) 0 24 h);
    [|lia].
  apply (forallb_zrange
           (fun d => forallb (fun h => TextPass.h1TextOk a mo d h)
                       (zrange 0 24))
           1 31 d); [|lia].
  apply (forallb_zrange
           (fun mo => forallb (fun d =>
              forallb (fun h => TextPass.h1TextOk a mo d h) (zrange 0 24))
              (zrange 1 31)) 1 12 mo); [|lia].
  apply (forallb_assets
           (fun a => forallb (fun mo => forallb (fun d =>
              forallb (fun h => TextPass.h1TextOk a mo d h) (zrange 0 24))
              (zrange 1 31)) (zrange 1 12)) a).
  exact h1TextAll_true.
Qed.

Lemma dailyTextOk_all (a : asset) (mo d : Z) :
  1 <= mo <= 12 -> 1 <= d <= 32 ->
  TextPass.dailyTextOk a mo d = true.
Proof.
  intros Hmo Hd.
  apply (forallb_zrange (fun d => TextPass.dailyTextOk a mo d) 1 32 d);
    [|lia].
  apply (forallb_zrange
           (fun mo => forallb (fun d => TextPass.dailyTextOk a mo d)
                        (zrange 1 32))
           1 12 mo); [|lia].
  apply (forallb_assets
           (fun a => forallb (fun mo =>
              forallb (fun d => TextPass.dailyTextOk a mo d) (zrange 1 32))
              (zrange 1 12)) a).
  exact dailyTextAll_true.
Qed.

Lemma h1TextOk_parse (clock : Z) (a : asset) (mo d h : Z) :
  TextPass.h1TextOk a mo d h = true ->
  exists m,
    Logger.parseSlug rt clock (TextPass.h1Text a mo d h) a
    = Logger.decodeH1 rt clock m
    /\ Grammar.MONTHS (cap 2 m) = Grammar.MonthNum mo
    /\ Text.parseInt (cap 3 m) = d
    /\ Logger.hour24 (Text.parseInt (cap 4 m)) (cap 5 m) = h.
Proof.
  unfold TextPass.h1TextOk. generalize (TextPass.h1Text a mo d h).
  intros slug A. cbv zeta in A.
  destruct (Text.search (Grammar.unixPattern a) slug) eqn:S1;
    [discriminate|].
  destruct (Text.search (Grammar.dailyPattern a) slug) eqn:S2;
    [discriminate|].
  destruct (Text.search (Grammar.h1Pattern a) slug) as [m|] eqn:S3;
    [|discriminate].
  exists m. split; [now apply parseSlug_h1|].
  apply andb_true_iff in A as [A A3]. apply andb_true_iff in A as [A1 A2].
  apply Z.eqb_eq in A2, A3.
  destruct (Grammar.MONTHS (cap 2 m)) as [n| |]; try discriminate.
  apply Z.eqb_eq in A1. subst n. auto.
Qed.

Lemma dailyTextOk_parse (clock : Z) (a : asset) (mo d : Z) :
  TextPass.dailyTextOk a mo d = true ->
  exists m,
    Logger.parseSlug rt clock (TextPass.dailyText a mo d) a
    = Logger.decodeDaily rt clock m
    /\ Grammar.MONTHS (cap 2 m) = Grammar.MonthNum mo
    /\ Text.parseInt (cap 3 m) = d.
Proof.
  unfold TextPass.dailyTextOk. generalize (TextPass.dailyText a mo d).
  intros slug A. cbv zeta in A.
  destruct (Text.search (Grammar.unixPattern a) slug) eqn:S1;
    [discriminate|].
  destruct (Text.search (Grammar.dailyPattern a) slug) as [m|] eqn:S2;
    [|discriminate].
  exists m. split; [now apply parseSlug_daily|].
  apply andb_true_iff in A as [A1 A2]. apply Z.eqb_eq in A2.
  destruct (Grammar.MONTHS (cap 2 m)) as [n| |]; try discriminate.
  apply Z.eqb_eq in A1. subst n. auto.
Qed.

(** What the decoder reads from an h1 identifier written for a month
    1..12, a day 1..31 and an hour 0..23. *)
Lemma parseSlug_h1Text (clock : Z) (a : asset) (mo d h : Z) :
  1 <= mo <= 12 -> 1 <= d <= 31 -> 0 <= h <= 23 ->
  exists m,
    Logger.parseSlug rt clock (TextPass.h1Text a mo d h) a
    = Logger.decodeH1 rt clock m
    /\ Grammar.MONTHS (cap 2 m) = Grammar.MonthNum mo
    /\ Text.parseInt (cap 3 m) = d
    /\ Logger.hour24 (Text.parseInt (cap 4 m)) (cap 5 m) = h.
Proof.
  intros Hmo Hd Hh. apply h1TextOk_parse. now apply h1TextOk_all.
Qed.

Lemma parseSlug_dailyText (clock : Z) (a : asset) (mo d : Z) :
  1 <= mo <= 12 -> 1 <= d <= 32 ->
  exists m,
    Logger.parseSlug rt clock (TextPass.dailyText a mo d) a
    = Logger.decodeDaily rt clock m
    /\ Grammar.MONTHS (cap 2 m) = Grammar.MonthNum mo
    /\ Text.parseInt (cap 3 m) = d.
Proof.
  intros Hmo Hd. apply dailyTextOk_parse. now apply dailyTextOk_all.
Qed.

Lemma inferYear_today (y mo d : Z) : Logger.inferYear y mo d mo d = y.
Proof.
  unfold Logger.inferYear. rewrite !Z.ltb_irrefl, !Z.eqb_refl. reflexivity.
Qed.

Lemma hour_start_local (now : Z) :
  ES.MakeDate (ES.Day (nyLocal rt now))
    (ES.MakeTime (ES.HourFromTime (nyLocal rt now)) 0 0 0)
  - nyOffsetMin rt now * ES.msPerMinute
  = now - now mod ES.msPerHour.
Proof.
  unfold nyLocal.
  destruct (nyOffsetMin_cases rt now) as [-> | ->];
    unfold ES.MakeDate, ES.MakeTime, ES.Day, ES.HourFromTime, ES.msPerDay,
      ES.msPerHour, ES.msPerMinute, ES.msPerSecond;
    Z.div_mod_to_equations; lia.
Qed.

Lemma decodeH1_fields (clock : Z) (m : list string) (mo : Z) :
  Grammar.MONTHS (cap 2 m) = Grammar.MonthNum mo ->
  let n := etParts rt clock in
  let d := Text.parseInt (cap 3 m) in
  let h := Logger.hour24 (Text.parseInt (cap 4 m)) (cap 5 m) in
  let year := Logger.inferYear (pYear n) (pMonth n) (pDay n) mo d in
  Logger.decodeH1 rt clock m
  = (offset <- probeOffset rt (dateLocal rt year (mo - 1) d h) ;;
     Ret (Some {| timeframe_of := h1;
                  timestamp := dateFromISO rt year mo d h 0 0 offset |})).
Proof. intros M. unfold Logger.decodeH1. rewrite M. reflexivity. Qed.

(** X6: encode, decode and containment for h1 at an instant [now] whose
    civil hour started at the offset in force at [now], when the decoder's
    probe (taken at the civil fields in the host's zone) returns that
    offset: the decoded start is [now] rounded down to the hour and [now]
    lies in that window. *)
Theorem h1_round_trip (a : asset) (now : Z) :
  inFourDigitEra now ->
  plainHour rt (nyLocal rt now) ->
  nyEDT rt (now - now mod ES.msPerHour) = nyEDT rt now ->
  probeOffset rt
    (dateLocal rt (pYear (etParts rt now)) (pMonth (etParts rt now) - 1)
       (pDay (etParts rt now)) (pHour (etParts rt now)))
  = Ret (nyOffsetMin rt now) ->
  Logger.resolve rt a h1 now
  = Ret (Some {| timeframe_of := h1;
                 timestamp := Some (now - now mod ES.msPerHour) |}, true).
Proof.
  intros Hera Hh Hs Hp.
  set (s := now - now mod ES.msPerHour) in *.
  assert (Hera_s : inFourDigitEra s)
    by (unfold inFourDigitEra, ES.msPerHour in *; subst s;
        Z.div_mod_to_equations; lia).
  pose proof (local_year_range rt now Hera) as Hy.
  pose proof (civil_month_day_range (nyLocal rt now)) as [Hm Hd].
  pose proof (hour_range (nyLocal rt now)) as Hr.
  assert (Hph : pHour (etParts rt now) = ES.HourFromTime (nyLocal rt now))
    by (unfold etParts, pHour; now apply cycleHour_plain).
  destruct (parseSlug_h1Text now a (pMonth (etParts rt now))
              (pDay (etParts rt now)) (pHour (etParts rt now)))
    as (m & Hparse & HM & HD & HH);
    [exact Hm | exact Hd | rewrite Hph; exact Hr |].
  unfold Logger.resolve. rewrite generateExpectedSlug_h1.
  unfold bind at 1. rewrite Hparse.
  rewrite (decodeH1_fields now m _ HM). cbv zeta.
  rewrite HD, HH, inferYear_today, Hp. unfold bind at 2.
  assert (Hts : dateFromISO rt (pYear (etParts rt now))
                  (pMonth (etParts rt now)) (pDay (etParts rt now))
                  (pHour (etParts rt now)) 0 0 (nyOffsetMin rt now)
                = Some s).
  { unfold etParts, pYear, pMonth, pDay, pHour.
    rewrite dateFromISO_fields by (assumption || lia).
    rewrite hour_start_local. fold s.
    apply TimeClip_valid. unfold inFourDigitEra, ES.maxTime in *. lia. }
  rewrite Hts. unfold bind at 1.
  rewrite (isActiveMarket_fields rt
             {| timeframe_of := h1; timestamp := Some s |} a h1 now s
             eq_refl). cbv zeta.
  rewrite (hour_fields_window rt now s Hera_s Hera Hs).
  unfold bind, fst.
  replace (s - s mod ES.msPerHour) with s
    by (subst s; unfold ES.msPerHour; Z.div_mod_to_equations; lia).
  replace ((s <=? now) && (now <? s + ES.msPerHour)) with true;
    [reflexivity|].
  symmetry. apply andb_true_iff. rewrite Z.leb_le, Z.ltb_lt.
  subst s. unfold ES.msPerHour. Z.div_mod_to_equations. lia.
Qed.

End TextRoundTrip.

Lemma h1_round_trip_example :
  Logger.resolve nodeUTC SOL h1 1762127220000
  = Ret (Some {| timeframe_of := h1;
                 timestamp := Some (1762127220000
                                    - 1762127220000 mod ES.msPerHour) |},
         true).
Proof.
  apply (h1_round_trip nodeUTC SOL 1762127220000).
  - unfold inFourDigitEra. lia.
  - left. reflexivity.
  - reflexivity.
  - reflexivity.
Defined.

(** ** The calendar, forwards *)

Section CalendarForward.

Lemma year_split (y' : Z) :
  let era := y' / 400 in
  let yoe := y' - era * 400 in
  0 <= yoe <= 399.
Proof. cbv zeta. Z.div_mod_to_equations. lia. Qed.

(** Day numbers inside a computational year (March to February) are read
    back as the year of the era and the day of that year. *)
Lemma civil_of_doe (era yoe doy : Z) :
  0 <= yoe <= 399 -> 0 <= doy ->
  doy < 365 + (if (yoe + 1) mod 4 =? 0
               then if (yoe + 1) mod 100 =? 0
                    then if yoe + 1 =? 400 then 1 else 0
                    else 1
               else 0) ->
  let doe := yoe * 365 + yoe / 4 - yoe / 100 + doy in
  let z' := era * 146097 + doe in
  z' / 146097 = era
  /\ (doe - doe / 1460 + doe / 36524 - doe / 146096) / 365 = yoe.
Proof.
  intros Hy Hd Hl. cbv zeta.
  destruct ((yoe + 1) mod 4 =? 0) eqn:E4;
    [apply Z.eqb_eq in E4 | apply Z.eqb_neq in E4];
    [destruct ((yoe + 1) mod 100 =? 0) eqn:E100;
     [apply Z.eqb_eq in E100 | apply Z.eqb_neq in E100];
     [destruct (yoe + 1 =? 400) eqn:E400;
      [apply Z.eqb_eq in E400 | apply Z.eqb_neq in E400]|]|];
    split; Z.div_mod_to_equations; lia.
Qed.

(** The first day of a month of the computational year and the first day
    of the next one. *)
Lemma daysFromCivil_unfold (y m d : Z) :
  ES.daysFromCivil y m d
  = let y' := if m <=? 2 then y - 1 else y in
    let mp := if m <=? 2 then m + 9 else m - 3 in
    let yoe := y' - y' / 400 * 400 in
    y' / 400 * 146097
    + (yoe * 365 + yoe / 4 - yoe / 100 + ((153 * mp + 2) / 5 + d - 1))
    - 719468.
Proof. unfold ES.daysFromCivil. cbv zeta. ring. Qed.

Lemma next_month_cases (y m : Z) :
  1 <= m <= 12 ->
  let y' := if m <=? 2 then y - 1 else y in
  let mp := if m <=? 2 then m + 9 else m - 3 in
  let m2 := m mod 12 + 1 in
  let y2 := y + m / 12 in
  let y2' := if m2 <=? 2 then y2 - 1 else y2 in
  let mp2 := if m2 <=? 2 then m2 + 9 else m2 - 3 in
  0 <= mp <= 11
  /\ (mp <= 10 -> y2' = y' /\ mp2 = mp + 1)
  /\ (mp = 11 -> y2' = y' + 1 /\ mp2 = 0).
Proof.
  intros Hm. cbv zeta.
  destruct (Z.leb_spec m 2); destruct (Z.leb_spec (m mod 12 + 1) 2);
    repeat split; intros; Z.div_mod_to_equations; lia.
Qed.

Lemma civil_of_doy (era yoe mp d : Z) :
  0 <= yoe <= 399 -> 0 <= mp <= 11 -> 1 <= d ->
  (153 * mp + 2) / 5 + d - 1 < (153 * (mp + 1) + 2) / 5 ->
  (mp = 11 ->
   (153 * mp + 2) / 5 + d - 1
   < 365 + (if (yoe + 1) mod 4 =? 0
            then if (yoe + 1) mod 100 =? 0
                 then if yoe + 1 =? 400 then 1 else 0
                 else 1
            else 0)) ->
  let doy := (153 * mp + 2) / 5 + d - 1 in
  let doe := yoe * 365 + yoe / 4 - yoe / 100 + doy in
  ES.civilFromDays (era * 146097 + doe - 719468)
  = (let m := if mp <? 10 then mp + 3 else mp - 9 in
     (if m <=? 2 then yoe + era * 400 + 1 else yoe + era * 400, m, d)).
Proof.
  intros Hy Hmp Hd Hb Hfeb. cbv zeta.
  set (doy := (153 * mp + 2) / 5 + d - 1) in *.
  assert (Hdoy : 0 <= doy) by (subst doy; Z.div_mod_to_equations; lia).
  assert (Hl : doy < 365 + (if (yoe + 1) mod 4 =? 0
                            then if (yoe + 1) mod 100 =? 0
                                 then if yoe + 1 =? 400 then 1 else 0
                                 else 1
                            else 0)).
  { destruct (Z.eq_dec mp 11) as [E | E]; [now apply Hfeb|].
    assert (doy < 365) by (subst doy; Z.div_mod_to_equations; lia).
    destruct (_ =? 0); [destruct (_ =? 0); [destruct (_ =? 400)|]|]; lia. }
  destruct (civil_of_doe era yoe doy Hy Hdoy Hl) as [He Hyoe].
  unfold ES.civilFromDays.
  replace (era * 146097 + (yoe * 365 + yoe / 4 - yoe / 100 + doy) - 719468
           + 719468)
    with (era * 146097 + (yoe * 365 + yoe / 4 - yoe / 100 + doy)) by ring.
  cbv zeta. rewrite He.
  replace (era * 146097 + (yoe * 365 + yoe / 4 - yoe / 100 + doy)
           - era * 146097)
    with (yoe * 365 + yoe / 4 - yoe / 100 + doy) by ring.
  rewrite Hyoe.
  replace (yoe * 365 + yoe / 4 - yoe / 100 + doy
           - (365 * yoe + yoe / 4 - yoe / 100)) with doy by ring.
  assert (Hmp' : (5 * doy + 2) / 153 = mp)
    by (subst doy; Z.div_mod_to_equations; lia).
  rewrite Hmp'. subst doy.
  replace ((153 * mp + 2) / 5 + d - 1 - (153 * mp + 2) / 5 + 1) with d
    by ring.
  reflexivity.
Qed.

Lemma leap_bound (y' d : Z) :
  let yoe := y' - y' / 400 * 400 in
  let yoe2 := y' + 1 - (y' + 1) / 400 * 400 in
  y' / 400 * 146097 + (yoe * 365 + yoe / 4 - yoe / 100 + (337 + d - 1))
  < (y' + 1) / 400 * 146097 + (yoe2 * 365 + yoe2 / 4 - yoe2 / 100) ->
  337 + d - 1
  < 365 + (if (yoe + 1) mod 4 =? 0
           then if (yoe + 1) mod 100 =? 0
                then if yoe + 1 =? 400 then 1 else 0
                else 1
           else 0).
Proof.
  cbv zeta. intros H.
  destruct (Z.eqb_spec ((y' - y' / 400 * 400 + 1) mod 4) 0);
    [destruct (Z.eqb_spec ((y' - y' / 400 * 400 + 1) mod 100) 0);
     [destruct (Z.eqb_spec (y' - y' / 400 * 400 + 1) 400)|]|];
    Z.div_mod_to_equations; lia.
Qed.

(** Turning a calendar date into a day number and back is the identity,
    for a day before the first of the next month. *)
Lemma civilFromDays_daysFromCivil (y m d : Z) :
  1 <= m <= 12 -> 1 <= d ->
  ES.daysFromCivil y m d < ES.daysFromCivil (y + m / 12) (m mod 12 + 1) 1 ->
  ES.civilFromDays (ES.daysFromCivil y m d) = (y, m, d).
Proof.
  intros Hm Hd Hn.
  destruct (next_month_cases y m Hm) as (Hmp & Hlo & Hhi).
  rewrite !daysFromCivil_unfold in Hn. rewrite daysFromCivil_unfold.
  cbv zeta in *.
  set (y' := if m <=? 2 then y - 1 else y) in *.
  set (mp := if m <=? 2 then m + 9 else m - 3) in *.
  set (y2' := if m mod 12 + 1 <=? 2 then y + m / 12 - 1 else y + m / 12)
    in *.
  set (mp2 := if m mod 12 + 1 <=? 2 then m mod 12 + 1 + 9
              else m mod 12 + 1 - 3) in *.
  assert (Hy' : y = if m <=? 2 then y' + 1 else y')
    by (subst y'; destruct (m <=? 2); lia).
  assert (Hm' : m = if mp <? 10 then mp + 3 else mp - 9).
  { subst mp. destruct (Z.leb_spec m 2).
    - destruct (Z.ltb_spec (m + 9) 10); lia.
    - destruct (Z.ltb_spec (m - 3) 10); lia. }
  clearbody y' mp y2' mp2.
  pose proof (year_split y') as Hyoe. cbv zeta in Hyoe.
  assert (Hfeb : mp = 11 ->
                 (153 * mp + 2) / 5 + d - 1
                 < 365 + (if (y' - y' / 400 * 400 + 1) mod 4 =? 0
                          then if (y' - y' / 400 * 400 + 1) mod 100 =? 0
                               then if y' - y' / 400 * 400 + 1 =? 400
                                    then 1 else 0
                               else 1
                          else 0)).
  { intros E. destruct (Hhi E) as [E1 E2]. rewrite E, E1, E2 in Hn.
    rewrite E.
    change ((153 * 11 + 2) / 5) with 337 in *.
    change ((153 * 0 + 2) / 5 + 1 - 1) with 0 in Hn.
    apply leap_bound. cbv zeta. lia. }
  assert (Hb : (153 * mp + 2) / 5 + d - 1 < (153 * (mp + 1) + 2) / 5).
  { destruct (Z.eq_dec mp 11) as [E | E].
    - specialize (Hfeb E). rewrite E in *.
      change ((153 * 11 + 2) / 5) with 337 in *.
      change ((153 * (11 + 1) + 2) / 5) with 367.
      destruct (_ =? 0) in Hfeb;
        [destruct (_ =? 0) in Hfeb; [destruct (_ =? 400) in Hfeb|]|]; lia.
    - destruct (Hlo ltac:(lia)) as [E1 E2]. rewrite E1, E2 in Hn. lia. }
  rewrite (civil_of_doy (y' / 400) (y' - y' / 400 * 400) mp d
             Hyoe Hmp Hd Hb Hfeb).
  cbv zeta. rewrite <- Hm'.
  replace (y' - y' / 400 * 400 + y' / 400 * 400) with y' by ring.
  now rewrite <- Hy'.
Qed.

(** A month has 28 to 31 days. *)
Lemma month_length (y m : Z) :
  1 <= m <= 12 ->
  28 <= ES.daysFromCivil (y + m / 12) (m mod 12 + 1) 1
        - ES.daysFromCivil y m 1 <= 31.
Proof.
  intros Hm.
  destruct (next_month_cases y m Hm) as (Hmp & Hlo & Hhi).
  rewrite !daysFromCivil_unfold. cbv zeta in *.
  set (y' := if m <=? 2 then y - 1 else y) in *.
  set (mp := if m <=? 2 then m + 9 else m - 3) in *.
  set (y2' := if m mod 12 + 1 <=? 2 then y + m / 12 - 1 else y + m / 12)
    in *.
  set (mp2 := if m mod 12 + 1 <=? 2 then m mod 12 + 1 + 9
              else m mod 12 + 1 - 3) in *.
  clearbody y' mp y2' mp2.
  destruct (Z.eq_dec mp 11) as [E | E].
  - destruct (Hhi E) as [-> ->]. subst mp.
    Z.div_mod_to_equations. lia.
  - destruct (Hlo ltac:(lia)) as [-> ->].
    Z.div_mod_to_equations. lia.
Qed.

Lemma daysFromCivil_day (y m d : Z) :
  ES.daysFromCivil y m d = ES.daysFromCivil y m 1 + d - 1.
Proof. unfold ES.daysFromCivil. cbv zeta. ring. Qed.

Lemma MakeDay_month (y m d : Z) :
  1 <= m <= 12 -> ES.MakeDay y (m - 1) d = ES.daysFromCivil y m d.
Proof.
  intros Hm. unfold ES.MakeDay.
  replace ((m - 1) / 12) with 0 by (Z.div_mod_to_equations; lia).
  replace ((m - 1) mod 12 + 1) with m by (Z.div_mod_to_equations; lia).
  rewrite Z.add_0_r, (daysFromCivil_day y m d). lia.
Qed.

(** The day after a day number [z], when it falls in the same month: it
    is the next date of that month and year, and the month's last day,
    found as day 0 of the following month, is not earlier. *)
Lemma next_day_same_month (z : Z) :
  snd (fst (ES.civilFromDays (z + 1))) = snd (fst (ES.civilFromDays z)) ->
  ES.civilFromDays (z + 1)
  = (fst (fst (ES.civilFromDays z)), snd (fst (ES.civilFromDays z)),
     snd (ES.civilFromDays z) + 1)
  /\ snd (ES.civilFromDays z) + 1
     <= snd (ES.civilFromDays
               (ES.MakeDay (fst (fst (ES.civilFromDays z)))
                  (snd (fst (ES.civilFromDays z))) 0)).
Proof.
  pose proof (civil_fields_range z) as R.
  pose proof (MakeDay_civilFromDays z) as B.
  destruct (ES.civilFromDays z) as [[y m] d]. destruct R as [Hm Hd].
  cbn [fst snd]. intros Hsame.
  rewrite MakeDay_month in B by assumption.
  rewrite daysFromCivil_day in B.
  pose proof (month_length y m Hm) as L.
  set (N := ES.daysFromCivil (y + m / 12) (m mod 12 + 1) 1) in *.
  assert (Hm2 : 1 <= m mod 12 + 1 <= 12) by (Z.div_mod_to_equations; lia).
  assert (Hlt : z + 1 < N).
  { destruct (Z.lt_ge_cases (z + 1) N) as [H | H]; [exact H | exfalso].
    pose proof (month_length (y + m / 12) (m mod 12 + 1) Hm2) as L2.
    assert (E : z + 1
                = ES.daysFromCivil (y + m / 12) (m mod 12 + 1)
                    (z + 1 - N + 1))
      by (rewrite daysFromCivil_day; fold N; lia).
    pose proof (civilFromDays_daysFromCivil (y + m / 12) (m mod 12 + 1)
                  (z + 1 - N + 1) Hm2 ltac:(lia)) as F.
    rewrite <- E in F.
    assert (Hn : z + 1 < ES.daysFromCivil
                           (y + m / 12 + (m mod 12 + 1) / 12)
                           ((m mod 12 + 1) mod 12 + 1) 1)
      by (fold N in L2; lia).
    specialize (F Hn). rewrite F in Hsame. cbn [fst snd] in Hsame.
    Z.div_mod_to_equations. lia. }
  split.
  - assert (E : z + 1 = ES.daysFromCivil y m (d + 1))
      by (rewrite daysFromCivil_day; lia).
    rewrite E. apply civilFromDays_daysFromCivil; [assumption | lia |].
    rewrite <- E. exact Hlt.
  - unfold ES.MakeDay. fold N.
    assert (E : N + 0 - 1 = ES.daysFromCivil y m (N - ES.daysFromCivil y m 1))
      by (rewrite daysFromCivil_day; lia).
    rewrite E.
    rewrite civilFromDays_daysFromCivil; [cbn [snd]; lia | assumption | lia |].
    rewrite <- E. fold N. lia.
Qed.

End CalendarForward.

(** ** The daily round trip *)

Section DailyFacts.
Variable rt : Runtime.
Variable k : Z.
Hypothesis host_local : forall x, hostLocal rt x = x + k.
Hypothesis host_utc : forall x, hostUTC rt x = x - k.

(** [new Date(y, m, 0).getDate()] on a host with a fixed offset: the date
    of the day before the first of the month that follows month [m]. *)
Lemma lastDayOfMonth_fixed (y m : Z) :
  100 <= y ->
  lastDayOfMonth rt y m = None
  \/ lastDayOfMonth rt y m
     = Some (snd (ES.civilFromDays (ES.MakeDay y m 0))).
Proof.
  intros Hy. unfold lastDayOfMonth, dateLocal.
  rewrite host_utc, fullYear_id by assumption.
  destruct (ES.TimeClip _) as [t|] eqn:E; [right | now left].
  apply TimeClip_some in E. rewrite host_local, E. f_equal.
  unfold ES.DateFromTime. f_equal. f_equal.
  unfold ES.Day, ES.MakeDate, ES.MakeTime, ES.msPerDay.
  Z.div_mod_to_equations. lia.
Qed.

Lemma day_ahead (l : Z) : ES.Day (l + ES.msPerDay) = ES.Day l + 1.
Proof. unfold ES.Day, ES.msPerDay. Z.div_mod_to_equations. lia. Qed.

(** The fields of the civil day after that of [l], when it lies in the
    same month. *)
Lemma tomorrow_fields (l : Z) :
  ES.MonthFromTime (l + ES.msPerDay) = ES.MonthFromTime l ->
  ES.civilFromDays (ES.Day l + 1)
  = (ES.YearFromTime l, ES.MonthFromTime l + 1, ES.DateFromTime l + 1)
  /\ ES.DateFromTime l + 1
     <= snd (ES.civilFromDays
               (ES.MakeDay (ES.YearFromTime l) (ES.MonthFromTime l + 1) 0)).
Proof.
  unfold ES.MonthFromTime, ES.YearFromTime, ES.DateFromTime.
  rewrite day_ahead. intros H.
  replace (snd (fst (ES.civilFromDays (ES.Day l))) - 1 + 1)
    with (snd (fst (ES.civilFromDays (ES.Day l)))) by lia.
  apply next_day_same_month. lia.
Qed.

Lemma expectedDay_fields (now : Z) :
  let l := nyLocal rt now in
  Logger.expectedDay rt (etParts rt now)
  = if cycleHour rt (ES.HourFromTime l) >=? 12 then
      match lastDayOfMonth rt (eraYear (ES.YearFromTime l))
              (ES.MonthFromTime l + 1) with
      | Some daysInMonth =>
          if ES.DateFromTime l + 1 >? daysInMonth then 1
          else ES.DateFromTime l + 1
      | None => ES.DateFromTime l + 1
      end
    else ES.DateFromTime l.
Proof. reflexivity. Qed.

(** Away from the last day of a month the expected day of the daily
    window is today's date before noon and tomorrow's from noon on. *)
Lemma expectedDay_value (now : Z) :
  inFourDigitEra now ->
  let l := nyLocal rt now in
  let ahead := if cycleHour rt (ES.HourFromTime l) >=? 12 then 1 else 0 in
  (ahead = 1 -> ES.MonthFromTime (l + ES.msPerDay) = ES.MonthFromTime l) ->
  Logger.expectedDay rt (etParts rt now) = ES.DateFromTime l + ahead.
Proof.
  intros Hera l ahead Hm. rewrite expectedDay_fields. cbv zeta. fold l.
  subst ahead.
  destruct (cycleHour rt (ES.HourFromTime l) >=? 12); [|lia].
  pose proof (local_year_range rt now Hera) as Hy. fold l in Hy.
  rewrite eraYear_id by lia.
  destruct (tomorrow_fields l (Hm eq_refl)) as [_ Hd].
  destruct (lastDayOfMonth_fixed (ES.YearFromTime l)
              (ES.MonthFromTime l + 1) ltac:(lia)) as [-> | ->];
    [reflexivity|].
  destruct (Z.gtb_spec (ES.DateFromTime l + 1)
              (snd (ES.civilFromDays
                      (ES.MakeDay (ES.YearFromTime l)
                         (ES.MonthFromTime l + 1) 0))));
    [lia | reflexivity].
Qed.

End DailyFacts.

Section DailyDecode.
Variable rt : Runtime.

Lemma inferYear_not_earlier (y mo d d' : Z) :
  d <= d' -> Logger.inferYear y mo d mo d' = y.
Proof.
  intros H. unfold Logger.inferYear.
  rewrite Z.ltb_irrefl, Z.eqb_refl.
  replace (d' <? d) with false by (symmetry; apply Z.ltb_ge; lia).
  simpl. now destruct (d' =? d).
Qed.

Lemma decodeDaily_fields (clock : Z) (m : list string) (mo : Z) :
  Grammar.MONTHS (cap 2 m) = Grammar.MonthNum mo ->
  let n := etParts rt clock in
  let d := Text.parseInt (cap 3 m) in
  let year := Logger.inferYear (pYear n) (pMonth n) (pDay n) mo d in
  Logger.decodeDaily rt clock m
  = (offset <- probeOffset rt (dateLocal rt year (mo - 1) d 0) ;;
     Ret (Some {| timeframe_of := daily;
                  timestamp := dateFromISO rt year mo d 0 0 0 offset |})).
Proof. intros M. unfold Logger.decodeDaily. rewrite M. reflexivity. Qed.

(** The instant of civil midnight, [ahead] days after the day of [l]. *)
Lemma dateFromISO_midnight (l ahead off : Z) :
  1000 <= ES.YearFromTime l <= 9999 ->
  1 <= ES.DateFromTime l + ahead <= 31 ->
  dateFromISO rt (eraYear (ES.YearFromTime l)) (ES.MonthFromTime l + 1)
    (ES.DateFromTime l + ahead) 0 0 0 off
  = ES.TimeClip ((ES.Day l + ahead) * ES.msPerDay - off * ES.msPerMinute).
Proof.
  intros Hy Hd. rewrite eraYear_id by lia. unfold dateFromISO.
  pose proof (civil_month_day_range l) as [Hm _].
  replace ((1000 <=? ES.YearFromTime l) && (ES.YearFromTime l <=? 9999)
           && (1 <=? ES.MonthFromTime l + 1)
           && (ES.MonthFromTime l + 1 <=? 12)
           && (1 <=? ES.DateFromTime l + ahead)
           && (ES.DateFromTime l + ahead <=? 31))
    with true
    by (symmetry; repeat (apply andb_true_iff; split); apply Z.leb_le; lia).
  change ((0 <=? 0) && (0 <=? 23) && (0 <=? 0) && (0 <=? 59) && (0 <=? 0)
          && (0 <=? 59) || (0 =? 24) && (0 =? 0) && (0 =? 0)) with true.
  cbv iota. f_equal.
  replace (ES.MakeDay (ES.YearFromTime l) (ES.MonthFromTime l + 1 - 1)
             (ES.DateFromTime l + ahead))
    with (ES.MakeDay (ES.YearFromTime l) (ES.MonthFromTime l + 1 - 1)
            (ES.DateFromTime l) + ahead)
    by (unfold ES.MakeDay; lia).
  rewrite civil_rebuild. unfold ES.MakeDate, ES.MakeTime. lia.
Qed.

End DailyDecode.

(** X7: encode, decode and containment for daily, on a host with a fixed
    offset from UTC: when the target day (today before civil noon,
    tomorrow from noon on) lies in the month of [now] and the decoder's
    probe returns the offset in force at civil midnight of that day, the
    decoded start is that midnight and containment holds. *)
Theorem daily_round_trip (rt : Runtime) (k : Z) (a : asset) (now off : Z) :
  (forall x, hostLocal rt x = x + k) ->
  (forall x, hostUTC rt x = x - k) ->
  inFourDigitEra now ->
  plainHour rt (nyLocal rt now) ->
  let l := nyLocal rt now in
  let p := etParts rt now in
  let ahead := if pHour p >=? 12 then 1 else 0 in
  let start := (ES.Day l + ahead) * ES.msPerDay - off * ES.msPerMinute in
  (ahead = 1 -> ES.MonthFromTime (l + ES.msPerDay) = ES.MonthFromTime l) ->
  probeOffset rt (dateLocal rt (pYear p) (pMonth p - 1) (pDay p + ahead) 0)
  = Ret off ->
  nyOffsetMin rt start = off ->
  Logger.resolve rt a daily now
  = Ret (Some {| timeframe_of := daily; timestamp := Some start |}, true).
Proof.
  intros host_local host_utc Hera Hh l p ahead start Hm Hp Hoff.
  pose proof (local_year_range rt now Hera) as Hy. fold l in Hy.
  pose proof (civil_month_day_range l) as [Hmo Hd].
  assert (Hahead : ahead = 0 \/ ahead = 1)
    by (subst ahead; destruct (pHour p >=? 12); auto).
  assert (Hciv : ES.civilFromDays (ES.Day l + ahead)
                 = (ES.YearFromTime l, ES.MonthFromTime l + 1,
                    ES.DateFromTime l + ahead)).
  { destruct Hahead as [E | E]; rewrite E.
    - rewrite !Z.add_0_r.
      unfold ES.YearFromTime, ES.MonthFromTime, ES.DateFromTime.
      destruct (ES.civilFromDays (ES.Day l)) as [[y m] d]. simpl.
      f_equal. f_equal. lia.
    - now apply tomorrow_fields, Hm. }
  assert (Hd' : 1 <= ES.DateFromTime l + ahead <= 31).
  { pose proof (civil_fields_range (ES.Day l + ahead)) as R.
    rewrite Hciv in R. lia. }
  assert (Htarget : (if pHour p >=? 12 then pDay p + 1 else pDay p)
                    = ES.DateFromTime l + ahead)
    by (subst ahead; unfold p at 2 3, etParts, pDay;
        destruct (pHour p >=? 12); fold l; lia).
  destruct (parseSlug_dailyText rt now a (pMonth p)
              (ES.DateFromTime l + ahead))
    as (m & Hparse & HM & HD); [exact Hmo | lia |].
  unfold Logger.resolve. rewrite generateExpectedSlug_daily.
  fold p. rewrite Htarget.
  unfold bind at 1. rewrite Hparse.
  rewrite (decodeDaily_fields rt now m _ HM). cbv zeta.
  rewrite HD. fold p.
  replace (pDay p) with (ES.DateFromTime l) by reflexivity.
  rewrite inferYear_not_earlier by lia.
  change (pDay p) with (ES.DateFromTime l) in Hp.
  rewrite Hp. unfold bind at 2.
  assert (Hts : dateFromISO rt (pYear p) (pMonth p)
                  (ES.DateFromTime l + ahead) 0 0 0 off = Some start).
  { unfold p, etParts, pYear, pMonth. fold l.
    rewrite dateFromISO_midnight by (assumption || lia).
    apply TimeClip_valid.
    destruct (probeOffset_cases rt _ _ Hp) as [E | E];
      unfold inFourDigitEra, nyLocal in *;
      pose proof (nyOffsetMin_cases rt now) as C;
      subst start l; rewrite E;
      unfold ES.Day, ES.maxTime, ES.msPerDay, ES.msPerMinute in *;
      Z.div_mod_to_equations; lia. }
  rewrite Hts. unfold bind at 1.
  rewrite (isActiveMarket_fields rt
             {| timeframe_of := daily; timestamp := Some start |}
             a daily now start eq_refl).
  cbv zeta. fold l.
  assert (Hlt : nyLocal rt start = (ES.Day l + ahead) * ES.msPerDay)
    by (unfold nyLocal; rewrite Hoff; subst start; lia).
  rewrite Hlt.
  assert (Hday : ES.Day ((ES.Day l + ahead) * ES.msPerDay)
                 = ES.Day l + ahead)
    by (unfold ES.Day at 1, ES.msPerDay; Z.div_mod_to_equations; lia).
  unfold ES.YearFromTime at 2, ES.MonthFromTime at 2, ES.DateFromTime at 1.
  rewrite Hday, Hciv. cbn [fst snd].
  rewrite (expectedDay_value rt k host_local host_utc now Hera).
  - fold l.
    replace (if cycleHour rt (ES.HourFromTime l) >=? 12 then 1 else 0)
      with ahead by reflexivity.
    replace (ES.MonthFromTime l + 1 - 1 + 1) with (ES.MonthFromTime l + 1)
      by lia.
    rewrite !Z.eqb_refl. reflexivity.
  - exact Hm.
Qed.

Lemma daily_round_trip_example :
  Logger.resolve nodeUTC BTC daily 1762127220000
  = Ret (Some {| timeframe_of := daily;
                 timestamp := Some ((ES.Day (nyLocal nodeUTC 1762127220000)
                                     + 1) * ES.msPerDay
                                    - (-300) * ES.msPerMinute) |}, true).
Proof.
  apply (daily_round_trip nodeUTC 0 BTC 1762127220000 (-300)
           (fun x => eq_sym (Z.add_0_r x))
           (fun x => eq_sym (Z.sub_0_r x))).
  - unfold inFourDigitEra. lia.
  - left. reflexivity.
  - reflexivity.
  - reflexivity.
  - reflexivity.
Defined.

(** ** The CSV writer *)

Section CsvFacts.
Import Csv.
Variable Spot : Type.
Variable toFixed : Spot -> Z -> string.


Lemma assetEqb_eq (a b : asset) : assetEqb a b = true <-> a = b.
Proof. destruct a, b; simpl; split; congruence. Qed.

Lemma assetEqb_refl (a : asset) : assetEqb a a = true.
Proof. now destruct a. Qed.

(** Joining lines by newlines and adding a final one writes every line
    followed by a newline. *)
Lemma join_lines (a : asset) (rows : list (row Spot)) :
  rows <> [] ->
  (join nl (map (line toFixed a) rows) ++ nl)%string = rowsText toFixed a rows.
Proof.
  induction rows as [|r rest IH]; intros H; [contradiction|].
  destruct rest as [|r' rest']; [reflexivity|].
  change (join nl (map (line toFixed a) (r :: r' :: rest')))
    with (line toFixed a r ++ nl ++ join nl (map (line toFixed a) (r' :: rest')))%string.
  rewrite !TextFacts.append_assoc, IH by discriminate. reflexivity.
Qed.

Lemma join_header_lines (a : asset) (rows : list (row Spot)) :
  rows <> [] ->
  (join nl (header :: map (line toFixed a) rows) ++ nl)%string
  = (header ++ nl ++ rowsText toFixed a rows)%string.
Proof.
  intros H. destruct rows as [|r rest]; [contradiction|].
  change (join nl (header :: map (line toFixed a) (r :: rest)))
    with (header ++ nl ++ join nl (map (line toFixed a) (r :: rest)))%string.
  rewrite !TextFacts.append_assoc, join_lines by discriminate.
  reflexivity.
Qed.

Lemma rowsText_app (a : asset) (r1 r2 : list (row Spot)) :
  rowsText toFixed a (r1 ++ r2) = (rowsText toFixed a r1 ++ rowsText toFixed a r2)%string.
Proof.
  induction r1 as [|r rest IH]; [reflexivity|].
  simpl. now rewrite IH, !TextFacts.append_assoc.
Qed.

(** The file of an asset after its buffer [rows] has been flushed. *)
Lemma flushAsset_buffers (st : state Spot) (a x : asset) :
  buffers (flushAsset toFixed st a) x
  = if assetEqb x a then [] else buffers st x.
Proof.
  unfold Csv.flushAsset.
  destruct (buffers st a) as [|r rest] eqn:B.
  - destruct (assetEqb x a) eqn:E; [|reflexivity].
    apply assetEqb_eq in E. now subst.
  - reflexivity.
Qed.

Lemma flushAsset_files (st : state Spot) (a x : asset) :
  files (flushAsset toFixed st a) x
  = if assetEqb x a then
      match buffers st a with
      | [] => files st a
      | rows =>
          Some (match files st a with
                | Some old => old
                | None => header ++ nl
                end ++ rowsText toFixed a rows)%string
      end
    else files st x.
Proof.
  unfold Csv.flushAsset.
  destruct (buffers st a) as [|r rest] eqn:B.
  - destruct (assetEqb x a) eqn:E; [|reflexivity].
    apply assetEqb_eq in E. now subst.
  - cbn [Csv.buffers Csv.files]. unfold upd.
    destruct (assetEqb x a); [|reflexivity].
    destruct (files st a) as [old|].
    + cbn [app]. now rewrite join_lines by discriminate.
    + change ([header] ++ map (line toFixed a) (r :: rest))%list
        with (header :: map (line toFixed a) (r :: rest)).
      rewrite join_header_lines by discriminate.
      now rewrite !TextFacts.append_assoc.
Qed.

Lemma flushToCSV_cons (a : asset) (ASSETS : list asset) (st : state Spot) :
  flushToCSV toFixed (a :: ASSETS) st = flushToCSV toFixed ASSETS (flushAsset toFixed st a).
Proof. reflexivity. Qed.

Lemma flush_pointwise (ASSETS : list asset) : forall (st : state Spot) (x : asset),
  buffers (flushToCSV toFixed ASSETS st) x
  = (if existsb (assetEqb x) ASSETS then [] else buffers st x)
  /\ files (flushToCSV toFixed ASSETS st) x
     = if existsb (assetEqb x) ASSETS then
         match buffers st x with
         | [] => files st x
         | rows =>
             Some (match files st x with
                   | Some old => old
                   | None => header ++ nl
                   end ++ rowsText toFixed x rows)%string
         end
       else files st x.
Proof.
  induction ASSETS as [|a rest IH]; intros st x; [split; reflexivity|].
  rewrite flushToCSV_cons.
  destruct (IH (flushAsset toFixed st a) x) as [IHb IHf].
  rewrite IHb, IHf. clear IHb IHf IH.
  rewrite flushAsset_buffers, flushAsset_files.
  cbn [existsb].
  destruct (assetEqb x a) eqn:E.
  - apply assetEqb_eq in E. subst a. cbn [orb].
    split; [now destruct (existsb _ rest)|].
    destruct (existsb (assetEqb x) rest); reflexivity.
  - cbn [orb]. split; reflexivity.
Qed.

Lemma pushAll_buffers (a : asset) (rows : list (row Spot)) : forall (st : state Spot)
    (x : asset),
  buffers (pushAll a rows st) x
  = (if assetEqb x a then buffers st x ++ rows else buffers st x)
  /\ files (pushAll a rows st) x = files st x.
Proof.
  induction rows as [|r rest IH]; intros st x.
  - simpl. rewrite app_nil_r. now destruct (assetEqb x a).
  - change (pushAll a (r :: rest) st)
      with (pushAll a rest (push a st r)).
    destruct (IH (push a st r) x) as [-> ->].
    unfold push, upd. cbn [Csv.buffers Csv.files].
    destruct (assetEqb x a) eqn:E; [|split; reflexivity].
    apply assetEqb_eq in E. subst x.
    now rewrite <- app_assoc.
Qed.

(** X8: what [flushToCSV] leaves behind.  The buffer of every asset of
    [ASSETS] is empty and the others are untouched; the file of an asset
    with an empty buffer is left as it was (it is not created), the file
    of an asset with rows either receives those rows one per line after
    its old content, or, if it did not exist, the header line and those
    rows. *)
Theorem flush_effect (ASSETS : list asset) (st : state Spot) (x : asset) :
  buffers (flushToCSV toFixed ASSETS st) x
  = (if existsb (assetEqb x) ASSETS then [] else buffers st x)
  /\ files (flushToCSV toFixed ASSETS st) x
     = if existsb (assetEqb x) ASSETS then
         match buffers st x with
         | [] => files st x
         | rows =>
             Some (match files st x with
                   | Some old => old
                   | None => header ++ nl
                   end ++ rowsText toFixed x rows)%string
         end
       else files st x.
Proof. apply flush_pointwise. Qed.

(** X9: collecting rows [r1], flushing, collecting rows [r2] and flushing
    again leaves the same buffers and the same files as collecting
    [r1 ++ r2] and flushing once: no row is lost or written twice and the
    header is written once.  With no rows at all: flushing twice is
    flushing once. *)
Theorem flush_in_batches (ASSETS : list asset) (st : state Spot) (a : asset)
        (r1 r2 : list (row Spot)) (x : asset) :
  let twice :=
    flushToCSV toFixed ASSETS
      (pushAll a r2 (flushToCSV toFixed ASSETS (pushAll a r1 st))) in
  let once := flushToCSV toFixed ASSETS (pushAll a (r1 ++ r2) st) in
  buffers twice x = buffers once x
  /\ files twice x = files once x.
Proof.
  cbv zeta.
  destruct (flush_pointwise ASSETS
              (pushAll a r2
                 (flushToCSV toFixed ASSETS (pushAll a r1 st))) x) as [-> ->].
  destruct (flush_pointwise ASSETS (pushAll a (r1 ++ r2) st) x)
    as [-> ->].
  destruct (pushAll_buffers a r2
              (flushToCSV toFixed ASSETS (pushAll a r1 st)) x) as [-> ->].
  destruct (pushAll_buffers a (r1 ++ r2) st x) as [-> ->].
  destruct (flush_pointwise ASSETS (pushAll a r1 st) x) as [-> ->].
  destruct (pushAll_buffers a r1 st x) as [-> ->].
  destruct (existsb (assetEqb x) ASSETS) eqn:M;
    destruct (assetEqb x a) eqn:E.
  - split; [reflexivity|]. cbn [app]. rewrite app_assoc.
    generalize (buffers st x ++ r1)%list. intros b1.
    destruct b1 as [|b bs], r2 as [|r' r2']; cbn [app];
      rewrite ?app_nil_r; try reflexivity.
    f_equal. rewrite TextFacts.append_assoc. f_equal.
    change (b :: bs ++ r' :: r2')%list with ((b :: bs) ++ r' :: r2')%list.
    now rewrite rowsText_app.
  - split; [reflexivity|].
    destruct (buffers st x); reflexivity.
  - split; [now rewrite app_assoc | reflexivity].
  - split; reflexivity.
Qed.

Lemma count_app (c : ascii) (s t : string) :
  count c (s ++ t)%string = (count c s + count c t)%nat.
Proof.
  induction s as [|x s IH]; [reflexivity|].
  simpl. rewrite IH. lia.
Qed.

Lemma count_cleanValue (c : ascii) (v : value) :
  match v with Some s => count c s = O | None => True end ->
  count c (cleanValue v) = O.
Proof.
  destruct v as [s|]; [|reflexivity]. simpl.
  intros H. now destruct (negb _ && negb _).
Qed.

(** X10: a row is written with as many columns as the header names:
    thirteen commas, when no field of the row holds a comma itself. *)
Theorem line_columns (a : asset) (r : row Spot) :
  Forall (fun v => match v with
                   | Some s => count "," s = O
                   | None => True
                   end)
    [m15_buy r; m15_sell r; m15_spread_up r;
     m15_spread_down r; h1_buy r; h1_sell r;
     h1_spread_up r; h1_spread_down r; daily_buy r;
     daily_sell r; daily_spread_up r; daily_spread_down r] ->
  count "," (row_timestamp r) = O ->
  (forall d, count "," (toFixed (spot_price r) d) = O) ->
  count "," (line toFixed a r) = count "," header
  /\ count "," header = 13%nat.
Proof.
  intros Hq Ht Hs. split; [|reflexivity].
  change (count "," header) with 13%nat.
  unfold Csv.line, Csv.fields, join.
  repeat match goal with
         | H : Forall _ (_ :: _) |- _ =>
             let H1 := fresh "V" in
             let H2 := fresh "F" in
             apply Forall_cons_iff in H as [H1 H2];
             apply count_cleanValue in H1
         end.
  rewrite !count_app, Ht, Hs, V, V0, V1, V2, V3, V4, V5, V6, V7, V8, V9, V10.
  reflexivity.
Qed.

End CsvFacts.

Lemma line_columns_example :
  Csv.count ","
    (Csv.line (fun (p : Z) (d : Z) => Text.showZ p) XRP
       {| Csv.row_timestamp := "2025-11-02T08:47:00.000Z";
          Csv.spot_price := 2;
          Csv.m15_buy := Some "0.52"%string;
          Csv.m15_sell := Some "0.49"%string;
          Csv.m15_spread_up := Some "NaN"%string;
          Csv.m15_spread_down := None;
          Csv.h1_buy := Some EmptyString; Csv.h1_sell := None;
          Csv.h1_spread_up := None; Csv.h1_spread_down := None;
          Csv.daily_buy := None; Csv.daily_sell := None;
          Csv.daily_spread_up := None; Csv.daily_spread_down := None |})
  = Csv.count "," Csv.header
  /\ Csv.count "," Csv.header = 13%nat.
Proof.
  apply (line_columns Z (fun (p : Z) (d : Z) => Text.showZ p) XRP).
  - repeat constructor.
  - reflexivity.
  - intros d. reflexivity.
Defined.

(** ** The market table *)

Section MarketFacts.
Import Markets.
Variable Info : Type.


Lemma refreshes_cons (old n : option (market Info)) (news : list (option (market Info))) :
  refreshes old (n :: news)
  = refreshes (update old n) news.
Proof. reflexivity. Qed.

(** X11: over any series of refreshes an entry of [MARKETS], once set, is
    never cleared; the entry kept is the old one or one of those found;
    and as long as every market found bears the slug of the stored entry
    the stored object stays, with the title, token ids and start it was
    stored with. *)
Theorem refreshes_keep (news : list (option (market Info))) (old : option (market Info)) :
  (old <> None -> refreshes old news <> None)
  /\ (refreshes old news = old \/ In (refreshes old news) news)
  /\ (forall o,
         old = Some o ->
         (forall n, In (Some n) news -> slug n = slug o) ->
         refreshes old news = Some o).
Proof.
  revert old. induction news as [|n news IH]; intros old.
  - simpl. repeat split; auto.
  - rewrite refreshes_cons.
    destruct (IH (update old n)) as (K1 & K2 & K3).
    split; [|split].
    + intros H. apply K1.
      destruct old as [o|]; [|contradiction].
      destruct n as [n|]; simpl; [|discriminate].
      destruct (negb _); discriminate.
    + destruct K2 as [E | I]; [|right; now right].
      rewrite E. clear.
      destruct old as [o|], n as [n|]; simpl; auto.
      destruct (negb _); auto.
    + intros o Ho Hs. subst old. apply K3.
      * destruct n as [n|]; simpl; [|reflexivity].
        rewrite (Hs n (or_introl eq_refl)), String.eqb_refl. reflexivity.
      * intros n' Hn'. apply Hs. now right.
Qed.

End MarketFacts.

Lemma refreshes_keep_example :
  Markets.refreshes
    (Some {| Markets.slug := "btc-updown-15m-1762105800";
             Markets.info := [] |})
    [None;
     Some {| Markets.slug := "btc-updown-15m-1762105800";
             Markets.info := ["1"; "2"]%string |}]
  = Some {| Markets.slug := "btc-updown-15m-1762105800";
            Markets.info := [] |}.
Proof.
  apply (proj2 (proj2 (refreshes_keep (list string)
                         [None;
                          Some {| Markets.slug := "btc-updown-15m-1762105800";
                                  Markets.info := ["1"; "2"]%string |}]
                         (Some {| Markets.slug := "btc-updown-15m-1762105800";
                                  Markets.info := [] |})))).
  - reflexivity.
  - intros n [H | [H | []]]; [discriminate|]. now inversion H.
Defined.

(** ** The m15 pass of the Scrapper generation *)

Section ScrapperPass.
Variable rt : Runtime.

Lemma scrapper_decodeUnix_m15 (n ds : string) :
  Scrapper.decodeUnix [n; "15m"%string; ds]
  = Some {| timeframe_of := m15;
            timestamp := ES.TimeClip (Text.parseInt ds * 1000) |}.
Proof. reflexivity. Qed.

(** An instant read four or five hours after its UTC fields shows an
    earlier civil hour than any local time less than a quarter hour
    behind those fields. *)
Lemma earlier_hour (l c off : Z) :
  off = -240 \/ off = -300 ->
  c < l + 15 * ES.msPerMinute ->
  let lt := c + off * ES.msPerMinute in
  (l <? lt - lt mod ES.msPerHour + ES.msPerHour) = false.
Proof.
  intros Hoff Hc. cbv zeta. apply Z.ltb_ge.
  destruct Hoff as [-> | ->];
    unfold ES.msPerHour, ES.msPerMinute in *; Z.div_mod_to_equations; lia.
Qed.

(** X12: in the Scrapper generation the m15 pass never reports
    containment: the decoder reads the identifier its own encoder writes
    (civil fields taken as a UTC clock time) as an instant, whose civil
    hour lies three to five hours before that of [now]. *)
Theorem scrapper_m15_never_contained (a : asset) (now : Z) :
  inFourDigitEra now ->
  0 <= nyLocal rt now ->
  plainHour rt (nyLocal rt now) ->
  exists m b,
    Text.search (Grammar.unixPattern a)
      (ScrapperCodec.generateExpectedSlug rt a m15 now) = Some m
    /\ Scrapper.decodeUnix m
       = Some {| timeframe_of := m15; timestamp := Some b |}
    /\ Logger.isActiveMarket rt
         (Some {| timeframe_of := m15; timestamp := Some b |}) a m15 now
       = Ret (false, Some (Some b)).
Proof.
  intros Hera Hpos Hh.
  set (l := nyLocal rt now) in *.
  pose proof (quarterCeiling_spec l) as (Hq & Hlo & Hhi).
  set (c := quarterCeiling l) in *.
  assert (Hc0 : 0 <= c)
    by (unfold ES.msPerMinute in *; Z.div_mod_to_equations; lia).
  assert (Hc1000 : c / 1000 * 1000 = c)
    by (unfold ES.msPerMinute in *; Z.div_mod_to_equations; lia).
  assert (Hs : 0 <= c / 1000) by (Z.div_mod_to_equations; lia).
  assert (Hc15 : c < l + 15 * ES.msPerMinute)
    by (unfold ES.msPerMinute in *; Z.div_mod_to_equations; lia).
  destruct (showZ_spec (c / 1000) Hs) as (Hparse & Hdig & Hne).
  exists [shortName a; "15m"%string; Text.showZ (c / 1000)], c.
  split; [|split].
  - rewrite (scrapper_m15_slug rt a now Hera Hh). fold l c.
    now apply search_unix_encoded.
  - rewrite scrapper_decodeUnix_m15, Hparse, Hc1000.
    pose proof (quarterCeiling_clip rt now Hera) as QC. fold l c in QC.
    now rewrite QC.
  - rewrite (isActiveMarket_fields rt
               {| timeframe_of := m15; timestamp := Some c |}
               a m15 now c eq_refl).
    cbv zeta. fold l.
    pose proof (local_year_range rt now Hera) as Yn. fold l in Yn.
    pose proof (nyLocal_range rt now Hera) as Rl. fold l in Rl.
    assert (Hlt : nyLocal rt c = c + nyOffsetMin rt c * ES.msPerMinute)
      by reflexivity.
    pose proof (nyOffsetMin_cases rt c) as Hoff.
    assert (Yt : 1 <= ES.YearFromTime (nyLocal rt c)).
    { unfold ES.YearFromTime.
      assert (R : -1 <= ES.Day (nyLocal rt c) <= 2932896).
      { rewrite Hlt. destruct Hoff as [-> | ->];
          unfold ES.Day, ES.msPerDay, ES.msPerMinute in *;
          Z.div_mod_to_equations; lia. }
      pose proof (year_of_day_range _ R). lia. }
    rewrite civil_eqb_day by lia.
    rewrite cycleHour_eqb by apply hour_range.
    rewrite hour_window_arith, Hlt.
    rewrite (earlier_hour l c (nyOffsetMin rt c) Hoff Hc15).
    now rewrite andb_false_r.
Qed.

End ScrapperPass.

Lemma scrapper_m15_never_contained_example :
  exists m b,
    Text.search (Grammar.unixPattern BTC)
      (ScrapperCodec.generateExpectedSlug nodeUTC BTC m15 1762127220000)
    = Some m
    /\ Scrapper.decodeUnix m
       = Some {| timeframe_of := m15; timestamp := Some b |}
    /\ Logger.isActiveMarket nodeUTC
         (Some {| timeframe_of := m15; timestamp := Some b |}) BTC m15
         1762127220000
       = Ret (false, Some (Some b)).
Proof.
  apply (scrapper_m15_never_contained nodeUTC BTC 1762127220000).
  - unfold inFourDigitEra. lia.
  - vm_compute. discriminate.
  - left. reflexivity.
Defined.

(** ** Containment in the first generation *)

Section FirstGenFacts.
Variable rt : Runtime.

Lemma year_pos (x : Z) :
  - ES.msPerDay <= x < 253402300800000 -> 1 <= ES.YearFromTime x.
Proof.
  intros H. unfold ES.YearFromTime.
  assert (R : -1 <= ES.Day x <= 2932896)
    by (unfold ES.Day, ES.msPerDay in *; Z.div_mod_to_equations; lia).
  pose proof (year_of_day_range _ R). lia.
Qed.

Lemma hour_eqb_arith (la lm : Z) :
  (ES.Day la =? ES.Day lm) && (ES.HourFromTime la =? ES.HourFromTime lm)
  = (la / ES.msPerHour =? lm / ES.msPerHour).
Proof.
  apply eq_true_iff_eq. rewrite andb_true_iff, !Z.eqb_eq.
  unfold ES.Day, ES.HourFromTime, ES.msPerDay, ES.msPerHour.
  split; intros H; Z.div_mod_to_equations; lia.
Qed.

Lemma minute_eqb_arith (la lm : Z) :
  (la / ES.msPerHour =? lm / ES.msPerHour)
  && (ES.MinFromTime la =? ES.MinFromTime lm)
  = (la / ES.msPerMinute =? lm / ES.msPerMinute).
Proof.
  apply eq_true_iff_eq. rewrite andb_true_iff, !Z.eqb_eq.
  unfold ES.MinFromTime, ES.msPerHour, ES.msPerMinute.
  split; intros H; Z.div_mod_to_equations; lia.
Qed.

Lemma shifted_minute (b off : Z) :
  off = -240 \/ off = -300 ->
  (b + off * ES.msPerMinute) / ES.msPerMinute <> b / ES.msPerMinute.
Proof.
  intros [-> | ->]; unfold ES.msPerMinute; Z.div_mod_to_equations; lia.
Qed.

Lemma firstGen_isActiveMarket_fields (pr : parsed) (tf : timeframe)
      (now b ts : Z) :
  Bougie.getActiveBougie rt tf now = Some b ->
  timestamp pr = Some ts ->
  let la := nyLocal rt b in
  let lm := nyLocal rt ts in
  let civil :=
    (eraYear (ES.YearFromTime la) =? eraYear (ES.YearFromTime lm))
    && (ES.MonthFromTime la + 1 =? ES.MonthFromTime lm + 1)
    && (ES.DateFromTime la =? ES.DateFromTime lm) in
  let hour :=
    cycleHour rt (ES.HourFromTime la) =? cycleHour rt (ES.HourFromTime lm) in
  FirstGenWindow.isActiveMarket rt (Some pr) tf now
  = Ret (match tf with
         | m15 => civil && hour
                  && (ES.MinFromTime la =? ES.MinFromTime lm)
         | h1 => civil && hour
         | daily => civil
         end).
Proof.
  intros Hb Ht. unfold FirstGenWindow.isActiveMarket. rewrite Hb, Ht.
  destruct tf; reflexivity.
Qed.

(** X13: containment in the first generation.  The boundary that
    [getActiveBougie] returns (civil fields taken as a UTC clock time) is
    formatted in the reference zone once more before it is compared: for
    m15 and h1 the market's civil timestamp must equal, to the minute or to
    the hour, the candle's end moved four or five hours back, so a market
    whose civil timestamp is that end itself is not active; for daily the
    shifted boundary stays on the civil day of [now] and the test is that
    the market's timestamp lies on that day. *)
Theorem firstGen_containment (pr : parsed) (now ts : Z) :
  timestamp pr = Some ts ->
  inFourDigitEra now -> inFourDigitEra ts ->
  plainHour rt (nyLocal rt now) ->
  exists b15 b60,
    Bougie.getActiveBougie rt m15 now = Some b15
    /\ Bougie.getActiveBougie rt h1 now = Some b60
    /\ FirstGenWindow.isActiveMarket rt (Some pr) m15 now
       = Ret (nyLocal rt b15 / ES.msPerMinute
              =? nyLocal rt ts / ES.msPerMinute)
    /\ FirstGenWindow.isActiveMarket rt (Some pr) h1 now
       = Ret (nyLocal rt b60 / ES.msPerHour
              =? nyLocal rt ts / ES.msPerHour)
    /\ FirstGenWindow.isActiveMarket rt (Some pr) daily now
       = Ret (ES.Day (nyLocal rt now) =? ES.Day (nyLocal rt ts))
    /\ (nyLocal rt ts / ES.msPerMinute = b15 / ES.msPerMinute ->
        FirstGenWindow.isActiveMarket rt (Some pr) m15 now = Ret false).
Proof.
  intros Ht Hnow Hts Hh.
  set (l := nyLocal rt now).
  pose proof (nyLocal_range rt now Hnow) as Rl. fold l in Rl.
  pose proof (nyLocal_range rt ts Hts) as Rt.
  pose proof (local_year_range rt now Hnow) as Yl. fold l in Yl.
  assert (Yl' : 1000 <= ES.YearFromTime l <= 9999) by lia.
  pose proof (local_year_range rt ts Hts) as Yt.
  pose proof (quarterCeiling_spec l) as (_ & Qlo & Qhi).
  pose proof (getActiveBougie_m15 rt now Hnow Hh) as B15. fold l in B15.
  set (b15 := quarterCeiling l) in *.
  set (b60 := l - l mod ES.msPerHour + ES.msPerHour).
  set (b24 := l - l mod ES.msPerDay + 23 * ES.msPerHour
              + 59 * ES.msPerMinute).
  pose proof (DateUTC_civil l 0) as U. rewrite !Z.add_0_r in U.
  assert (B60 : Bougie.getActiveBougie rt h1 now = Some b60).
  { rewrite getActiveBougie_fields. cbv zeta. fold l.
    rewrite cycleHour_plain by assumption. rewrite U by assumption.
    replace (ES.MakeDate (ES.Day l)
               (ES.MakeTime (ES.HourFromTime l + 1) 0 0 0)) with b60.
    - apply (in_range_clip l); [assumption|]. subst b60.
      unfold ES.msPerDay, ES.msPerHour. Z.div_mod_to_equations. lia.
    - subst b60.
      unfold ES.MakeDate, ES.MakeTime, ES.Day, ES.HourFromTime,
        ES.msPerDay, ES.msPerHour, ES.msPerMinute, ES.msPerSecond.
      Z.div_mod_to_equations. lia. }
  assert (B24 : Bougie.getActiveBougie rt daily now = Some b24).
  { rewrite getActiveBougie_fields. cbv zeta. fold l.
    rewrite U by assumption.
    replace (ES.MakeDate (ES.Day l) (ES.MakeTime 23 59 0 0)) with b24.
    - apply (in_range_clip l); [assumption|]. subst b24.
      unfold ES.msPerDay, ES.msPerHour, ES.msPerMinute.
      Z.div_mod_to_equations. lia.
    - subst b24.
      unfold ES.MakeDate, ES.MakeTime, ES.Day, ES.msPerDay,
        ES.msPerHour, ES.msPerMinute, ES.msPerSecond.
      Z.div_mod_to_equations. lia. }
  assert (Y15 : 1 <= ES.YearFromTime (nyLocal rt b15)).
  { apply year_pos. unfold nyLocal.
    destruct (nyOffsetMin_cases rt b15) as [-> | ->];
      unfold ES.msPerDay, ES.msPerMinute in *;
      Z.div_mod_to_equations; lia. }
  assert (Y60 : 1 <= ES.YearFromTime (nyLocal rt b60)).
  { apply year_pos. unfold nyLocal. subst b60.
    destruct (nyOffsetMin_cases rt (l - l mod ES.msPerHour + ES.msPerHour))
      as [-> | ->];
      unfold ES.msPerDay, ES.msPerHour, ES.msPerMinute in *;
      Z.div_mod_to_equations; lia. }
  assert (D24 : ES.Day (nyLocal rt b24) = ES.Day l).
  { unfold nyLocal. subst b24.
    destruct (nyOffsetMin_cases rt
                (l - l mod ES.msPerDay + 23 * ES.msPerHour
                 + 59 * ES.msPerMinute)) as [-> | ->];
      unfold ES.Day, ES.msPerDay, ES.msPerHour, ES.msPerMinute;
      Z.div_mod_to_equations; lia. }
  assert (Y24 : 1 <= ES.YearFromTime (nyLocal rt b24))
    by (unfold ES.YearFromTime in *; rewrite D24; lia).
  assert (A15 : FirstGenWindow.isActiveMarket rt (Some pr) m15 now
                = Ret (nyLocal rt b15 / ES.msPerMinute
                       =? nyLocal rt ts / ES.msPerMinute)).
  { rewrite (firstGen_isActiveMarket_fields pr m15 now b15 ts B15 Ht).
    cbv zeta. rewrite civil_eqb_day by lia.
    rewrite cycleHour_eqb by apply hour_range.
    now rewrite hour_eqb_arith, minute_eqb_arith. }
  exists b15, b60. repeat split; try assumption.
  - rewrite (firstGen_isActiveMarket_fields pr h1 now b60 ts B60 Ht).
    cbv zeta. rewrite civil_eqb_day by lia.
    rewrite cycleHour_eqb by apply hour_range.
    now rewrite hour_eqb_arith.
  - rewrite (firstGen_isActiveMarket_fields pr daily now b24 ts B24 Ht).
    cbv zeta. rewrite civil_eqb_day by lia. now rewrite D24.
  - intros E. rewrite A15. f_equal. apply Z.eqb_neq. rewrite E.
    apply shifted_minute, nyOffsetMin_cases.
Qed.

End FirstGenFacts.

Lemma firstGen_containment_example :
  exists b15 b60,
    Bougie.getActiveBougie nodeUTC m15 1762127220000 = Some b15
    /\ Bougie.getActiveBougie nodeUTC h1 1762127220000 = Some b60
    /\ FirstGenWindow.isActiveMarket nodeUTC
         (Some {| timeframe_of := m15; timestamp := Some 1762128000000 |})
         m15 1762127220000
       = Ret (nyLocal nodeUTC b15 / ES.msPerMinute
              =? nyLocal nodeUTC 1762128000000 / ES.msPerMinute)
    /\ FirstGenWindow.isActiveMarket nodeUTC
         (Some {| timeframe_of := m15; timestamp := Some 1762128000000 |})
         h1 1762127220000
       = Ret (nyLocal nodeUTC b60 / ES.msPerHour
              =? nyLocal nodeUTC 1762128000000 / ES.msPerHour)
    /\ FirstGenWindow.isActiveMarket nodeUTC
         (Some {| timeframe_of := m15; timestamp := Some 1762128000000 |})
         daily 1762127220000
       = Ret (ES.Day (nyLocal nodeUTC 1762127220000)
              =? ES.Day (nyLocal nodeUTC 1762128000000))
    /\ (nyLocal nodeUTC 1762128000000 / ES.msPerMinute
        = b15 / ES.msPerMinute ->
        FirstGenWindow.isActiveMarket nodeUTC
          (Some {| timeframe_of := m15; timestamp := Some 1762128000000 |})
          m15 1762127220000
        = Ret false).
Proof.
  apply (firstGen_containment nodeUTC
           {| timeframe_of := m15; timestamp := Some 1762128000000 |}
           1762127220000 1762128000000).
  - reflexivity.
  - unfold inFourDigitEra. lia.
  - unfold inFourDigitEra. lia.
  - left. reflexivity.
Defined.

(** ** Year inference of the text grammars, by generation *)

Module TextCaptures.
Import Text TextFacts Grammar GrammarFacts.
Local Open Scope string_scope.

(** Shape of the captures of the two text patterns. *)
Lemma daily_captures a w cs :
  derives (dailyPattern a) w cs ->
  exists nm mon ds, cs = [nm; mon; ds] /\ allClass Digit ds = true.
Proof.
  unfold dailyPattern, assetAlt, seq. intros D. inv_derives;
    (eexists _, _, _; split; [reflexivity | assumption]).
Qed.

Lemma h1_captures a w cs :
  derives (h1Pattern a) w cs ->
  exists nm mon ds hs ap,
    cs = [nm; mon; ds; hs; ap]
    /\ allClass Digit ds = true /\ allClass Digit hs = true.
Proof.
  unfold h1Pattern, assetAlt, seq. intros D. inv_derives;
    (eexists _, _, _, _, _; split; [reflexivity | split; assumption]).
Qed.

Lemma search_daily_day a slug m :
  search (dailyPattern a) slug = Some m -> 0 <= parseInt (cap 3 m).
Proof.
  intros H. destruct (search_sound _ _ _ H) as (pre & w & post & _ & D).
  destruct (daily_captures _ _ _ D) as (nm & mon & ds & -> & Hd).
  apply parseDigits_nonneg; [exact Hd | lia].
Qed.

Lemma hour24_nonneg (n : Z) (ap : string) :
  0 <= n -> 0 <= Logger.hour24 n ap.
Proof.
  intros H. unfold Logger.hour24.
  destruct (String.eqb ap "pm" && (n <? 12)%Z);
    destruct (String.eqb ap "am" && (_ =? 12)%Z); lia.
Qed.

Lemma search_h1_day_hour a slug m :
  search (h1Pattern a) slug = Some m ->
  0 <= parseInt (cap 3 m)
  /\ 0 <= Logger.hour24 (parseInt (cap 4 m)) (cap 5 m).
Proof.
  intros H. destruct (search_sound _ _ _ H) as (pre & w & post & _ & D).
  destruct (h1_captures _ _ _ D) as (nm & mon & ds & hs & ap & -> & Hd & Hh).
  split; [apply parseDigits_nonneg; [exact Hd | lia]|].
  apply hour24_nonneg. apply parseDigits_nonneg; [exact Hh | lia].
Qed.

End TextCaptures.

Section DialFacts.

Lemma candidate_floor (y mo d h : Z) :
  1969 <= y -> 1 <= mo <= 12 -> 0 <= d -> 0 <= h ->
  -366 * ES.msPerDay
  <= ES.MakeDate (ES.MakeDay y (mo - 1) d) (ES.MakeTime h 0 0 0).
Proof.
  intros Hy Hmo Hd Hh. rewrite MakeDay_month by assumption.
  rewrite daysFromCivil_unfold. cbv zeta.
  unfold ES.MakeDate, ES.MakeTime, ES.msPerDay, ES.msPerHour.
  destruct (Z.leb_spec mo 2); Z.div_mod_to_equations; nia.
Qed.

Lemma dial12_range (h : Z) : 1 <= Scrapper.dial12 h <= 12.
Proof.
  unfold Scrapper.dial12.
  destruct (Z.eqb_spec (h mod 12) 0); Z.div_mod_to_equations; lia.
Qed.

(** The clock as the text branches take it: the civil date with the hour
    of the 12-hour dial. *)
Lemma dial_reading (l : Z) :
  let n := ES.MakeDate (ES.Day l)
             (ES.MakeTime (Scrapper.dial12 (ES.HourFromTime l))
                (ES.MinFromTime l) (ES.SecFromTime l) 0) in
  ES.Day l * ES.msPerDay < n < (ES.Day l + 1) * ES.msPerDay
  /\ (1 <= ES.HourFromTime l <= 12 -> n = l - l mod ES.msPerSecond)
  /\ (13 <= ES.HourFromTime l ->
      n = l - l mod ES.msPerSecond - 12 * ES.msPerHour)
  /\ (ES.HourFromTime l = 0 ->
      n = l - l mod ES.msPerSecond + 12 * ES.msPerHour).
Proof.
  cbv zeta. pose proof (dial12_range (ES.HourFromTime l)) as Hd.
  pose proof (hour_range l) as Hh. pose proof (minute_range l) as Hm.
  assert (Hs : 0 <= ES.SecFromTime l <= 59)
    by (unfold ES.SecFromTime; Z.div_mod_to_equations; lia).
  pose proof (time_fields l) as F.
  assert (Hms : ES.msFromTime l = l mod ES.msPerSecond) by reflexivity.
  assert (H12 : ES.HourFromTime l = 0 \/ 1 <= ES.HourFromTime l <= 11
                \/ ES.HourFromTime l = 12 \/ 13 <= ES.HourFromTime l)
    by lia.
  assert (E : (ES.HourFromTime l = 0 -> Scrapper.dial12 (ES.HourFromTime l) = 12)
              /\ (13 <= ES.HourFromTime l ->
                  Scrapper.dial12 (ES.HourFromTime l)
                  = ES.HourFromTime l - 12)
              /\ (1 <= ES.HourFromTime l <= 12 ->
                  Scrapper.dial12 (ES.HourFromTime l) = ES.HourFromTime l)).
  { unfold Scrapper.dial12.
    destruct (Z.eqb_spec (ES.HourFromTime l mod 12) 0);
      repeat split; intros; Z.div_mod_to_equations; lia. }
  destruct E as (E0 & E13 & E1).
  assert (Hmsr : 0 <= l mod ES.msPerSecond < 1000)
    by (unfold ES.msPerSecond; Z.div_mod_to_equations; lia).
  unfold ES.MakeDate, ES.MakeTime, ES.msPerDay, ES.msPerHour,
    ES.msPerMinute in *.
  rewrite Hms in F.
  set (hh := ES.HourFromTime l) in *. set (dd := Scrapper.dial12 hh) in *.
  set (mi := ES.MinFromTime l) in *. set (ss := ES.SecFromTime l) in *.
  set (r := l mod ES.msPerSecond) in *. set (day := ES.Day l) in *.
  unfold ES.msPerSecond in *.
  clearbody hh dd mi ss r day.
  repeat split; intros; lia.
Qed.

End DialFacts.

Section ScrapperYear.
Variable rt : Runtime.
Variable k : Z.
(** The host keeps a fixed offset [k] from UTC, of a day at most. *)
Hypothesis host_utc : forall x, hostUTC rt x = x - k.
Hypothesis k_small : Z.abs k <= ES.msPerDay.

Lemma dateLt_shift (c n : Z) :
  -366 * ES.msPerDay <= c ->
  - ES.msPerDay <= n <= 253402300800000 + ES.msPerDay ->
  Scrapper.dateLt (ES.TimeClip (c - k)) (ES.TimeClip (n - k)) = (c <? n).
Proof.
  intros Hc Hn. pose proof k_small as Hk.
  unfold ES.TimeClip, ES.maxTime, ES.msPerDay in *.
  replace (Z.abs (n - k) <=? 8640000000000000) with true
    by (symmetry; apply Z.leb_le; lia).
  destruct (Z.abs (c - k) <=? 8640000000000000) eqn:E; simpl.
  - destruct (Z.ltb_spec (c - k) (n - k)); destruct (Z.ltb_spec c n);
      reflexivity || lia.
  - apply Z.leb_gt in E. symmetry. apply Z.ltb_ge. lia.
Qed.

Lemma scrapper_inferYear_fixed (clock mo d h : Z) :
  inFourDigitEra clock -> 1 <= mo <= 12 -> 0 <= d -> 0 <= h ->
  let l := nyLocal rt clock in
  Scrapper.inferYear rt (Scrapper.localeParts rt clock) mo d h
  = if ES.MakeDate (ES.MakeDay (ES.YearFromTime l) (mo - 1) d)
                   (ES.MakeTime h 0 0 0)
       <? ES.MakeDate (ES.Day l)
            (ES.MakeTime (Scrapper.dial12 (ES.HourFromTime l))
               (ES.MinFromTime l) (ES.SecFromTime l) 0)
    then ES.YearFromTime l + 1 else ES.YearFromTime l.
Proof.
  intros Hera Hmo Hd Hh l.
  pose proof (local_year_range rt clock Hera) as Hy. fold l in Hy.
  pose proof (nyLocal_range rt clock Hera) as Hl. fold l in Hl.
  unfold Scrapper.inferYear, Scrapper.localeParts. fold l.
  cbn [Scrapper.rYear Scrapper.rMonth Scrapper.rDay Scrapper.rHour
       Scrapper.rMinute Scrapper.rSecond].
  unfold dateLocal, Scrapper.dateLocalHMS. rewrite !host_utc.
  rewrite eraYear_id by lia. rewrite fullYear_id by lia.
  rewrite civil_rebuild.
  pose proof (dial_reading l) as (Hn & _). cbv zeta in Hn.
  rewrite dateLt_shift; [reflexivity | apply candidate_floor; lia |].
  unfold ES.Day, ES.msPerDay in *. Z.div_mod_to_equations. lia.
Qed.

Lemma scrapper_parse_daily (clock : Z) (slug : string) (a : asset)
      (m : list string) (mo : Z) :
  Text.search (Grammar.unixPattern a) slug = None ->
  Text.search (Grammar.dailyPattern a) slug = Some m ->
  Grammar.MONTHS (cap 2 m) = Grammar.MonthNum mo ->
  let d := Text.parseInt (cap 3 m) in
  let y := Scrapper.inferYear rt (Scrapper.localeParts rt clock) mo d 0 in
  Scrapper.parseSlug rt clock slug a
  = (offset <- probeOffset rt (dateLocal rt y (mo - 1) d 0) ;;
     Ret (Some {| timeframe_of := daily;
                  timestamp := dateFromISO rt y mo d 0 0 0 offset |})).
Proof.
  intros Hu Hd Hm. unfold Scrapper.parseSlug. rewrite Hu, Hd.
  unfold Scrapper.decodeDaily. rewrite Hm. reflexivity.
Qed.

Lemma scrapper_parse_h1 (clock : Z) (slug : string) (a : asset)
      (m : list string) (mo : Z) :
  Text.search (Grammar.unixPattern a) slug = None ->
  Text.search (Grammar.dailyPattern a) slug = None ->
  Text.search (Grammar.h1Pattern a) slug = Some m ->
  Grammar.MONTHS (cap 2 m) = Grammar.MonthNum mo ->
  let d := Text.parseInt (cap 3 m) in
  let h := Logger.hour24 (Text.parseInt (cap 4 m)) (cap 5 m) in
  let y := Scrapper.inferYear rt (Scrapper.localeParts rt clock) mo d h in
  Scrapper.parseSlug rt clock slug a
  = (offset <- probeOffset rt (dateLocal rt y (mo - 1) d h) ;;
     Ret (Some {| timeframe_of := h1;
                  timestamp := dateFromISO rt y mo d h 0 0 offset |})).
Proof.
  intros Hu Hd Hh Hm. unfold Scrapper.parseSlug. rewrite Hu, Hd, Hh.
  unfold Scrapper.decodeH1. rewrite Hm. reflexivity.
Qed.

End ScrapperYear.




(** X14: how the Scrapper generation reads the clock for the year of a
    text slug.  On a host at a fixed offset from UTC of a day at most, for
    a clock between 1970 and 9999, next year is taken exactly when the
    slug's date in the current year (at 00:00 for a daily slug, at the
    slug's hour for an hourly one) is strictly earlier than the civil date
    of the clock at the hour shown on the 12-hour dial; that reading is
    the civil time from 01:00 to 12:59, twelve hours behind it from 13:00
    on, and twelve hours ahead of it in the hour after midnight. *)
Theorem scrapper_year_reads_dial
        (rt : Runtime) (k : Z) (clock : Z) (slug : string) (a : asset)
        (m : list string) (monthNum : Z) :
  (forall x, hostUTC rt x = x - k) ->
  Z.abs k <= ES.msPerDay ->
  inFourDigitEra clock ->
  Text.search (Grammar.unixPattern a) slug = None ->
  Grammar.MONTHS (cap 2 m) = Grammar.MonthNum monthNum ->
  let l := nyLocal rt clock in
  let civil := l - l mod ES.msPerSecond in
  let dial := ES.MakeDate (ES.Day l)
                (ES.MakeTime (Scrapper.dial12 (ES.HourFromTime l))
                   (ES.MinFromTime l) (ES.SecFromTime l) 0) in
  let dayNum := Text.parseInt (cap 3 m) in
  let yearOf (hourNum : Z) :=
    if ES.MakeDate (ES.MakeDay (ES.YearFromTime l) (monthNum - 1) dayNum)
                   (ES.MakeTime hourNum 0 0 0) <? dial
    then ES.YearFromTime l + 1 else ES.YearFromTime l in
  (Text.search (Grammar.dailyPattern a) slug = Some m ->
   Scrapper.parseSlug rt clock slug a
   = (offset <- probeOffset rt
                  (dateLocal rt (yearOf 0) (monthNum - 1) dayNum 0) ;;
      Ret (Some {| timeframe_of := daily;
                   timestamp := dateFromISO rt (yearOf 0) monthNum dayNum
                                            0 0 0 offset |})))
  /\ (Text.search (Grammar.dailyPattern a) slug = None ->
      Text.search (Grammar.h1Pattern a) slug = Some m ->
      let hourNum := Logger.hour24 (Text.parseInt (cap 4 m)) (cap 5 m) in
      Scrapper.parseSlug rt clock slug a
      = (offset <- probeOffset rt
                     (dateLocal rt (yearOf hourNum) (monthNum - 1) dayNum
                        hourNum) ;;
         Ret (Some {| timeframe_of := h1;
                      timestamp := dateFromISO rt (yearOf hourNum) monthNum
                                     dayNum hourNum 0 0 offset |})))
  /\ (1 <= ES.HourFromTime l <= 12 -> dial = civil)
  /\ (13 <= ES.HourFromTime l -> dial = civil - 12 * ES.msPerHour)
  /\ (ES.HourFromTime l = 0 -> dial = civil + 12 * ES.msPerHour).
Proof.
  intros Hhost Hk Hera Hu Hm l civil dial dayNum yearOf.
  pose proof (MONTHS_range _ _ Hm) as Hmo.
  pose proof (dial_reading l) as (_ & H1 & H13 & H0).
  cbv zeta in H1, H13, H0.
  split; [|split; [|repeat split; assumption]].
  - intros Hd.
    rewrite (scrapper_parse_daily rt clock slug a m monthNum Hu Hd Hm).
    cbv zeta. fold dayNum.
    rewrite (scrapper_inferYear_fixed rt k Hhost Hk clock monthNum dayNum 0
               Hera Hmo (TextCaptures.search_daily_day _ _ _ Hd)
               ltac:(lia)).
    reflexivity.
  - intros Hd Hh hourNum.
    rewrite (scrapper_parse_h1 rt clock slug a m monthNum Hu Hd Hh Hm).
    cbv zeta. fold dayNum. fold hourNum.
    destruct (TextCaptures.search_h1_day_hour _ _ _ Hh) as [H0d H0h].
    rewrite (scrapper_inferYear_fixed rt k Hhost Hk clock monthNum dayNum
               hourNum Hera Hmo H0d H0h).
    reflexivity.
Qed.

(** Read at 18:47 ET on 2 November 2025 the dial shows 6:47: the hourly
    slug of 7 am of that day, nearly twelve hours past, is taken in
    2025. *)
Lemma scrapper_year_reads_dial_example :
  Scrapper.parseSlug nodeUTC 1762127220000
                     "bitcoin-up-or-down-november-2-7am-et" BTC
  = Ret (Some {| timeframe_of := h1; timestamp := Some 1762084800000 |}).
Proof.
  assert (Hk : Z.abs 0 <= ES.msPerDay) by (vm_compute; discriminate).
  assert (He : inFourDigitEra 1762127220000)
    by (unfold inFourDigitEra; lia).
  exact (proj1 (proj2 (scrapper_year_reads_dial nodeUTC 0 1762127220000
                  "bitcoin-up-or-down-november-2-7am-et" BTC
                  ["bitcoin"; "november"; "2"; "7"; "am"]%string 11
                  (fun x => eq_sym (Z.sub_0_r x)) Hk He eq_refl eq_refl))
               eq_refl eq_refl).
Defined.

(** ** Dependence of decode on the clock, by generation *)

Section ClockReading.
Variable rt : Runtime.

Lemma fields_of_second (l1 l2 : Z) :
  l1 / ES.msPerSecond = l2 / ES.msPerSecond ->
  ES.Day l1 = ES.Day l2
  /\ ES.HourFromTime l1 = ES.HourFromTime l2
  /\ ES.MinFromTime l1 = ES.MinFromTime l2
  /\ ES.SecFromTime l1 = ES.SecFromTime l2.
Proof.
  unfold ES.Day, ES.HourFromTime, ES.MinFromTime, ES.SecFromTime,
    ES.msPerDay, ES.msPerHour, ES.msPerMinute, ES.msPerSecond.
  intros H. repeat split; Z.div_mod_to_equations; lia.
Qed.

Lemma localeParts_of_second (clock1 clock2 : Z) :
  nyLocal rt clock1 / ES.msPerSecond = nyLocal rt clock2 / ES.msPerSecond ->
  Scrapper.localeParts rt clock1 = Scrapper.localeParts rt clock2.
Proof.
  intros H. destruct (fields_of_second _ _ H) as (Hd & Hh & Hm & Hs).
  unfold Scrapper.localeParts. cbv zeta.
  unfold ES.MonthFromTime, ES.DateFromTime, ES.YearFromTime.
  now rewrite Hd, Hh, Hm, Hs.
Qed.

Lemma scrapper_parse_reading (slug : string) (a : asset)
      (clock1 clock2 : Z) :
  Scrapper.localeParts rt clock1 = Scrapper.localeParts rt clock2 ->
  Scrapper.parseSlug rt clock1 slug a = Scrapper.parseSlug rt clock2 slug a.
Proof.
  intros H. unfold Scrapper.parseSlug, Scrapper.decodeDaily,
              Scrapper.decodeH1. cbv zeta.
  now rewrite H.
Qed.

End ClockReading.

(** C7 (amended): decode reads the wall clock, and how much of it depends
    on the generation.  In the current generation the result is a function
    of the identifier, the asset and the civil date shown by the clock in
    the reference zone.  In the Scrapper generation it is a function of
    the identifier, the asset and the clock as [toLocaleString] prints it
    (civil date, hour on the 12-hour dial, minute, second), hence the same
    for two clocks that show the same civil date and time to the second;
    the civil date alone does not determine it.  In both, an identifier
    that the epoch grammar matches is decoded alike at every clock
    reading. *)
Theorem C7_decode_clock_dependence
        (rt : Runtime) (slug : string) (a : asset) (clock1 clock2 : Z) :
  (civilDate rt clock1 = civilDate rt clock2 ->
   Logger.parseSlug rt clock1 slug a = Logger.parseSlug rt clock2 slug a)
  /\ (Text.search (Grammar.unixPattern a) slug <> None ->
      Logger.parseSlug rt clock1 slug a = Logger.parseSlug rt clock2 slug a)
  /\ (Scrapper.localeParts rt clock1 = Scrapper.localeParts rt clock2 ->
      Scrapper.parseSlug rt clock1 slug a
      = Scrapper.parseSlug rt clock2 slug a)
  /\ (nyLocal rt clock1 / ES.msPerSecond = nyLocal rt clock2 / ES.msPerSecond ->
      Scrapper.parseSlug rt clock1 slug a
      = Scrapper.parseSlug rt clock2 slug a)
  /\ (Text.search (Grammar.unixPattern a) slug <> None ->
      Scrapper.parseSlug rt clock1 slug a
      = Scrapper.parseSlug rt clock2 slug a)
  /\ (exists (c1 c2 : Z) (s : string) (x : asset),
         civilDate nodeUTC c1 = civilDate nodeUTC c2
         /\ Scrapper.parseSlug nodeUTC c1 s x
            <> Scrapper.parseSlug nodeUTC c2 s x).
Proof.
  split; [|split; [|split; [|split; [|split]]]].
  - unfold civilDate. cbv zeta. intros H.
    pose proof (f_equal (fun x => fst (fst x)) H) as Hy.
    pose proof (f_equal (fun x => snd (fst x)) H) as Hm.
    pose proof (f_equal snd H) as Hd.
    cbv beta in Hy, Hm, Hd. unfold fst, snd in Hy, Hm, Hd.
    unfold Logger.parseSlug, Logger.decodeDaily, Logger.decodeH1. cbv zeta.
    now rewrite Hy, Hm, Hd.
  - intros H. unfold Logger.parseSlug.
    destruct (Text.search (Grammar.unixPattern a) slug); [reflexivity|].
    congruence.
  - apply scrapper_parse_reading.
  - intros H. apply scrapper_parse_reading.
    now apply localeParts_of_second.
  - intros H. unfold Scrapper.parseSlug.
    destruct (Text.search (Grammar.unixPattern a) slug); [reflexivity|].
    congruence.
  - exists 1762147800000, 1762149600000,
      "xrp-up-or-down-november-3-1am-et"%string, XRP.
    split; [reflexivity|]. vm_compute. discriminate.
Qed.

(** Two readings on 2 November 2025 for the current decoder; two readings
    within the same second for the Scrapper decoder. *)
Lemma C7_decode_clock_dependence_witness :
  (civilDate nodeUTC 1762073220000 = civilDate nodeUTC 1762127220000
   /\ Logger.parseSlug nodeUTC 1762073220000
                       "bitcoin-up-or-down-on-november-3" BTC
      = Logger.parseSlug nodeUTC 1762127220000
                         "bitcoin-up-or-down-on-november-3" BTC)
  /\ (nyLocal nodeUTC 1762073220000 / ES.msPerSecond
      = nyLocal nodeUTC 1762073220999 / ES.msPerSecond
      /\ Scrapper.parseSlug nodeUTC 1762073220000
                            "bitcoin-up-or-down-on-november-3" BTC
         = Scrapper.parseSlug nodeUTC 1762073220999
                              "bitcoin-up-or-down-on-november-3" BTC).
Proof.
  split; (split; [reflexivity|]).
  - exact (proj1 (C7_decode_clock_dependence nodeUTC
                    "bitcoin-up-or-down-on-november-3" BTC
                    1762073220000 1762127220000) eq_refl).
  - exact (proj1 (proj2 (proj2 (proj2 (C7_decode_clock_dependence nodeUTC
                    "bitcoin-up-or-down-on-november-3" BTC
                    1762073220000 1762073220999)))) eq_refl).
Defined.
